(** * Narrow-band least squares: the orchestration script

    A shallow embedding of [src/leastsquares_butpmcc.py]: the script that
    gathers a waveform collection, plans frequency bands and window lengths,
    beamforms the broadband signal and every narrow band, stores the per-band
    results in preallocated arrays and saves four figures.

    Conventions of the model:
    - the script is a module-level sequence of statements; it is embedded as
      a computation in a state-and-exception monad ([M]) whose state holds the
      names and objects the statements share;
    - the numbers of the configuration and the sampling rate are held as the
      rationals they denote ([Q]); where the script truncates a float to an
      [int] (the increment [int((1-WINOVER)*WINLEN)] and the capacity
      [int(nits/Fs)]) the float arithmetic is binary64, rounded to nearest
      ([Float]); frequencies, which go through logarithms and powers of ten,
      are real numbers ([R]);
    - library calls ([ltsva], [filter_data], the plotting functions, ...) are
      fields of the record [externals]: functions of their arguments that
      either return a value or raise; they do not mutate their arguments;
    - [np.empty] returns uninitialised memory: its contents are an input of a
      run ([memory]). *)

From stdpp Require Import base list strings.
From Stdlib Require Import ZArith QArith Qround Qreals Reals Lia Psatz.

Set Default Proof Using "Type".
Open Scope Z_scope.

(** ** Python results *)

Inductive exn : Type :=
| NameError (name : string)
| IndexError
| ValueError
| ZeroDivisionError
| OverflowError
| LibraryError (who : string).

(** What a call does: return a value or raise. *)
Inductive outcome (A : Type) : Type :=
| Returns (a : A)
| Raises (e : exn).
Arguments Returns {A} a.
Arguments Raises {A} e.

(** ** Python floats *)
Module Float.

(** A binary64 value: the finite number [m * 2^e], an infinity or a NaN.
    The sign of zero is not kept: [int()] and the test for a zero divisor
    do not tell the two zeros apart. *)
Inductive t : Type :=
| Finite (m e : Z)
| Infinity (negative : bool)
| NaN.

Definition prec : Z := 53.
Definition emin : Z := -1074.
Definition emax : Z := 1024.

(** The integer nearest to [n / d] for [0 < d], ties to the even one. *)
Definition nearest_even (n d : Z) : Z :=
  let q := n / d in
  match 2 * (n mod d) ?= d with
  | Lt => q
  | Gt => q + 1
  | Eq => if Z.even q then q else q + 1
  end.

(** [n / d * 2^(-u)] as a fraction, for [0 < d]. *)
Definition scaled (n d u : Z) : Z * Z :=
  if 0 <=? u then (n, d * 2 ^ u) else (n * 2 ^ (- u), d).

(** The [e] with [2^(e-1) <= n / d < 2^e], for [0 < n] and [0 < d]. *)
Definition mag (n d : Z) : Z :=
  let e0 := Z.log2 n - Z.log2 d in
  let '(n', d') := scaled n d e0 in
  if d' <=? n' then e0 + 1 else e0.

(** The binary64 value nearest to [n / d], for [0 < d]: 53 significant
    bits, the last one worth at least [2^emin], ties to even, overflow to
    an infinity. *)
Definition round (n d : Z) : t :=
  if n =? 0 then Finite 0 0
  else
    let a := Z.abs n in
    let e := mag a d in
    let u := Z.max (e - prec) emin in
    let '(n', d') := scaled a d u in
    let m := nearest_even n' d' in
    if (emax <? e) || ((e =? emax) && (m =? 2 ^ prec)) then Infinity (n <? 0)
    else Finite (Z.sgn n * m) u.

(** A number as written, or an [int], as a float. *)
Definition of_Q (q : Q) : t := round (Qnum q) (Zpos (Qden q)).
Definition of_Z (z : Z) : t := round z 1.

(** The float nearest to [m * 2^e]. *)
Definition round_dyadic (m e : Z) : t :=
  if 0 <=? e then round (m * 2 ^ e) 1 else round m (2 ^ (- e)).

Definition is_zero (x : t) : bool :=
  match x with Finite m _ => m =? 0 | _ => false end.

Definition opp (x : t) : t :=
  match x with
  | Finite m e => Finite (- m) e
  | Infinity s => Infinity (negb s)
  | NaN => NaN
  end.

(** [x + y]. *)
Definition add (x y : t) : t :=
  match x, y with
  | NaN, _ | _, NaN => NaN
  | Infinity s, Infinity s' => if Bool.eqb s s' then Infinity s else NaN
  | Infinity s, Finite _ _ => Infinity s
  | Finite _ _, Infinity s => Infinity s
  | Finite m1 e1, Finite m2 e2 =>
      let e := Z.min e1 e2 in
      round_dyadic (m1 * 2 ^ (e1 - e) + m2 * 2 ^ (e2 - e)) e
  end.

(** [x - y]. *)
Definition sub (x y : t) : t := add x (opp y).

(** [x * y]. *)
Definition mul (x y : t) : t :=
  match x, y with
  | NaN, _ | _, NaN => NaN
  | Infinity s, Infinity s' => Infinity (xorb s s')
  | Infinity s, Finite m _ | Finite m _, Infinity s =>
      if m =? 0 then NaN else Infinity (xorb s (m <? 0))
  | Finite m1 e1, Finite m2 e2 => round_dyadic (m1 * m2) (e1 + e2)
  end.

(** [x / y] for a [y] that is not zero. *)
Definition div (x y : t) : t :=
  match x, y with
  | NaN, _ | _, NaN => NaN
  | Infinity _, Infinity _ => NaN
  | Infinity s, Finite m _ => Infinity (xorb s (m <? 0))
  | Finite _ _, Infinity _ => Finite 0 0
  | Finite m1 e1, Finite m2 e2 =>
      let n := Z.sgn m2 * m1 in
      let d := Z.abs m2 in
      if e2 <=? e1 then round (n * 2 ^ (e1 - e2)) d else round n (d * 2 ^ (e2 - e1))
  end.

(** [int(x)]: truncation toward zero. *)
Definition to_int (x : t) : outcome Z :=
  match x with
  | Finite m e => Returns (if 0 <=? e then m * 2 ^ e else Z.quot m (2 ^ (- e)))
  | Infinity _ => Raises OverflowError
  | NaN => Raises ValueError
  end.

End Float.

(** ** The numpy and math functions the script calls *)
Module Numpy.

(** Ceiling of the quotient [a / b] for [b <> 0]. *)
Definition ceil_div (a b : Z) : Z := - ((- a) / b).

(** [np.arange(start, stop, step)] on integers. *)
Definition arange (start stop step : Z) : outcome (list Z) :=
  if step =? 0 then Raises ZeroDivisionError
  else Returns (map (fun k : nat => start + Z.of_nat k * step)
                    (seq 0 (Z.to_nat (ceil_div (stop - start) step)))).

(** [np.empty((rows, cols))]: an array whose cells hold whatever the
    allocator returns, [garbage r c] for the cell at row [r], column [c]. *)
Definition empty {A} (garbage : nat -> nat -> A) (rows cols : Z)
  : outcome (list (list A)) :=
  if (rows <? 0) || (cols <? 0) then Raises ValueError
  else Returns (map (fun r => map (garbage r) (seq 0 (Z.to_nat cols)))
                    (seq 0 (Z.to_nat rows))).

(** [row[:k] = v] for a one-dimensional [v] of length [k]: the slice has
    [min k (len row)] cells; [v] must have that length, or length 1, which
    numpy broadcasts over the slice. *)
Definition assign_prefix {A} (row v : list A) : outcome (list A) :=
  let k := length v in
  let n := Nat.min k (length row) in
  if decide (k = n) then Returns (v ++ drop k row)
  else match v with
       | [x] => Returns (replicate n x ++ drop n row)
       | _ => Raises ValueError
       end.

(** [row[:] = v]: the whole row. *)
Definition assign_row {A} (row v : list A) : outcome (list A) :=
  if decide (length v = length row) then Returns v
  else match v with
       | [x] => Returns (replicate (length row) x)
       | _ => Raises ValueError
       end.

(** [a[i, ...] = ...] on a two-dimensional array: row [i] is replaced by
    [f row]; an index outside the array raises. *)
Definition update_row {A} (a : list (list A)) (i : nat)
    (f : list A -> outcome (list A)) : outcome (list (list A)) :=
  match a !! i with
  | None => Raises IndexError
  | Some row =>
      match f row with
      | Returns row' => Returns (<[i := row']> a)
      | Raises e => Raises e
      end
  end.

(** The base-ten logarithm of a positive real. *)
Definition log10 (x : R) : R := (ln x / ln 10)%R.

(** [math.log(x, 10)] on a float: a [ValueError] unless [x > 0]. *)
Definition math_log10 (x : Q) : outcome R :=
  if Qle_bool x 0 then Raises ValueError else Returns (log10 (Q2R x)).

(** [np.linspace(a, b, num)]. *)
Definition linspace (a b : R) (num : nat) : list R :=
  map (fun i : nat => (a + INR i * ((b - a) / INR (num - 1)))%R) (seq 0 num).

(** [np.logspace(a, b, num)]: ten to the power of [linspace]. *)
Definition logspace (a b : R) (num : nat) : list R :=
  map (fun x => Rpower 10 x) (linspace a b num).

End Numpy.

(** ** Data model *)

(** One channel of the waveform collection: its samples and the station
    coordinates that [gather_waveforms] attaches to [tr.stats]. *)
Record Trace : Type := mkTrace {
  data : list Q;
  latitude : Q;
  longitude : Q
}.

(** An obspy [Stream]: an ordered sequence of traces. *)
Definition Stream : Type := list Trace.

(** A complex number, as (real part, imaginary part). *)
Definition complex : Type := (R * R)%type.
Definition complex_of_float (x : R) : complex := (x, 0%R).

(** The user-input block of the script (lines 35-98). *)
Record config : Type := mkConfig {
  SOURCE : string;
  NETWORK : string;
  STATION : string;
  LOCATION : string;
  CHANNEL : string;
  START : Q;
  END : Q;
  FMIN : R;
  FMAX : R;
  nbands : Z;
  freq_band_type : string;
  filter_type : string;
  filter_order : Z;
  filter_ripple : Q;
  WINOVER : Q;
  window_length : string;
  WINLEN : Q;
  WINLEN_1 : Q;
  WINLEN_X : Q;
  ALPHA : Q;
  mdccm_thresh : Q;
  save_dir : string;
  file_type : string;
  dpi_num : Z
}.

(** The contents of freshly allocated arrays: [float_garbage k r c] is what
    the k-th [np.empty] of floats holds at row [r], column [c]. *)
Record memory : Type := mkMemory {
  float_garbage : nat -> nat -> nat -> Q;
  complex_garbage : nat -> nat -> nat -> complex
}.

Section Script.

(** Objects of the libraries that the script only passes around: filter
    coefficients, the geometry matrix, figures, axes, beamformer outputs. *)
Variable Obj : Type.

(** What a run does to the outside, in order. *)
Inductive event : Type :=
| Called_gather_waveforms
| Called_read (path : string)
| Called_filter_data (st : Stream) (fmin fmax : R)
| Called_ltsva (stf : Stream) (rij : Obj) (winlen winover alpha : Q)
| Called_sosfreqz (sos : Obj) (worN : list R) (fs : Q)
| Wrote (fig : Obj) (path : string) (dpi : Z)
| Closed (fig : Obj)
| Printed (n : Z).

(** The functions the script imports. *)
Record externals : Type := mkExternals {
  gather_waveforms :
    string -> string -> string -> string -> string -> Q -> Q -> bool -> outcome Stream;
  read : string -> outcome Stream;
  trim : Stream -> Q -> Q -> outcome Stream;
  get_freqlist : R -> R -> string -> Z -> outcome (list R);
  get_winlenlist : string -> Z -> Q -> Q -> Q -> outcome (list Q);
  filter_data : Stream -> string -> R -> R -> Z -> Q -> outcome (Stream * Q * Obj);
  make_float : Obj -> outcome (list Q);
  getrij : list Q -> list Q -> outcome Obj;
  ltsva : Stream -> Obj -> Q -> Q -> Q -> outcome (Obj * Obj * Obj * Obj * Obj * Obj);
  array_plot : Stream -> Obj -> Obj -> Obj -> Obj -> bool -> Q -> Obj -> outcome (Obj * Obj);
  savefig : Obj -> string -> Z -> outcome unit;
  sosfreqz : Obj -> list R -> Q -> outcome (list R * list complex);
  broad_filter_response_plot :
    list R -> list complex -> R -> R -> string -> Z -> Q -> outcome Obj;
  processing_parameters_plot :
    Obj -> list R -> list Q -> Z -> R -> R -> list (list complex) -> list (list complex) ->
    string -> Z -> Q -> outcome Obj;
  pmcc_like_plot :
    R -> R -> Stream -> Z -> list R -> list (list Q) -> list (list Q) -> list (list Q) ->
    list (list Q) -> list nat -> Q -> outcome Obj;
  cpu_count : outcome Z
}.

(** The module-level names the statements share.  A name is [None] until
    something binds it.  The first seven are the names that some path of the
    script reads without having assigned them; they are bound at the start
    of a run only if the namespace the script runs in already has them. *)
Record state : Type := mkState {
  st : option Stream;
  latlist : option (list Q);
  lonlist : option (list Q);
  data_dir : option string;
  calib : option Q;
  plt : option (Obj -> outcome unit);
  sampinc : option Z;
  rij : option Obj;
  freq_resp_list : option (list R);
  vel_array : option (list (list Q));
  baz_array : option (list (list Q));
  mdccm_array : option (list (list Q));
  t_array : option (list (list Q));
  w_array : option (list (list complex));
  h_array : option (list (list complex));
  num_compute_list : option (list nat);
  trace : list event
}.

Definition set_st v s := mkState (Some v) (latlist s) (lonlist s) (data_dir s) (calib s) (plt s) (sampinc s) (rij s) (freq_resp_list s) (vel_array s) (baz_array s) (mdccm_array s) (t_array s) (w_array s) (h_array s) (num_compute_list s) (trace s).
Definition set_latlist v s := mkState (st s) (Some v) (lonlist s) (data_dir s) (calib s) (plt s) (sampinc s) (rij s) (freq_resp_list s) (vel_array s) (baz_array s) (mdccm_array s) (t_array s) (w_array s) (h_array s) (num_compute_list s) (trace s).
Definition set_lonlist v s := mkState (st s) (latlist s) (Some v) (data_dir s) (calib s) (plt s) (sampinc s) (rij s) (freq_resp_list s) (vel_array s) (baz_array s) (mdccm_array s) (t_array s) (w_array s) (h_array s) (num_compute_list s) (trace s).
Definition set_sampinc v s := mkState (st s) (latlist s) (lonlist s) (data_dir s) (calib s) (plt s) (Some v) (rij s) (freq_resp_list s) (vel_array s) (baz_array s) (mdccm_array s) (t_array s) (w_array s) (h_array s) (num_compute_list s) (trace s).
Definition set_rij v s := mkState (st s) (latlist s) (lonlist s) (data_dir s) (calib s) (plt s) (sampinc s) (Some v) (freq_resp_list s) (vel_array s) (baz_array s) (mdccm_array s) (t_array s) (w_array s) (h_array s) (num_compute_list s) (trace s).
Definition set_freq_resp_list v s := mkState (st s) (latlist s) (lonlist s) (data_dir s) (calib s) (plt s) (sampinc s) (rij s) (Some v) (vel_array s) (baz_array s) (mdccm_array s) (t_array s) (w_array s) (h_array s) (num_compute_list s) (trace s).
Definition set_vel_array v s := mkState (st s) (latlist s) (lonlist s) (data_dir s) (calib s) (plt s) (sampinc s) (rij s) (freq_resp_list s) (Some v) (baz_array s) (mdccm_array s) (t_array s) (w_array s) (h_array s) (num_compute_list s) (trace s).
Definition set_baz_array v s := mkState (st s) (latlist s) (lonlist s) (data_dir s) (calib s) (plt s) (sampinc s) (rij s) (freq_resp_list s) (vel_array s) (Some v) (mdccm_array s) (t_array s) (w_array s) (h_array s) (num_compute_list s) (trace s).
Definition set_mdccm_array v s := mkState (st s) (latlist s) (lonlist s) (data_dir s) (calib s) (plt s) (sampinc s) (rij s) (freq_resp_list s) (vel_array s) (baz_array s) (Some v) (t_array s) (w_array s) (h_array s) (num_compute_list s) (trace s).
Definition set_t_array v s := mkState (st s) (latlist s) (lonlist s) (data_dir s) (calib s) (plt s) (sampinc s) (rij s) (freq_resp_list s) (vel_array s) (baz_array s) (mdccm_array s) (Some v) (w_array s) (h_array s) (num_compute_list s) (trace s).
Definition set_w_array v s := mkState (st s) (latlist s) (lonlist s) (data_dir s) (calib s) (plt s) (sampinc s) (rij s) (freq_resp_list s) (vel_array s) (baz_array s) (mdccm_array s) (t_array s) (Some v) (h_array s) (num_compute_list s) (trace s).
Definition set_h_array v s := mkState (st s) (latlist s) (lonlist s) (data_dir s) (calib s) (plt s) (sampinc s) (rij s) (freq_resp_list s) (vel_array s) (baz_array s) (mdccm_array s) (t_array s) (w_array s) (Some v) (num_compute_list s) (trace s).
Definition set_num_compute_list v s := mkState (st s) (latlist s) (lonlist s) (data_dir s) (calib s) (plt s) (sampinc s) (rij s) (freq_resp_list s) (vel_array s) (baz_array s) (mdccm_array s) (t_array s) (w_array s) (h_array s) (Some v) (trace s).
Definition log_event ev s := mkState (st s) (latlist s) (lonlist s) (data_dir s) (calib s) (plt s) (sampinc s) (rij s) (freq_resp_list s) (vel_array s) (baz_array s) (mdccm_array s) (t_array s) (w_array s) (h_array s) (num_compute_list s) (trace s ++ [ev]).

(** ** The monad of statements *)

Definition M (A : Type) : Type := state -> outcome A * state.

Definition ret {A} (a : A) : M A := fun s => (Returns a, s).
Definition raise {A} (e : exn) : M A := fun s => (Raises e, s).
Definition bind {A B} (m : M A) (k : A -> M B) : M B :=
  fun s => match m s with
           | (Returns a, s') => k a s'
           | (Raises e, s') => (Raises e, s')
           end.

(** Reading a global name: [NameError] while it is unbound. *)
Definition name {A} (id : string) (field : state -> option A) : M A :=
  fun s => match field s with
           | Some v => (Returns v, s)
           | None => (Raises (NameError id), s)
           end.

(** Binding or mutating a global. *)
Definition assign (set : state -> state) : M unit := fun s => (Returns tt, set s).

(** The result of a library call or of a pure library function. *)
Definition lift {A} (o : outcome A) : M A := fun s => (o, s).

(** A library call the trace records when it is made. *)
Definition call {A} (ev : event) (o : outcome A) : M A := fun s => (o, log_event ev s).

(** [seq[i]]. *)
Definition index {A} (l : list A) (i : nat) : M A :=
  match l !! i with
  | Some x => ret x
  | None => raise IndexError
  end.

(** [for x in l: body]. *)
Fixpoint for_each {A} (l : list A) (body : A -> M unit) : M unit :=
  match l with
  | [] => ret tt
  | x :: l' => bind (body x) (fun _ => for_each l' body)
  end.

Declare Scope py_scope.
Delimit Scope py_scope with py.
Notation "x ← y ; z" := (bind y (fun x => z))
  (at level 20, y at level 100, z at level 200) : py_scope.
Notation "' x ← y ; z" := (bind y (fun x => z))
  (at level 20, x pattern, y at level 100, z at level 200) : py_scope.
Notation "x ;; z" := (bind x (fun _ => z))
  (at level 100, z at level 200, right associativity) : py_scope.
Open Scope py_scope.

(** ** The script *)

Variable cfg : config.
Variable ext : externals.
Variable mem : memory.

(** [fig.savefig(save_dir + name, dpi=dpi_num)]: the file is written when
    the call returns. *)
Definition fig_savefig (fig : Obj) (base : string) : M unit :=
  let path := (save_dir cfg +:+ base)%string in
  lift (savefig ext fig path (dpi_num cfg));;
  assign (log_event (Wrote fig path (dpi_num cfg))).

(** [plt.close(fig)]: the name [plt] is looked up first. *)
Definition plt_close (fig : Obj) : M unit :=
  close ← name "plt" plt;
  lift (close fig);;
  assign (log_event (Closed fig)).

(** Lines 124-126: [for ii in range(len(st)): tr = st[ii]; tr.data = tr.data*calib]. *)
Definition calibrate (ii : nat) : M unit :=
  traces ← name "st" st;
  tr ← index traces ii;
  c ← name "calib" calib;
  assign (set_st (<[ii := mkTrace (map (Qmult c) (data tr)) (latitude tr) (longitude tr)]> traces)).

(** Lines 114-126: Gather Data. *)
Definition gather_data : M unit :=
  if (SOURCE cfg =? "IRIS")%string then
    s ← call Called_gather_waveforms
           (gather_waveforms ext (SOURCE cfg) (NETWORK cfg) (STATION cfg) (LOCATION cfg)
              (CHANNEL cfg) (START cfg) (END cfg) true);
    assign (set_st s);;
    traces ← name "st" st;
    assign (set_latlist (map latitude traces));;
    traces ← name "st" st;
    assign (set_lonlist (map longitude traces))
  else if (SOURCE cfg =? "local")%string then
    assign (set_st []);;
    traces ← name "st" st;
    dir ← name "data_dir" data_dir;
    more ← call (Called_read (dir +:+ "*.mseed")) (read ext (dir +:+ "*.mseed"));
    assign (set_st (traces ++ more));;
    traces ← name "st" st;
    trimmed ← lift (trim ext traces (START cfg) (END cfg));
    assign (set_st trimmed);;
    traces ← name "st" st;
    for_each (seq 0 (length traces)) calibrate
  else ret tt.

(** Lines 134-149: band edges, window lengths, array geometry. *)
Definition setup : M (list R * list Q) :=
  freqlist ← lift (get_freqlist ext (FMIN cfg) (FMAX cfg) (freq_band_type cfg) (nbands cfg));
  WINLEN_list ← lift (get_winlenlist ext (window_length cfg) (nbands cfg)
                        (WINLEN cfg) (WINLEN_1 cfg) (WINLEN_X cfg));
  lat ← name "latlist" latlist;
  lon ← name "lonlist" lonlist;
  geometry ← lift (getrij ext lat lon);
  assign (set_rij geometry);;
  ret (freqlist, WINLEN_list).

(** Lines 157-163: Broadband Array Processing and its figure. *)
Definition broadband_processing : M (Stream * Q * Obj) :=
  traces ← name "st" st;
  '(stf_broad, Fs, sos) ←
    call (Called_filter_data traces (FMIN cfg) (FMAX cfg))
      (filter_data ext traces (filter_type cfg) (FMIN cfg) (FMAX cfg)
         (filter_order cfg) (filter_ripple cfg));
  geometry ← name "rij" rij;
  '(vel, baz, t, mdccm, stdict, sig_tau) ←
    call (Called_ltsva stf_broad geometry (WINLEN cfg) (WINOVER cfg) (ALPHA cfg))
      (ltsva ext stf_broad geometry (WINLEN cfg) (WINOVER cfg) (ALPHA cfg));
  '(fig1, axs1) ←
    lift (array_plot ext stf_broad t mdccm vel baz true (mdccm_thresh cfg) sig_tau);
  fig_savefig fig1 "LeastSquares";;
  plt_close fig1;;
  ret (stf_broad, Fs, sos).

(** Lines 169-178: the response grid, the broadband filter response and its
    figure. *)
Definition broadband_response (Fs : Q) (sos : Obj) : M (list R * list complex) :=
  let FMINL := Numpy.log10 (1 / 100) in
  FMAXL ← lift (Numpy.math_log10 (Fs / 2));
  assign (set_freq_resp_list (Numpy.logspace FMINL FMAXL 1000));;
  grid ← name "freq_resp_list" freq_resp_list;
  '(w_broad, h_broad) ← call (Called_sosfreqz sos grid Fs) (sosfreqz ext sos grid Fs);
  fig ← lift (broad_filter_response_plot ext w_broad h_broad (FMIN cfg) (FMAX cfg)
                (filter_type cfg) (filter_order cfg) (filter_ripple cfg));
  fig_savefig fig "Filter_Frequency_Response_Broadband";;
  plt_close fig;;
  ret (w_broad, h_broad).

(** Lines 187 and 189: [int((1-WINOVER)*W)].  [1 - WINOVER] is a float
    subtraction, the product a float product, [int] truncates it. *)
Definition window_increment (WINOVER W : Q) : outcome Z :=
  Float.to_int (Float.mul (Float.sub (Float.of_Z 1) (Float.of_Q WINOVER)) (Float.of_Q W)).

(** Lines 190-193: [vector_len] from the increment, the record and the
    sampling rate.  [nits/Fs] divides an [int] by a float: a float division,
    [ZeroDivisionError] for a zero rate. *)
Definition vector_len (inc npts : Z) (Fs : Q) : outcome Z :=
  match Numpy.arange 0 npts inc with
  | Raises e => Raises e
  | Returns its =>
      let nits := Z.of_nat (length its) - 1 in
      let rate := Float.of_Q Fs in
      if Float.is_zero rate then Raises ZeroDivisionError
      else Float.to_int (Float.div (Float.of_Z nits) rate)
  end.

(** Lines 186-214: Initialize Numpy Arrays, the core count, the empty
    [num_compute_list]. *)
Definition initialize_arrays (Fs : Q) (w_broad : list R) (h_broad : list complex) : M unit :=
  (if (window_length cfg =? "constant")%string then
     inc ← lift (window_increment (WINOVER cfg) (WINLEN cfg));
     assign (set_sampinc inc)
   else if (window_length cfg =? "adaptive")%string then
     inc ← lift (window_increment (WINOVER cfg) (WINLEN_X cfg));
     assign (set_sampinc inc)
   else ret tt);;
  traces ← name "st" st;
  tr0 ← index traces 0;
  let npts := Z.of_nat (length (data tr0)) in
  inc ← name "sampinc" sampinc;
  cols ← lift (vector_len inc npts Fs);
  a ← lift (Numpy.empty (float_garbage mem 0) (nbands cfg) cols);
  assign (set_vel_array a);;
  a ← lift (Numpy.empty (float_garbage mem 1) (nbands cfg) cols);
  assign (set_baz_array a);;
  a ← lift (Numpy.empty (float_garbage mem 2) (nbands cfg) cols);
  assign (set_mdccm_array a);;
  a ← lift (Numpy.empty (float_garbage mem 3) (nbands cfg) cols);
  assign (set_t_array a);;
  a ← lift (Numpy.empty (complex_garbage mem 0) (nbands cfg) (Z.of_nat (length w_broad)));
  assign (set_w_array a);;
  a ← lift (Numpy.empty (complex_garbage mem 1) (nbands cfg) (Z.of_nat (length h_broad)));
  assign (set_h_array a);;
  num_cores ← lift (cpu_count ext);
  assign (log_event (Printed num_cores));;
  assign (set_num_compute_list []).

(** Lines 216-242: the body of the narrow-band loop for band [ii]. *)
Definition band_step (freqlist : list R) (WINLEN_list : list Q) (ii : nat) : M unit :=
  tempfmin ← index freqlist ii;
  tempfmax ← index freqlist (ii + 1);
  traces ← name "st" st;
  '(tempst_filter, Fs, sos) ←
    call (Called_filter_data traces tempfmin tempfmax)
      (filter_data ext traces (filter_type cfg) tempfmin tempfmax
         (filter_order cfg) (filter_ripple cfg));
  grid ← name "freq_resp_list" freq_resp_list;
  '(w, h) ← call (Called_sosfreqz sos grid Fs) (sosfreqz ext sos grid Fs);
  a ← name "w_array" w_array;
  a ← lift (Numpy.update_row a ii (fun row => Numpy.assign_row row (map complex_of_float w)));
  assign (set_w_array a);;
  a ← name "h_array" h_array;
  a ← lift (Numpy.update_row a ii (fun row => Numpy.assign_row row h));
  assign (set_h_array a);;
  geometry ← name "rij" rij;
  winlen ← index WINLEN_list ii;
  '(vel, baz, t, mdccm, stdict, sig_tau) ←
    call (Called_ltsva tempst_filter geometry winlen (WINOVER cfg) (ALPHA cfg))
      (ltsva ext tempst_filter geometry winlen (WINOVER cfg) (ALPHA cfg));
  vel_float ← lift (make_float ext vel);
  baz_float ← lift (make_float ext baz);
  mdccm_float ← lift (make_float ext mdccm);
  t_float ← lift (make_float ext t);
  a ← name "vel_array" vel_array;
  a ← lift (Numpy.update_row a ii (fun row => Numpy.assign_prefix row vel_float));
  assign (set_vel_array a);;
  a ← name "baz_array" baz_array;
  a ← lift (Numpy.update_row a ii (fun row => Numpy.assign_prefix row baz_float));
  assign (set_baz_array a);;
  a ← name "mdccm_array" mdccm_array;
  a ← lift (Numpy.update_row a ii (fun row => Numpy.assign_prefix row mdccm_float));
  assign (set_mdccm_array a);;
  a ← name "t_array" t_array;
  a ← lift (Numpy.update_row a ii (fun row => Numpy.assign_prefix row t_float));
  assign (set_t_array a);;
  counts ← name "num_compute_list" num_compute_list;
  assign (set_num_compute_list (counts ++ [length vel_float])).

(** Line 215: [for ii in range(nbands)]. *)
Definition narrow_band_processing (freqlist : list R) (WINLEN_list : list Q) : M unit :=
  for_each (seq 0 (Z.to_nat (nbands cfg))) (band_step freqlist WINLEN_list).

(** Lines 252-254: the Processing Parameters figure. *)
Definition plot_processing_parameters (freqlist : list R) (WINLEN_list : list Q) : M unit :=
  geometry ← name "rij" rij;
  wa ← name "w_array" w_array;
  ha ← name "h_array" h_array;
  fig ← lift (processing_parameters_plot ext geometry freqlist WINLEN_list (nbands cfg)
                (FMIN cfg) (FMAX cfg) wa ha (filter_type cfg) (filter_order cfg)
                (filter_ripple cfg));
  fig_savefig fig "Processing_Parameters";;
  plt_close fig.

(** Lines 262-264: the PMCC-like figure. *)
Definition plot_pmcc_like (freqlist : list R) (stf_broad : Stream) : M unit :=
  va ← name "vel_array" vel_array;
  ba ← name "baz_array" baz_array;
  ma ← name "mdccm_array" mdccm_array;
  ta ← name "t_array" t_array;
  counts ← name "num_compute_list" num_compute_list;
  fig ← lift (pmcc_like_plot ext (FMIN cfg) (FMAX cfg) stf_broad (nbands cfg) freqlist
                va ba ma ta counts (mdccm_thresh cfg));
  fig_savefig fig "LeastSquaresButPMCC";;
  plt_close fig.

(** Lines 186-264: everything after the broadband figures. *)
Definition narrow_band_part (freqlist : list R) (WINLEN_list : list Q)
    (stf_broad : Stream) (Fs : Q) (w_broad : list R) (h_broad : list complex) : M unit :=
  initialize_arrays Fs w_broad h_broad;;
  narrow_band_processing freqlist WINLEN_list;;
  plot_processing_parameters freqlist WINLEN_list;;
  plot_pmcc_like freqlist stf_broad.

(** The whole script, top to bottom. *)
Definition script : M unit :=
  gather_data;;
  '(freqlist, WINLEN_list) ← setup;
  '(stf_broad, Fs, sos) ← broadband_processing;
  '(w_broad, h_broad) ← broadband_response Fs sos;
  narrow_band_part freqlist WINLEN_list stf_broad Fs w_broad h_broad.

(** The names a run finds already bound: none for [python
    leastsquares_butpmcc.py]; an interactive session that runs the file in
    its own namespace may hold some of the seven. *)
Record namespace : Type := mkNamespace {
  pre_st : option Stream;
  pre_latlist : option (list Q);
  pre_lonlist : option (list Q);
  pre_data_dir : option string;
  pre_calib : option Q;
  pre_plt : option (Obj -> outcome unit);
  pre_sampinc : option Z
}.

Definition fresh : namespace := mkNamespace None None None None None None None.

Definition initial (pre : namespace) : state :=
  mkState (pre_st pre) (pre_latlist pre) (pre_lonlist pre) (pre_data_dir pre)
    (pre_calib pre) (pre_plt pre) (pre_sampinc pre)
    None None None None None None None None None [].

(** One execution of the script. *)
Definition run (pre : namespace) : outcome unit * state := script (initial pre).

End Script.

Arguments Called_gather_waveforms {Obj}.
Arguments Called_read {Obj} path.
Arguments Called_filter_data {Obj} st fmin fmax.
Arguments Called_ltsva {Obj} stf rij winlen winover alpha.
Arguments Called_sosfreqz {Obj} sos worN fs.
Arguments Wrote {Obj} fig path dpi.
Arguments Closed {Obj} fig.
Arguments Printed {Obj} n.
Arguments mkExternals {Obj}.
Arguments st {Obj} s.
Arguments latlist {Obj} s.
Arguments lonlist {Obj} s.
Arguments data_dir {Obj} s.
Arguments calib {Obj} s.
Arguments plt {Obj} s.
Arguments sampinc {Obj} s.
Arguments rij {Obj} s.
Arguments freq_resp_list {Obj} s.
Arguments vel_array {Obj} s.
Arguments baz_array {Obj} s.
Arguments mdccm_array {Obj} s.
Arguments t_array {Obj} s.
Arguments w_array {Obj} s.
Arguments h_array {Obj} s.
Arguments num_compute_list {Obj} s.
Arguments trace {Obj} s.
Arguments set_st {Obj} v s.
Arguments set_latlist {Obj} v s.
Arguments set_lonlist {Obj} v s.
Arguments set_sampinc {Obj} v s.
Arguments set_rij {Obj} v s.
Arguments set_freq_resp_list {Obj} v s.
Arguments set_vel_array {Obj} v s.
Arguments set_baz_array {Obj} v s.
Arguments set_mdccm_array {Obj} v s.
Arguments set_t_array {Obj} v s.
Arguments set_w_array {Obj} v s.
Arguments set_h_array {Obj} v s.
Arguments set_num_compute_list {Obj} v s.
Arguments log_event {Obj} ev s.
Arguments pre_st {Obj} n.
Arguments pre_latlist {Obj} n.
Arguments pre_lonlist {Obj} n.
Arguments pre_data_dir {Obj} n.
Arguments pre_calib {Obj} n.
Arguments pre_plt {Obj} n.
Arguments pre_sampinc {Obj} n.
Arguments gather_waveforms {Obj} e.
Arguments read {Obj} e.
Arguments trim {Obj} e.
Arguments get_freqlist {Obj} e.
Arguments get_winlenlist {Obj} e.
Arguments filter_data {Obj} e.
Arguments make_float {Obj} e.
Arguments getrij {Obj} e.
Arguments ltsva {Obj} e.
Arguments array_plot {Obj} e.
Arguments savefig {Obj} e.
Arguments sosfreqz {Obj} e.
Arguments broad_filter_response_plot {Obj} e.
Arguments processing_parameters_plot {Obj} e.
Arguments pmcc_like_plot {Obj} e.
Arguments cpu_count {Obj} e.
Arguments fig_savefig {Obj} cfg ext fig base.
Arguments plt_close {Obj} fig.
Arguments calibrate {Obj} ii.
Arguments gather_data {Obj} cfg ext.
Arguments setup {Obj} cfg ext.
Arguments broadband_processing {Obj} cfg ext.
Arguments broadband_response {Obj} cfg ext Fs sos.
Arguments initialize_arrays {Obj} cfg ext mem Fs w_broad h_broad.
Arguments band_step {Obj} cfg ext freqlist WINLEN_list ii.
Arguments narrow_band_processing {Obj} cfg ext freqlist WINLEN_list.
Arguments plot_processing_parameters {Obj} cfg ext freqlist WINLEN_list.
Arguments plot_pmcc_like {Obj} cfg ext freqlist stf_broad.
Arguments narrow_band_part {Obj} cfg ext mem freqlist WINLEN_list stf_broad Fs w_broad h_broad.
Arguments mkState {Obj}.
Arguments mkNamespace {Obj}.
Arguments fresh {Obj}.
Arguments initial {Obj} pre.
Arguments ret {Obj A} a.
Arguments raise {Obj A} e.
Arguments bind {Obj A B} m k.
Arguments name {Obj A} id field.
Arguments assign {Obj} set.
Arguments lift {Obj A} o.
Arguments call {Obj A} ev o.
Arguments index {Obj A} l i.
Arguments for_each {Obj A} l body.
Arguments run {Obj} cfg ext mem pre.
Arguments script {Obj} cfg ext mem.

(** ** The band planner of [helpers.py] *)
Module Helpers.

(** Modelled from the spec: [helpers.get_freqlist] is not among the source
    files.  Section 4.1: "Output: ordered sequence of nbands+1 edges.  Linear
    mode: evenly spaced between FMIN and FMAX.  Log mode: evenly spaced in
    log10 space between FMIN and FMAX, then exponentiated."  The spec names
    no other mode; the model raises there. *)
Definition get_freqlist (FMIN FMAX : R) (freq_band_type : string) (nbands : Z)
  : outcome (list R) :=
  if (freq_band_type =? "linear")%string then
    Returns (Numpy.linspace FMIN FMAX (Z.to_nat nbands + 1))
  else if (freq_band_type =? "log")%string then
    Returns (Numpy.logspace (Numpy.log10 FMIN) (Numpy.log10 FMAX) (Z.to_nat nbands + 1))
  else Raises ValueError.

(** Modelled from the spec: [helpers.get_winlenlist] is not among the source
    files.  Section 4.1: "if mode is 'constant', every band gets the same
    length.  If 'adaptive', lengths are linearly interpolated across band
    index from WINLEN_1 (band 0) to WINLEN_X (band nbands-1)".  The spec
    names no other mode; the model raises there. *)
Definition get_winlenlist (window_length : string) (nbands : Z) (WINLEN WINLEN_1 WINLEN_X : Q)
  : outcome (list Q) :=
  if (window_length =? "constant")%string then
    Returns (replicate (Z.to_nat nbands) WINLEN)
  else if (window_length =? "adaptive")%string then
    Returns (map (fun i : nat =>
                    (WINLEN_1 + inject_Z (Z.of_nat i) * ((WINLEN_X - WINLEN_1) / inject_Z (nbands - 1)))%Q)
                 (seq 0 (Z.to_nat nbands)))
  else Raises ValueError.

End Helpers.

(** ** Concrete inputs *)
Module Example.

(** The configuration the script ships with (lines 35-98).  [START] is
    2018-12-19T01:45:00 in epoch seconds, [END = START + 20*60]. *)
Definition shipped : config := {|
  SOURCE := "IRIS";
  NETWORK := "IM";
  STATION := "I53H?";
  LOCATION := "*";
  CHANNEL := "BDF";
  START := 1545183900;
  END := 1545183900 + 20 * 60;
  FMIN := 7 / 100;
  FMAX := 5;
  nbands := 10;
  freq_band_type := "log";
  filter_type := "cheby1";
  filter_order := 2;
  filter_ripple := 1 # 100;
  WINOVER := 1 # 2;
  window_length := "adaptive";
  WINLEN := 50;
  WINLEN_1 := 60;
  WINLEN_X := 30;
  ALPHA := 1;
  mdccm_thresh := 6 # 10;
  save_dir := "/Users/aiezzi/Desktop/NSF_Postdoc/Array_Processing_Research/narrow_band_least_squares/Figures/";
  file_type := ".png";
  dpi_num := 300
|}.

Definition with_SOURCE (src : string) (c : config) : config :=
  mkConfig src (NETWORK c) (STATION c) (LOCATION c) (CHANNEL c) (START c) (END c)
    (FMIN c) (FMAX c) (nbands c) (freq_band_type c) (filter_type c) (filter_order c)
    (filter_ripple c) (WINOVER c) (window_length c) (WINLEN c) (WINLEN_1 c) (WINLEN_X c)
    (ALPHA c) (mdccm_thresh c) (save_dir c) (file_type c) (dpi_num c).

Definition with_nbands (n : Z) (c : config) : config :=
  mkConfig (SOURCE c) (NETWORK c) (STATION c) (LOCATION c) (CHANNEL c) (START c) (END c)
    (FMIN c) (FMAX c) n (freq_band_type c) (filter_type c) (filter_order c)
    (filter_ripple c) (WINOVER c) (window_length c) (WINLEN c) (WINLEN_1 c) (WINLEN_X c)
    (ALPHA c) (mdccm_thresh c) (save_dir c) (file_type c) (dpi_num c).

Definition with_window_length (mode : string) (c : config) : config :=
  mkConfig (SOURCE c) (NETWORK c) (STATION c) (LOCATION c) (CHANNEL c) (START c) (END c)
    (FMIN c) (FMAX c) (nbands c) (freq_band_type c) (filter_type c) (filter_order c)
    (filter_ripple c) (WINOVER c) mode (WINLEN c) (WINLEN_1 c) (WINLEN_X c)
    (ALPHA c) (mdccm_thresh c) (save_dir c) (file_type c) (dpi_num c).

Definition with_WINLEN_X (w : Q) (c : config) : config :=
  mkConfig (SOURCE c) (NETWORK c) (STATION c) (LOCATION c) (CHANNEL c) (START c) (END c)
    (FMIN c) (FMAX c) (nbands c) (freq_band_type c) (filter_type c) (filter_order c)
    (filter_ripple c) (WINOVER c) (window_length c) (WINLEN c) (WINLEN_1 c) w
    (ALPHA c) (mdccm_thresh c) (save_dir c) (file_type c) (dpi_num c).

(** A four-element array whose channels hold [npts] samples each. *)
Definition array_of (npts : nat) : Stream :=
  map (fun k : nat => mkTrace (replicate npts 0%Q) (inject_Z (Z.of_nat k)) (inject_Z (Z.of_nat k)))
      (seq 0 4).

(** Libraries that always return.  Library objects are numbers: a figure is
    its number, a beamformer output is the number of windows it holds.  The
    record has [npts] samples per channel at [Fs] Hz and the beamformer
    returns [windows winlen] windows. *)
Definition world (npts : nat) (Fs : Q) (windows : Q -> nat) : externals nat := {|
  gather_waveforms := fun _ _ _ _ _ _ _ _ => Returns (array_of npts);
  read := fun _ => Returns (array_of npts);
  trim := fun s _ _ => Returns s;
  get_freqlist := Helpers.get_freqlist;
  get_winlenlist := Helpers.get_winlenlist;
  filter_data := fun s _ _ _ _ _ => Returns (s, Fs, 0%nat);
  make_float := fun n => Returns (replicate n 0%Q);
  getrij := fun _ _ => Returns 0%nat;
  ltsva := fun _ _ winlen _ _ =>
    let n := windows winlen in Returns (n, n, n, n, 0%nat, n);
  array_plot := fun _ _ _ _ _ _ _ _ => Returns (1%nat, 0%nat);
  savefig := fun _ _ _ => Returns tt;
  sosfreqz := fun _ worN _ => Returns (worN, map complex_of_float worN);
  broad_filter_response_plot := fun _ _ _ _ _ _ _ => Returns 2%nat;
  processing_parameters_plot := fun _ _ _ _ _ _ _ _ _ _ _ => Returns 3%nat;
  pmcc_like_plot := fun _ _ _ _ _ _ _ _ _ _ _ => Returns 4%nat;
  cpu_count := Returns 8
|}.

(** Two allocators: one hands out zeroed memory, the other ones. *)
Definition zeros : memory := mkMemory (fun _ _ _ => 0%Q) (fun _ _ _ => (0%R, 0%R)).
Definition ones : memory := mkMemory (fun _ _ _ => 1%Q) (fun _ _ _ => (1%R, 0%R)).

(** A session in which [import matplotlib.pyplot as plt] ran before the
    script. *)
Definition with_plt : namespace nat :=
  mkNamespace None None None None None (Some (fun _ => Returns tt)) None.

End Example.

(** ** What a trace shows *)

Section Observations.
Context {Obj : Type}.

(** The files written, in order: path and dpi. *)
Definition writes (tr : list (event Obj)) : list (string * Z) :=
  omap (fun ev => match ev with Wrote _ path dpi => Some (path, dpi) | _ => None end) tr.

(** The figure events, in order: saves and releases. *)
Definition figure_log (tr : list (event Obj)) : list (event Obj) :=
  omap (fun ev => match ev with Wrote _ _ _ | Closed _ => Some ev | _ => None end) tr.

(** The window length of every beamformer call, in order. *)
Definition beam_windows (tr : list (event Obj)) : list Q :=
  omap (fun ev => match ev with Called_ltsva _ _ winlen _ _ => Some winlen | _ => None end) tr.

(** The frequency grid of every filter-response evaluation, in order. *)
Definition response_grids (tr : list (event Obj)) : list (list R) :=
  omap (fun ev => match ev with Called_sosfreqz _ worN _ => Some worN | _ => None end) tr.

(** The waveform collection handed to every [filter_data] call, in order. *)
Definition filtered_streams (tr : list (event Obj)) : list Stream :=
  omap (fun ev => match ev with Called_filter_data s _ _ => Some s | _ => None end) tr.

(** The data-acquisition calls, in order. *)
Definition acquisitions (tr : list (event Obj)) : list (event Obj) :=
  omap (fun ev => match ev with Called_gather_waveforms | Called_read _ => Some ev | _ => None end) tr.

(** Row [i] of a (possibly unbound) two-dimensional array. *)
Definition row {A} (a : option (list (list A))) (i : nat) : option (list A) :=
  a ≫= (.!! i).

(** The cell at row [i], column [j]. *)
Definition cell {A} (a : option (list (list A))) (i j : nat) : option A :=
  row a i ≫= (.!! j).

(** An array has [rows] rows of [cols] cells each. *)
Definition has_shape {A} (a : list (list A)) (rows cols : nat) : Prop :=
  length a = rows ∧ Forall (fun r => length r = cols) a.

End Observations.

(** ** Reasoning about statements *)

Section Reasoning.
Context {Obj : Type}.
Implicit Types s : state Obj.

(** [wp m s Q]: running [m] from [s] ends, by return or by exception, in a
    result and a state that satisfy [Q]. *)
Definition wp {A} (m : M Obj A) s (Q : outcome A -> state Obj -> Prop) : Prop :=
  Q (fst (m s)) (snd (m s)).

Lemma wp_bind {A B} (m : M Obj A) (k : A -> M Obj B) s Q :
  wp m s (fun r s' => match r with
                      | Returns a => wp (k a) s' Q
                      | Raises e => Q (Raises e) s'
                      end) ->
  wp (bind m k) s Q.
Proof. unfold wp, bind. destruct (m s) as [[a|e] s']; auto. Qed.

Lemma wp_ret {A} (a : A) s Q : Q (Returns a) s -> wp (ret a) s Q.
Proof. auto. Qed.

Lemma wp_raise {A} e s (Q : outcome A -> _) : Q (Raises e) s -> wp (raise e) s Q.
Proof. auto. Qed.

Lemma wp_name {A} id (field : state Obj -> option A) s Q :
  match field s with
  | Some v => Q (Returns v) s
  | None => Q (Raises (NameError id)) s
  end -> wp (name id field) s Q.
Proof. unfold wp, name. destruct (field s); auto. Qed.

Lemma wp_assign f s Q : Q (Returns tt) (f s) -> wp (assign f) s Q.
Proof. auto. Qed.

Lemma wp_lift {A} (o : outcome A) s Q : Q o s -> wp (lift o) s Q.
Proof. auto. Qed.

Lemma wp_call {A} ev (o : outcome A) s Q : Q o (log_event ev s) -> wp (call ev o) s Q.
Proof. auto. Qed.

Lemma wp_index {A} (l : list A) i s Q :
  match l !! i with
  | Some x => Q (Returns x) s
  | None => Q (Raises IndexError) s
  end -> wp (index l i) s Q.
Proof. unfold wp, index. destruct (l !! i); auto. Qed.

Lemma wp_mono {A} (m : M Obj A) s (Q Q' : outcome A -> state Obj -> Prop) :
  wp m s Q -> (forall r s', Q r s' -> Q' r s') -> wp m s Q'.
Proof. unfold wp. auto. Qed.

Lemma wp_run {A} (m : M Obj A) s Q : wp m s Q -> Q (fst (m s)) (snd (m s)).
Proof. auto. Qed.

(** The loop rule: [I done] holds after the iterations over [done]. *)
Lemma wp_for_each {A} (I : list A -> state Obj -> Prop) (l : list A)
    (body : A -> M Obj unit) s Q :
  I [] s ->
  (forall done x rest s1, l = done ++ x :: rest -> I done s1 ->
     wp (body x) s1 (fun r s2 => match r with
                                 | Returns _ => I (done ++ [x]) s2
                                 | Raises e => Q (Raises e) s2
                                 end)) ->
  (forall s1, I l s1 -> Q (Returns tt) s1) ->
  wp (for_each l body) s Q.
Proof.
  intros H0 Hstep Hend.
  assert (G : forall rest done s1, l = done ++ rest -> I done s1 ->
                wp (for_each rest body) s1 Q).
  { induction rest as [|x rest IH]; intros done s1 El Hd.
    - rewrite app_nil_r in El. subst done. apply Hend, Hd.
    - cbn [for_each]. apply wp_bind.
      eapply wp_mono; [apply (Hstep done x rest s1 El Hd)|].
      intros [[]|e] s2 H2; [|exact H2].
      apply (IH (done ++ [x])); [|exact H2].
      rewrite <- app_assoc. exact El. }
  apply (G l []); auto.
Qed.

End Reasoning.

(** Normalising a state after a statement. *)
Ltac state_simpl :=
  cbv beta delta
    [set_st set_latlist set_lonlist set_sampinc set_rij set_freq_resp_list
     set_vel_array set_baz_array set_mdccm_array set_t_array set_w_array set_h_array
     set_num_compute_list log_event initial fresh];
  cbn [fst snd st latlist lonlist data_dir calib plt sampinc rij freq_resp_list
       vel_array baz_array mdccm_array t_array w_array h_array num_compute_list trace
       pre_st pre_latlist pre_lonlist pre_data_dir pre_calib pre_plt pre_sampinc].

(** The same in the hypotheses. *)
Ltac state_simpl_in H :=
  cbv beta delta
    [set_st set_latlist set_lonlist set_sampinc set_rij set_freq_resp_list
     set_vel_array set_baz_array set_mdccm_array set_t_array set_w_array set_h_array
     set_num_compute_list log_event initial fresh] in H;
  cbn [fst snd st latlist lonlist data_dir calib plt sampinc rij freq_resp_list
       vel_array baz_array mdccm_array t_array w_array h_array num_compute_list trace
       pre_st pre_latlist pre_lonlist pre_data_dir pre_calib pre_plt pre_sampinc] in H.

(** One statement forward. *)
Ltac wp_step :=
  lazymatch goal with
  | |- wp (bind _ _) _ _ => apply wp_bind
  | |- wp (ret _) _ _ => apply wp_ret; cbv beta iota
  | |- wp (raise _) _ _ => apply wp_raise; cbv beta iota
  | |- wp (name _ _) _ _ => apply wp_name; state_simpl; cbv beta
  | |- wp (assign _) _ _ => apply wp_assign; state_simpl; cbv beta iota
  | |- wp (lift _) _ _ => apply wp_lift; cbv beta
  | |- wp (call _ _) _ _ => apply wp_call; state_simpl; cbv beta
  | |- wp (index _ _) _ _ => apply wp_index; cbv beta
  | |- wp (if ?b then _ else _) _ _ => destruct b eqn:?
  | |- wp (match ?p with pair _ _ => _ end) _ _ => destruct p
  | |- wp (fig_savefig _ _ _ _) _ _ => unfold fig_savefig
  | |- wp (plt_close _) _ _ => unfold plt_close
  | |- wp ((fun _ => _) _) _ _ => cbv beta
  | |- match ?o with Returns _ => _ | Raises _ => _ end => destruct o as [?|?] eqn:?
  | |- match ?o with Some _ => _ | None => _ end => destruct o eqn:?
  end.

(** Entering a section of the script. *)
Ltac wp_enter :=
  lazymatch goal with
  | |- wp (gather_data _ _) _ _ => unfold gather_data
  | |- wp (setup _ _) _ _ => unfold setup
  | |- wp (broadband_processing _ _) _ _ => unfold broadband_processing
  | |- wp (broadband_response _ _ _ _) _ _ => unfold broadband_response
  | |- wp (initialize_arrays _ _ _ _ _ _) _ _ => unfold initialize_arrays
  | |- wp (narrow_band_part _ _ _ _ _ _ _ _ _) _ _ => unfold narrow_band_part
  | |- wp (plot_processing_parameters _ _ _ _) _ _ => unfold plot_processing_parameters
  | |- wp (plot_pmcc_like _ _ _ _) _ _ => unfold plot_pmcc_like
  | |- wp (script _ _ _) _ _ => unfold script
  end.

Ltac wp_steps := repeat first [wp_step | wp_enter].

(** Using what the walk learnt about the names it read. *)
Ltac state_rewrite :=
  repeat match goal with
         | H : ?p ?s = _ |- _ => is_var s; progress rewrite H
         end.

(** Computing what a concrete list of events shows. *)
Ltac events_simpl :=
  cbn [acquisitions figure_log beam_windows response_grids filtered_streams writes
       omap list_omap app].

(** [trace s ++ evs = trace s ++ ?evs], whatever the nesting. *)
Ltac solve_trace_eq :=
  rewrite <- ?app_assoc;
  first [reflexivity | symmetry; apply app_nil_r].

(** Using the specification of the next section of the script. *)
Tactic Notation "phase" open_constr(lem) :=
  apply wp_bind; eapply wp_mono; [apply lem|]; cbv beta.

Section Band.
Context {Obj : Type} (cfg : config) (ext : externals Obj).
Implicit Types s : state Obj.

(** The names and objects that the narrow-band loop only reads. *)
Definition same_names s s' : Prop :=
  st s' = st s /\ latlist s' = latlist s /\ lonlist s' = lonlist s /\
  data_dir s' = data_dir s /\ calib s' = calib s /\ plt s' = plt s /\
  sampinc s' = sampinc s /\ rij s' = rij s /\ freq_resp_list s' = freq_resp_list s.

(** An array keeps its shape and every row but row [ii]. *)
Definition shape {A} (a : option (list (list A))) : option (list nat) :=
  map length <$> a.

Definition row_length {A} (a : option (list (list A))) (i : nat) : option nat :=
  shape a ≫= (.!! i).

Definition rows_kept {A} (ii : nat) (a a' : option (list (list A))) : Prop :=
  shape a' = shape a /\
  forall j, j <> ii -> row a' j = row a j.

Lemma row_length_row {A} (a : option (list (list A))) i cells :
  row a i = Some cells -> row_length a i = Some (length cells).
Proof.
  destruct a as [a|]; [|discriminate]. unfold row, row_length, shape. cbn.
  intros H. by rewrite list_lookup_fmap, H.
Qed.

Lemma rows_kept_refl {A} ii (a : option (list (list A))) : rows_kept ii a a.
Proof. split; auto. Qed.

Lemma update_row_kept {A} (a a' : list (list A)) ii f :
  Numpy.update_row a ii f = Returns a' ->
  (forall r r', f r = Returns r' -> length r' = length r) ->
  rows_kept ii (Some a) (Some a').
Proof.
  unfold Numpy.update_row. intros H Hf.
  destruct (a !! ii) as [r|] eqn:Er; [|discriminate].
  destruct (f r) as [r'|] eqn:Ef; [|discriminate].
  injection H as <-. split; cbn.
  - f_equal. rewrite list_fmap_insert, (Hf _ _ Ef).
    apply list_insert_id. by rewrite list_lookup_fmap, Er.
  - intros j Hj. by apply list_lookup_insert_ne.
Qed.

Lemma assign_prefix_length {A} (r v r' : list A) :
  Numpy.assign_prefix r v = Returns r' -> length r' = length r.
Proof.
  unfold Numpy.assign_prefix. case_decide as Hk.
  - intros [= <-]. rewrite length_app, length_drop. lia.
  - destruct v as [|x [|]]; try discriminate. intros [= <-].
    rewrite length_app, length_replicate, length_drop. destruct (length r); lia.
Qed.

Lemma assign_row_length {A} (r v r' : list A) :
  Numpy.assign_row r v = Returns r' -> length r' = length r.
Proof.
  unfold Numpy.assign_row. case_decide as Hk.
  - by intros [= <-].
  - destruct v as [|x [|]]; try discriminate. intros [= <-].
    by rewrite length_replicate.
Qed.


Lemma update_row_prefix_bound {A} (a a' : list (list A)) ii v :
  Numpy.update_row a ii (fun cells => Numpy.assign_prefix cells v) = Returns a' ->
  exists cells, a !! ii = Some cells /\ (length v <= length cells \/ length v = 1)%nat.
Proof.
  unfold Numpy.update_row. destruct (a !! ii) as [cells|]; [|discriminate].
  intros H. exists cells. split; [reflexivity|].
  unfold Numpy.assign_prefix in H. case_decide as Hk; [left; lia|].
  destruct v as [|x [|]]; try discriminate. by right.
Qed.

(** What one iteration of the narrow-band loop does, however it ends. *)
Definition band_post (WINLEN_list : list Q) (ii : nat) s
    (r : outcome unit) s' : Prop :=
  same_names s s' /\
  (exists evs,
     trace s' = trace s ++ evs /\ figure_log evs = [] /\ acquisitions evs = [] /\
     Forall (fun g => freq_resp_list s = Some g) (response_grids evs) /\
     Forall (fun x => st s = Some x) (filtered_streams evs) /\
     (beam_windows evs = [] \/
      exists w, WINLEN_list !! ii = Some w /\ beam_windows evs = [w]) /\
     (length (response_grids evs) <= 1)%nat /\
     (r = Returns tt ->
      length (response_grids evs) = 1%nat /\ length (beam_windows evs) = 1%nat)) /\
  (rows_kept ii (w_array s) (w_array s') /\ rows_kept ii (h_array s) (h_array s') /\
   rows_kept ii (vel_array s) (vel_array s') /\ rows_kept ii (baz_array s) (baz_array s') /\
   rows_kept ii (mdccm_array s) (mdccm_array s') /\ rows_kept ii (t_array s) (t_array s')) /\
  match r with
  | Returns _ =>
      exists counts c m,
        num_compute_list s = Some counts /\
        num_compute_list s' = Some (counts ++ [c]) /\
        row_length (vel_array s) ii = Some m /\
        (c <= m \/ c = 1)%nat
  | Raises _ => num_compute_list s' = num_compute_list s
  end.

Ltac solve_rows_kept :=
  first
    [ apply rows_kept_refl
    | match goal with
      | U : Numpy.update_row ?a _ _ = Returns ?a' |- rows_kept _ (Some ?a) (Some ?a') =>
          apply (update_row_kept _ _ _ _ U);
          let Hr := fresh in
          intros ? ? Hr; cbv beta in Hr;
          first [ exact (assign_prefix_length _ _ _ Hr)
                | exact (assign_row_length _ _ _ Hr) ]
      end ].

Lemma band_step_spec freqlist WINLEN_list ii s :
  wp (band_step cfg ext freqlist WINLEN_list ii) s (band_post WINLEN_list ii s).
Proof.
  unfold band_step. wp_steps.
  all: unfold band_post, same_names; state_simpl; state_rewrite.
  all: split; [repeat split|].
  all: split; [rewrite <- ?app_assoc; eexists; split; [first [reflexivity | symmetry; apply app_nil_r]|]; cbn;
               repeat split; try discriminate; eauto; try lia |].
  all: split; [refine (conj _ (conj _ (conj _ (conj _ (conj _ _))))); solve_rows_kept|].
  all: try reflexivity.
  match goal with
  | U : Numpy.update_row _ _ (fun _ => Numpy.assign_prefix _ ?v) = Returns _
    |- context [length ?v] =>
      destruct (update_row_prefix_bound _ _ _ _ U) as (cells & Hc & Hb)
  end.
  eexists _, _, (length cells). repeat split; [|exact Hb].
  by apply row_length_row.
Qed.

(** What the narrow-band loop over [n] bands does, however it ends. *)
Definition loop_post (WINLEN_list : list Q) (n : nat) s
    (r : outcome unit) s' : Prop :=
  same_names s s' /\
  (exists evs,
     trace s' = trace s ++ evs /\ figure_log evs = [] /\ acquisitions evs = [] /\
     Forall (fun g => freq_resp_list s = Some g) (response_grids evs) /\
     Forall (fun x => st s = Some x) (filtered_streams evs) /\
     beam_windows evs `prefix_of` take n WINLEN_list /\
     (length (response_grids evs) <= n)%nat /\
     (r = Returns tt ->
      length (response_grids evs) = n /\ beam_windows evs = take n WINLEN_list /\
      length (beam_windows evs) = n)) /\
  (shape (w_array s') = shape (w_array s) /\ shape (h_array s') = shape (h_array s) /\
   shape (vel_array s') = shape (vel_array s) /\ shape (baz_array s') = shape (baz_array s) /\
   shape (mdccm_array s') = shape (mdccm_array s) /\ shape (t_array s') = shape (t_array s)) /\
  (exists cs,
     num_compute_list s' = (fun l => l ++ cs) <$> num_compute_list s /\
     (length cs <= n)%nat /\
     (r = Returns tt -> length cs = n) /\
     forall i c, cs !! i = Some c ->
       exists m, row_length (vel_array s) i = Some m /\ (c <= m \/ c = 1)%nat).

Lemma seq_split_index (n : nat) done x rest :
  seq 0 n = done ++ x :: rest -> x = length done /\ (length done < n)%nat.
Proof.
  intros E. split.
  - assert (H : seq 0 n !! length done = Some x).
    { rewrite E. by rewrite list_lookup_middle. }
    apply lookup_seq in H. lia.
  - apply (f_equal length) in E. rewrite length_seq, length_app in E. cbn in E. lia.
Qed.

Lemma take_prefix_le {A} (l : list A) k n :
  (k <= n)%nat -> take k l `prefix_of` take n l.
Proof.
  intros H. replace (take k l) with (take k (take n l)); [apply prefix_take|].
  rewrite take_take. f_equal. lia.
Qed.

Lemma narrow_band_processing_spec freqlist WINLEN_list s :
  wp (narrow_band_processing cfg ext freqlist WINLEN_list) s
     (loop_post WINLEN_list (Z.to_nat (nbands cfg)) s).
Proof.
  unfold narrow_band_processing.
  set (n := Z.to_nat (nbands cfg)).
  apply (wp_for_each
           (fun done s1 => (length done <= n)%nat /\
                           loop_post WINLEN_list (length done) s (Returns tt) s1)).
  - split; [cbn; lia|]. unfold loop_post, same_names. split; [repeat split|].
    split.
    { exists []. rewrite app_nil_r. cbn. repeat split; auto; try apply prefix_nil. }
    split; [repeat split|].
    exists []. destruct (num_compute_list s); cbn; rewrite ?app_nil_r; repeat split; auto.
    all: intros i c H; discriminate.
  - intros done x rest s1 E [Hn I].
    apply seq_split_index in E as [-> Hlt].
    eapply wp_mono; [apply band_step_spec|].
    intros r s2 B. cbv beta.
    set (k := length done) in *.
    destruct I as ((N1 & N2 & N3 & N4 & N5 & N6 & N7 & N8 & N9)
                   & (evs1 & T1 & F1 & A1 & G1 & S1 & _ & _ & R1)
                   & (H1 & H2 & H3 & H4 & H5 & H6)
                   & (cs & C1 & _ & C3 & C4)).
    destruct (R1 eq_refl) as (Lg & Bw1 & Lb).
    specialize (C3 eq_refl).
    destruct B as ((M1 & M2 & M3 & M4 & M5 & M6 & M7 & M8 & M9)
                   & (evs2 & T2 & F2 & A2 & G2 & S2 & Bw2 & Lg2 & R2)
                   & ((K1 & _) & (K2 & _) & (K3 & _) & (K4 & _) & (K5 & _) & (K6 & _))
                   & Cnt).
    assert (Hsame : same_names s s2).
    { unfold same_names. repeat split; congruence. }
    assert (Hshape :
      shape (w_array s2) = shape (w_array s) /\ shape (h_array s2) = shape (h_array s) /\
      shape (vel_array s2) = shape (vel_array s) /\ shape (baz_array s2) = shape (baz_array s) /\
      shape (mdccm_array s2) = shape (mdccm_array s) /\ shape (t_array s2) = shape (t_array s)).
    { repeat split; congruence. }
    assert (Hbeam : beam_windows (evs1 ++ evs2) = take k WINLEN_list /\ beam_windows evs2 = []
                    \/ beam_windows (evs1 ++ evs2) = take (S k) WINLEN_list
                       /\ length (beam_windows evs2) = 1%nat
                       /\ length (take (S k) WINLEN_list) = S k).
    { unfold beam_windows in *. rewrite omap_app, Bw1.
      destruct Bw2 as [->|(w & Hw & ->)].
      - left. by rewrite app_nil_r.
      - right. rewrite (take_S_r _ _ _ Hw). split; [done|]. split; [done|].
        rewrite length_app. cbn. rewrite Bw1 in Lb. lia. }
    assert (Hev : trace s2 = trace s ++ (evs1 ++ evs2) /\
                  figure_log (evs1 ++ evs2) = [] /\ acquisitions (evs1 ++ evs2) = [] /\
                  Forall (fun g => freq_resp_list s = Some g) (response_grids (evs1 ++ evs2)) /\
                  Forall (fun x => st s = Some x) (filtered_streams (evs1 ++ evs2))).
    { split; [by rewrite T2, T1, app_assoc|].
      unfold figure_log, acquisitions, response_grids, filtered_streams in *.
      rewrite !omap_app, F1, F2, A1, A2. repeat split; auto.
      - apply Forall_app. split; [done|]. by rewrite <- N9.
      - apply Forall_app. split; [done|]. by rewrite <- N1. }
    destruct Hev as (T & F & A & G & St).
    assert (Lgs : length (response_grids (evs1 ++ evs2))
                  = (k + length (response_grids evs2))%nat).
    { unfold response_grids in *. by rewrite omap_app, length_app, Lg. }
    destruct r as [[]|e].
    + (* the iteration returned *)
      destruct (R2 eq_refl) as (Lg2' & Lb2).
      destruct Hbeam as [[_ Hnil]|(Hb & _ & Lt)]; [rewrite Hnil in Lb2; discriminate|].
      destruct Cnt as (counts & c & m & Cn1 & Cn2 & Cm & Cb).
      assert (Hlen : length (done ++ [k]) = S k) by (rewrite length_app; cbn; lia).
      rewrite Hlen.
      split; [lia|]. unfold loop_post.
      split; [exact Hsame|]. split.
      { exists (evs1 ++ evs2). repeat split; auto; rewrite ?Hb; try done; try lia. }
      split; [exact Hshape|].
      exists (cs ++ [c]). rewrite Cn2. rewrite Cn1 in C1.
      destruct (num_compute_list s) as [l0|]; [|discriminate].
      cbn in C1 |- *. injection C1 as ->.
      rewrite length_app. cbn [length]. repeat split; try lia.
      { by rewrite app_assoc. }
      intros i c' Hi. destruct (decide (i < length cs)%nat) as [Hl|Hl].
      * rewrite lookup_app_l in Hi by done. by apply C4.
      * rewrite lookup_app_r in Hi by lia.
        destruct (i - length cs)%nat eqn:Ei; [|discriminate].
        injection Hi as <-. assert (i = k) as -> by lia.
        exists m. split; [|done]. unfold row_length in *. by rewrite <- H3.
    + (* the iteration raised *)
      unfold loop_post.
      split; [exact Hsame|]. split.
      { exists (evs1 ++ evs2). repeat split; auto; try discriminate.
        - destruct Hbeam as [[-> _]|(-> & _)]; apply take_prefix_le; lia.
        - lia. }
      split; [exact Hshape|].
      exists cs. rewrite Cnt, C1. repeat split; auto; try lia; try discriminate.
  - intros s1 [Hn I]. rewrite length_seq in I. exact I.
Qed.

End Band.

Section Acquisition.
Context {Obj : Type} (cfg : config) (ext : externals Obj).
Implicit Types s : state Obj.

(** Only the waveform collection and the coordinate lists may differ, and
    the trace grew by acquisition calls only. *)
Definition gather_post s (r : outcome unit) s' : Prop :=
  (data_dir s' = data_dir s /\ calib s' = calib s /\ plt s' = plt s /\
   sampinc s' = sampinc s /\ rij s' = rij s /\ freq_resp_list s' = freq_resp_list s /\
   num_compute_list s' = num_compute_list s) /\
  (w_array s' = w_array s /\ h_array s' = h_array s /\ vel_array s' = vel_array s /\
   baz_array s' = baz_array s /\ mdccm_array s' = mdccm_array s /\ t_array s' = t_array s) /\
  exists evs,
    trace s' = trace s ++ evs /\ figure_log evs = [] /\ beam_windows evs = [] /\
    response_grids evs = [] /\ filtered_streams evs = [].

Lemma calibrate_loop_spec (l : list nat) s :
  wp (for_each l calibrate) s
     (fun _ s' => latlist s' = latlist s /\ lonlist s' = lonlist s /\ trace s' = trace s /\
                  gather_post s (Returns tt) s').
Proof.
  apply (wp_for_each
           (fun _ s' => latlist s' = latlist s /\ lonlist s' = lonlist s /\
                        trace s' = trace s /\ gather_post s (Returns tt) s')).
  - unfold gather_post. repeat split. exists []. by rewrite app_nil_r.
  - intros done x rest s1 _ (L1 & L2 & T & (N1 & N2 & N3 & N4 & N5 & N6 & N7)
                             & (A1 & A2 & A3 & A4 & A5 & A6) & _).
    unfold calibrate. wp_steps.
    all: unfold gather_post; state_simpl.
    all: repeat split; try congruence.
    all: exists []; rewrite app_nil_r; repeat split; congruence.
  - auto.
Qed.

Lemma gather_data_spec s : wp (gather_data cfg ext) s (gather_post s).
Proof.
  unfold gather_data. wp_steps.
  all: try (eapply wp_mono; [apply calibrate_loop_spec|]; cbv beta;
            intros ? ? (_ & _ & T
                        & ((N1 & N2 & N3 & N4 & N5 & N6 & N7)
                           & (A1 & A2 & A3 & A4 & A5 & A6) & _));
            state_simpl_in T; state_simpl_in N1; state_simpl_in N2; state_simpl_in N3;
            state_simpl_in N4; state_simpl_in N5; state_simpl_in N6; state_simpl_in N7;
            state_simpl_in A1; state_simpl_in A2; state_simpl_in A3; state_simpl_in A4;
            state_simpl_in A5; state_simpl_in A6).
  all: unfold gather_post; state_simpl.
  all: split; [repeat split; congruence|].
  all: split; [repeat split; congruence|].
  all: eexists; split;
    [first [reflexivity | symmetry; apply app_nil_r | rewrite T; reflexivity]|].
  all: repeat split; reflexivity.
Qed.

End Acquisition.

Section Phases.
Context {Obj : Type} (cfg : config) (ext : externals Obj) (mem : memory).
Implicit Types s : state Obj.

Definition returned {A} (r : outcome A) : bool :=
  match r with Returns _ => true | Raises _ => false end.

(** Everything but the trace is as before. *)
Definition same_store s s' : Prop :=
  same_names s s' /\
  (w_array s' = w_array s /\ h_array s' = h_array s /\ vel_array s' = vel_array s /\
   baz_array s' = baz_array s /\ mdccm_array s' = mdccm_array s /\ t_array s' = t_array s) /\
  num_compute_list s' = num_compute_list s.

(** The figure events of a plotting section that saves under [base]: the
    save and the release when the section returned; nothing, or the save
    alone, when it raised. *)
Definition figure_steps (base : string) (ok : bool) (log : list (event Obj)) : Prop :=
  if ok then
    exists fig, log = [Wrote fig (save_dir cfg +:+ base) (dpi_num cfg); Closed fig]
  else
    log = [] \/ exists fig, log = [Wrote fig (save_dir cfg +:+ base) (dpi_num cfg)].

(** The frequency grid of line 171 for a sampling rate [Fs]. *)
Definition response_grid (Fs : Q) : list R :=
  Numpy.logspace (Numpy.log10 (1 / 100)) (Numpy.log10 (Q2R (Fs / 2))) 1000.

Definition setup_post s (r : outcome (list R * list Q)) s' : Prop :=
  trace s' = trace s /\ st s' = st s /\ plt s' = plt s /\ sampinc s' = sampinc s /\
  match r with
  | Returns (freqlist, WINLEN_list) =>
      get_freqlist ext (FMIN cfg) (FMAX cfg) (freq_band_type cfg) (nbands cfg)
        = Returns freqlist /\
      get_winlenlist ext (window_length cfg) (nbands cfg) (WINLEN cfg) (WINLEN_1 cfg)
        (WINLEN_X cfg) = Returns WINLEN_list
  | Raises _ => True
  end.

Lemma setup_spec s : wp (setup cfg ext) s (setup_post s).
Proof.
  unfold setup. wp_steps.
  all: unfold setup_post; state_simpl; repeat split; auto.
Qed.

Definition broadband_post s (r : outcome (Stream * Q * Obj)) s' : Prop :=
  same_store s s' /\
  exists evs,
    trace s' = trace s ++ evs /\ acquisitions evs = [] /\ response_grids evs = [] /\
    figure_steps "LeastSquares" (returned r) (figure_log evs) /\
    (beam_windows evs = [] \/ beam_windows evs = [WINLEN cfg]) /\
    match r with
    | Returns (stf_broad, Fs, sos) =>
        beam_windows evs = [WINLEN cfg] /\
        exists traces,
          st s = Some traces /\
          filter_data ext traces (filter_type cfg) (FMIN cfg) (FMAX cfg)
            (filter_order cfg) (filter_ripple cfg) = Returns (stf_broad, Fs, sos)
    | Raises _ => True
    end.

Ltac solve_same_store :=
  unfold same_store, same_names; state_simpl; repeat split; congruence.

Lemma broadband_processing_spec s :
  wp (broadband_processing cfg ext) s (broadband_post s).
Proof.
  unfold broadband_processing. wp_steps.
  all: unfold broadband_post; split; [solve_same_store|]; state_simpl.
  all: eexists; split; [solve_trace_eq|]; events_simpl; cbn [returned figure_steps].
  all: repeat split; eauto.
Qed.

Definition response_post (Fs : Q) s (r : outcome (list R * list complex)) s' : Prop :=
  (st s' = st s /\ rij s' = rij s /\ plt s' = plt s /\ sampinc s' = sampinc s) /\
  exists evs,
    trace s' = trace s ++ evs /\ acquisitions evs = [] /\ beam_windows evs = [] /\
    figure_steps "Filter_Frequency_Response_Broadband" (returned r) (figure_log evs) /\
    (response_grids evs = [] /\ returned r = false \/
     (0 < Fs)%Q /\ freq_resp_list s' = Some (response_grid Fs) /\
     response_grids evs = [response_grid Fs]).

Lemma math_log10_returns x y :
  Numpy.math_log10 x = Returns y -> (0 < x)%Q /\ y = Numpy.log10 (Q2R x).
Proof.
  unfold Numpy.math_log10. destruct (Qle_bool x 0) eqn:E; [discriminate|].
  intros [= <-]. split; [|reflexivity].
  apply Qnot_le_lt. intros H. apply Qle_bool_iff in H. congruence.
Qed.

Lemma Qhalf_pos (x : Q) : (0 < x / 2)%Q -> (0 < x)%Q.
Proof.
  destruct x as [n d]. unfold Qlt, Qdiv, Qmult, Qinv. cbn. lia.
Qed.

Lemma broadband_response_spec Fs sos s :
  wp (broadband_response cfg ext Fs sos) s (response_post Fs s).
Proof.
  unfold broadband_response. wp_steps.
  all: try match goal with
           | H : Numpy.math_log10 _ = Returns _ |- _ =>
               apply math_log10_returns in H as [Hpos ->]
           end.
  all: unfold response_post; state_simpl; split; [repeat split; congruence|].
  all: eexists; split; [solve_trace_eq|]; events_simpl; cbn [returned figure_steps].
  all: split; [reflexivity|]; split; [reflexivity|]; split; [eauto|].
  all: first [ left; split; reflexivity
             | right; split; [by apply Qhalf_pos|]; split; reflexivity ].
Qed.

(** The increment of lines 186-189: computed from the window-length mode,
    or, in any other mode, whatever [sampinc] was bound to before. *)
Definition chosen_sampinc s (inc : Z) : Prop :=
  if (window_length cfg =? "constant")%string then
    window_increment (WINOVER cfg) (WINLEN cfg) = Returns inc
  else if (window_length cfg =? "adaptive")%string then
    window_increment (WINOVER cfg) (WINLEN_X cfg) = Returns inc
  else sampinc s = Some inc.

Definition init_post (Fs : Q) (w_broad : list R) (h_broad : list complex) s
    (r : outcome unit) s' : Prop :=
  (st s' = st s /\ rij s' = rij s /\ freq_resp_list s' = freq_resp_list s /\
   plt s' = plt s) /\
  (exists evs,
     trace s' = trace s ++ evs /\ acquisitions evs = [] /\ figure_log evs = [] /\
     beam_windows evs = [] /\ response_grids evs = []) /\
  (returned r = true ->
   exists inc tr0 cols va ba ma ta wa ha,
     chosen_sampinc s inc /\ sampinc s' = Some inc /\
     (st s ≫= (.!! 0%nat)) = Some tr0 /\
     vector_len inc (Z.of_nat (length (data tr0))) Fs = Returns cols /\
     (Numpy.empty (float_garbage mem 0) (nbands cfg) cols = Returns va /\
      Numpy.empty (float_garbage mem 1) (nbands cfg) cols = Returns ba /\
      Numpy.empty (float_garbage mem 2) (nbands cfg) cols = Returns ma /\
      Numpy.empty (float_garbage mem 3) (nbands cfg) cols = Returns ta /\
      Numpy.empty (complex_garbage mem 0) (nbands cfg) (Z.of_nat (length w_broad))
        = Returns wa /\
      Numpy.empty (complex_garbage mem 1) (nbands cfg) (Z.of_nat (length h_broad))
        = Returns ha) /\
     (vel_array s' = Some va /\ baz_array s' = Some ba /\ mdccm_array s' = Some ma /\
      t_array s' = Some ta /\ w_array s' = Some wa /\ h_array s' = Some ha) /\
     num_compute_list s' = Some []).

Lemma initialize_arrays_spec Fs w_broad h_broad s :
  wp (initialize_arrays cfg ext mem Fs w_broad h_broad) s (init_post Fs w_broad h_broad s).
Proof.
  unfold initialize_arrays. wp_steps.
  all: unfold init_post, chosen_sampinc; state_simpl; split; [repeat split; congruence|].
  all: split; [eexists; split; [solve_trace_eq|]; events_simpl; cbn [returned figure_steps]; repeat split|].
  all: try discriminate.
  all: intros _; state_rewrite; cbn [mbind option_bind].
  all: repeat match goal with H : _ = true |- _ => rewrite H | H : _ = false |- _ => rewrite H end.
  all: eexists _, _, _, _, _, _, _, _, _.
  all: repeat split; try reflexivity; try eassumption.
Qed.

Definition plot_post (base : string) s (r : outcome unit) s' : Prop :=
  same_store s s' /\
  exists evs,
    trace s' = trace s ++ evs /\ acquisitions evs = [] /\ beam_windows evs = [] /\
    response_grids evs = [] /\ figure_steps base (returned r) (figure_log evs).

Lemma plot_processing_parameters_spec freqlist WINLEN_list s :
  wp (plot_processing_parameters cfg ext freqlist WINLEN_list) s
     (plot_post "Processing_Parameters" s).
Proof.
  unfold plot_processing_parameters. wp_steps.
  all: unfold plot_post; split; [solve_same_store|]; state_simpl.
  all: eexists; split; [solve_trace_eq|]; events_simpl; cbn [returned figure_steps].
  all: repeat split; eauto.
Qed.

Lemma plot_pmcc_like_spec freqlist stf_broad s :
  wp (plot_pmcc_like cfg ext freqlist stf_broad) s (plot_post "LeastSquaresButPMCC" s).
Proof.
  unfold plot_pmcc_like. wp_steps.
  all: unfold plot_post; split; [solve_same_store|]; state_simpl.
  all: eexists; split; [solve_trace_eq|]; events_simpl; cbn [returned figure_steps].
  all: repeat split; eauto.
Qed.

End Phases.

Section Figures.
Context {Obj : Type} (cfg : config) (ext : externals Obj) (mem : memory).
Implicit Types s : state Obj.

(** The base names of the four [savefig] calls, top to bottom. *)
Definition figure_names : list string :=
  ["LeastSquares"; "Filter_Frequency_Response_Broadband";
   "Processing_Parameters"; "LeastSquaresButPMCC"].

Definition planned_writes : list (string * Z) :=
  map (fun base => (save_dir cfg +:+ base, dpi_num cfg)) figure_names.

(** In a figure log, every save is the last event or is directly followed
    by the release of the figure that was saved. *)
Fixpoint released_after_saving (log : list (event Obj)) : Prop :=
  match log with
  | [] => True
  | Wrote fig _ _ :: rest =>
      match rest with
      | [] => True
      | Closed fig' :: rest' => fig' = fig /\ released_after_saving rest'
      | _ => False
      end
  | _ => False
  end.

Definition figures_post (r : outcome unit) s : Prop :=
  writes (trace s) `prefix_of` planned_writes /\
  released_after_saving (figure_log (trace s)) /\
  (r = Returns tt ->
   writes (trace s) = planned_writes /\ length (figure_log (trace s)) = 8%nat).

Lemma writes_figure_log (evs : list (event Obj)) : writes evs = writes (figure_log evs).
Proof.
  unfold figure_log, writes. induction evs as [|[] evs IH]; cbn; congruence.
Qed.

Lemma figure_log_app (l1 l2 : list (event Obj)) :
  figure_log (l1 ++ l2) = figure_log l1 ++ figure_log l2.
Proof. apply omap_app. Qed.


Ltac open_figure_steps :=
  cbn [returned] in *; unfold figure_steps in *;
  repeat match goal with
         | H : exists fig, _ = [Wrote fig _ _; Closed fig] |- _ => destruct H as [? H]
         | H : _ = [] \/ exists fig, _ = [Wrote fig _ _] |- _ => destruct H as [H|[? H]]
         end.

Ltac figures_finish :=
  open_figure_steps;
  unfold figures_post; rewrite writes_figure_log;
  repeat match goal with
         | H : trace ?s = _ |- context [trace ?s] => rewrite H
         end;
  state_simpl;
  rewrite ?figure_log_app;
  repeat match goal with
         | H : figure_log ?evs = _ |- context [figure_log ?evs] => rewrite H
         end;
  cbn [app figure_log writes omap list_omap released_after_saving length];
  unfold planned_writes, figure_names; cbn [map];
  (split; [eexists; reflexivity|]);
  (split; [auto|]);
  first [discriminate | auto].

Lemma script_figures pre : wp (script cfg ext mem) (initial pre) figures_post.
Proof.
  unfold script.
  phase gather_data_spec.
  intros [[]|e] s1 (_ & _ & evs0 & T0 & F0 & _); [|figures_finish].
  phase setup_spec.
  intros [[fl wl]|e] s2 (T2 & _); [|figures_finish].
  phase broadband_processing_spec.
  intros [[[stf Fs] sos]|e] s3 (_ & evsB & TB & _ & _ & FB & _); [|figures_finish].
  phase broadband_response_spec.
  intros [[w h]|e] s4 (_ & evsR & TR & _ & _ & FR & _); [|figures_finish].
  unfold narrow_band_part.
  phase initialize_arrays_spec.
  intros [[]|e] s5 (_ & (evsI & TI & _ & FI & _) & _); [|figures_finish].
  phase narrow_band_processing_spec.
  intros [[]|e] s6 (_ & (evsL & TL & FL & _) & _); [|figures_finish].
  phase plot_processing_parameters_spec.
  intros [[]|e] s7 (_ & evsP & TP & _ & _ & _ & FP); [|figures_finish].
  eapply wp_mono; [apply plot_pmcc_like_spec|].
  intros r s8 (_ & evsQ & TQ & _ & _ & _ & FQ).
  destruct r as [[]|e]; figures_finish.
Qed.

End Figures.

Section Beamformer.
Context {Obj : Type}.

Lemma beam_windows_app (l1 l2 : list (event Obj)) :
  beam_windows (l1 ++ l2) = beam_windows l1 ++ beam_windows l2.
Proof. apply omap_app. Qed.

End Beamformer.

(** ** Evenly spaced sequences *)
Section Spacing.
Open Scope R_scope.

Lemma ln10_pos : 0 < ln 10.
Proof. rewrite <- ln_1. apply ln_increasing; lra. Qed.

Lemma Rpower10_log10 (x : R) : 0 < x -> Rpower 10 (Numpy.log10 x) = x.
Proof.
  intros Hx. unfold Rpower, Numpy.log10.
  replace (ln x / ln 10 * ln 10) with (ln x).
  - by apply exp_ln.
  - pose proof ln10_pos. field. lra.
Qed.

Lemma log10_Rpower10 (x : R) : Numpy.log10 (Rpower 10 x) = x.
Proof.
  unfold Rpower, Numpy.log10. rewrite ln_exp. pose proof ln10_pos. field. lra.
Qed.

Lemma log10_increasing (x y : R) : 0 < x -> x < y -> Numpy.log10 x < Numpy.log10 y.
Proof.
  intros Hx Hxy. unfold Numpy.log10. pose proof ln10_pos.
  apply Rmult_lt_compat_r; [by apply Rinv_0_lt_compat|].
  by apply ln_increasing.
Qed.

Lemma linspace_length a b num : length (Numpy.linspace a b num) = num.
Proof. unfold Numpy.linspace. by rewrite length_map, length_seq. Qed.

Lemma linspace_lookup a b num (i : nat) :
  (i < num)%nat ->
  Numpy.linspace a b num !! i = Some (a + INR i * ((b - a) / INR (num - 1))).
Proof.
  intros Hi. unfold Numpy.linspace.
  by rewrite list_lookup_fmap, lookup_seq_lt.
Qed.

Lemma linspace_first a b num : (0 < num)%nat -> Numpy.linspace a b num !! 0%nat = Some a.
Proof.
  intros H. rewrite linspace_lookup by done. f_equal.
  change (INR 0) with 0. rewrite Rmult_0_l, Rplus_0_r. reflexivity.
Qed.

Lemma linspace_last a b num :
  (2 <= num)%nat -> Numpy.linspace a b num !! (num - 1)%nat = Some b.
Proof.
  intros H. rewrite linspace_lookup by lia. f_equal.
  assert (0 < INR (num - 1)) by (apply lt_0_INR; lia).
  field. lra.
Qed.

Lemma logspace_length a b num : length (Numpy.logspace a b num) = num.
Proof. unfold Numpy.logspace. by rewrite length_map, linspace_length. Qed.

Lemma logspace_lookup a b num (i : nat) :
  (i < num)%nat ->
  Numpy.logspace a b num !! i = Some (Rpower 10 (a + INR i * ((b - a) / INR (num - 1)))).
Proof.
  intros Hi. unfold Numpy.logspace.
  by rewrite list_lookup_fmap, linspace_lookup.
Qed.

Lemma logspace_first x b num :
  (0 < num)%nat -> 0 < x ->
  Numpy.logspace (Numpy.log10 x) b num !! 0%nat = Some x.
Proof.
  intros H Hx. rewrite logspace_lookup by done. f_equal.
  change (INR 0) with 0. rewrite Rmult_0_l, Rplus_0_r.
  apply Rpower10_log10, Hx.
Qed.

Lemma logspace_last a y num :
  (2 <= num)%nat -> 0 < y ->
  Numpy.logspace a (Numpy.log10 y) num !! (num - 1)%nat = Some y.
Proof.
  intros H Hy. rewrite logspace_lookup by lia. f_equal.
  assert (0 < INR (num - 1)) by (apply lt_0_INR; lia).
  replace (a + INR (num - 1) * ((Numpy.log10 y - a) / INR (num - 1)))
    with (Numpy.log10 y) by (field; lra).
  apply Rpower10_log10, Hy.
Qed.

(** Consecutive points of [logspace] differ by a constant factor. *)
Lemma logspace_ratio a b num (i : nat) :
  (i + 1 < num)%nat ->
  exists x y,
    Numpy.logspace a b num !! i = Some x /\
    Numpy.logspace a b num !! (i + 1)%nat = Some y /\
    0 < x /\ y = x * Rpower 10 ((b - a) / INR (num - 1)).
Proof.
  intros Hi. eexists _, _.
  split; [apply logspace_lookup; lia|].
  split; [apply logspace_lookup; lia|].
  split; [apply exp_pos|].
  rewrite <- Rpower_plus. f_equal. rewrite plus_INR.
  change (INR 1) with 1. ring.
Qed.

End Spacing.

Section Planner.
Open Scope R_scope.

Lemma Rpower10_gt1 (d : R) : 0 < d -> 1 < Rpower 10 d.
Proof.
  intros Hd. unfold Rpower. rewrite <- exp_0. apply exp_increasing.
  apply Rmult_lt_0_compat; [exact Hd | exact ln10_pos].
Qed.

(** C3: for every nbands >= 1 the band planner returns nbands+1 edges,
    strictly increasing from FMIN to FMAX; evenly spaced in 'linear' mode,
    evenly spaced in log10 (a constant ratio between neighbours) in 'log'
    mode.  The interval is taken to be a frequency band: FMIN < FMAX, and
    0 < FMIN where logarithms are taken. *)
Theorem C3_band_edges (FMIN FMAX : R) (nbands : Z) :
  (1 <= nbands)%Z ->
  let n := Z.to_nat nbands in
  (FMIN < FMAX ->
   exists edges,
     Helpers.get_freqlist FMIN FMAX "linear" nbands = Returns edges /\
     length edges = (n + 1)%nat /\
     edges !! 0%nat = Some FMIN /\ edges !! n = Some FMAX /\
     forall i, (i < n)%nat ->
       exists x y,
         edges !! i = Some x /\ edges !! (i + 1)%nat = Some y /\
         x < y /\ y - x = (FMAX - FMIN) / INR n) /\
  (0 < FMIN < FMAX ->
   exists edges,
     Helpers.get_freqlist FMIN FMAX "log" nbands = Returns edges /\
     length edges = (n + 1)%nat /\
     edges !! 0%nat = Some FMIN /\ edges !! n = Some FMAX /\
     forall i, (i < n)%nat ->
       exists x y,
         edges !! i = Some x /\ edges !! (i + 1)%nat = Some y /\
         0 < x < y /\
         Numpy.log10 y - Numpy.log10 x = (Numpy.log10 FMAX - Numpy.log10 FMIN) / INR n /\
         y / x = Rpower 10 ((Numpy.log10 FMAX - Numpy.log10 FMIN) / INR n)).
Proof.
  intros Hn n.
  assert (Hn1 : (1 <= n)%nat) by (unfold n; lia).
  assert (Hpos : 0 < INR n) by (apply lt_0_INR; lia).
  assert (Hsub : (n + 1 - 1)%nat = n) by lia.
  split.
  - intros Hlt. eexists. split; [reflexivity|]. fold n.
    split; [apply linspace_length|].
    split; [apply linspace_first; lia|].
    split.
    { pose proof (linspace_last FMIN FMAX (n + 1)) as Hl. rewrite Hsub in Hl.
      apply Hl. lia. }
    intros i Hi. eexists _, _.
    split; [apply linspace_lookup; lia|].
    split; [apply linspace_lookup; lia|].
    rewrite Hsub, plus_INR. change (INR 1) with 1.
    assert (Hd : 0 < (FMAX - FMIN) / INR n).
    { apply Rdiv_lt_0_compat; lra. }
    split; lra.
  - intros [H0 Hlt]. eexists. split; [reflexivity|]. fold n.
    split; [apply logspace_length|].
    split; [apply logspace_first; [lia|done]|].
    split.
    { pose proof (logspace_last (Numpy.log10 FMIN) FMAX (n + 1)) as Hl.
      rewrite Hsub in Hl. apply Hl; [lia|lra]. }
    intros i Hi.
    destruct (logspace_ratio (Numpy.log10 FMIN) (Numpy.log10 FMAX) (n + 1) i)
      as (x & y & Hx & Hy & Hx0 & Hxy); [lia|].
    rewrite Hsub in Hxy.
    assert (Hd : 0 < (Numpy.log10 FMAX - Numpy.log10 FMIN) / INR n).
    { apply Rdiv_lt_0_compat; [|done].
      pose proof (log10_increasing FMIN FMAX H0 Hlt). lra. }
    pose proof (Rpower10_gt1 _ Hd) as Hr.
    exists x, y. split; [done|]. split; [done|].
    split; [split; [done|]|].
    { rewrite Hxy. rewrite <- (Rmult_1_r x) at 1.
      apply Rmult_lt_compat_l; done. }
    split.
    + rewrite logspace_lookup in Hx, Hy by lia.
      injection Hx as <-. injection Hy as <-.
      rewrite !log10_Rpower10, Hsub, plus_INR. change (INR 1) with 1. lra.
    + rewrite Hxy. field. lra.
Qed.

(** C3 at the example of the spec: FMIN = 0.07, FMAX = 5.0, nbands = 10,
    'log' spacing. *)
Lemma C3_band_edges_example :
  exists edges,
    Helpers.get_freqlist (7 / 100) 5 "log" 10 = Returns edges /\
    length edges = 11%nat /\
    edges !! 0%nat = Some (7 / 100) /\ edges !! 10%nat = Some 5 /\
    forall i, (i < 10)%nat ->
      exists x y,
        edges !! i = Some x /\ edges !! (i + 1)%nat = Some y /\
        0 < x < y /\
        Numpy.log10 y - Numpy.log10 x = (Numpy.log10 5 - Numpy.log10 (7 / 100)) / INR 10 /\
        y / x = Rpower 10 ((Numpy.log10 5 - Numpy.log10 (7 / 100)) / INR 10).
Proof.
  apply (C3_band_edges (7 / 100) 5 10); [lia | lra].
Defined.

End Planner.

Section Window_lengths.
Open Scope Q_scope.

(** Entry [i] of the interpolation between [a] (band 0) and [b] (the last
    of [nbands] bands). *)
Definition interpolated (a b : Q) (nbands : Z) (i : nat) : Q :=
  a + inject_Z (Z.of_nat i) * ((b - a) / inject_Z (nbands - 1)).

Lemma adaptive_lookup (W W1 WX : Q) (nbands : Z) (i : nat) :
  (i < Z.to_nat nbands)%nat ->
  exists l,
    Helpers.get_winlenlist "adaptive" nbands W W1 WX = Returns l /\
    length l = Z.to_nat nbands /\
    l !! i = Some (interpolated W1 WX nbands i).
Proof.
  intros Hi. eexists. split; [reflexivity|].
  split; [by rewrite length_map, length_seq|].
  by rewrite list_lookup_fmap, lookup_seq_lt.
Qed.

Lemma interpolated_step (a b : Q) (nbands : Z) (i : nat) :
  (2 <= nbands)%Z ->
  interpolated a b nbands (i + 1) - interpolated a b nbands i
  == (b - a) / inject_Z (nbands - 1).
Proof.
  intros Hn. unfold interpolated.
  rewrite Nat2Z.inj_add, inject_Z_plus. change (inject_Z (Z.of_nat 1)) with 1.
  assert (~ inject_Z (nbands - 1) == 0).
  { intros H. apply (Qeq_bool_neq (inject_Z (nbands - 1)) 0); [|exact H].
    unfold Qeq_bool, inject_Z. cbn. apply Z.eqb_neq. lia. }
  field. assumption.
Qed.

Lemma inject_Z_pos (z : Z) : (0 < z)%Z -> 0 < inject_Z z.
Proof. intros H. unfold Qlt, inject_Z. cbn. lia. Qed.

(** C4: the window-length list has nbands entries; all equal to WINLEN in
    'constant' mode; in 'adaptive' mode entry i is the linear interpolation
    between WINLEN_1 at band 0 and WINLEN_X at band nbands-1, a monotonic
    sequence. *)
Theorem C4_window_lengths (WINLEN WINLEN_1 WINLEN_X : Q) (nbands : Z) :
  (1 <= nbands)%Z ->
  let n := Z.to_nat nbands in
  (exists l,
     Helpers.get_winlenlist "constant" nbands WINLEN WINLEN_1 WINLEN_X = Returns l /\
     length l = n /\
     forall i, (i < n)%nat -> l !! i = Some WINLEN) /\
  (exists l,
     Helpers.get_winlenlist "adaptive" nbands WINLEN WINLEN_1 WINLEN_X = Returns l /\
     length l = n /\
     (forall i, (i < n)%nat -> l !! i = Some (interpolated WINLEN_1 WINLEN_X nbands i)) /\
     interpolated WINLEN_1 WINLEN_X nbands 0 == WINLEN_1 /\
     ((2 <= nbands)%Z -> interpolated WINLEN_1 WINLEN_X nbands (n - 1) == WINLEN_X) /\
     forall i, (i + 1 < n)%nat ->
       (WINLEN_X <= WINLEN_1 ->
        interpolated WINLEN_1 WINLEN_X nbands (i + 1)
        <= interpolated WINLEN_1 WINLEN_X nbands i) /\
       (WINLEN_1 <= WINLEN_X ->
        interpolated WINLEN_1 WINLEN_X nbands i
        <= interpolated WINLEN_1 WINLEN_X nbands (i + 1))).
Proof.
  intros Hn n. split.
  - eexists. split; [reflexivity|]. fold n.
    split; [apply length_replicate|].
    intros i Hi. by apply lookup_replicate_2.
  - eexists. split; [reflexivity|]. fold n.
    split; [by rewrite length_map, length_seq|].
    split.
    { intros i Hi. by rewrite list_lookup_fmap, lookup_seq_lt. }
    split.
    { unfold interpolated. cbn [Z.of_nat]. change (inject_Z 0) with 0. ring. }
    split.
    { intros H2. unfold interpolated.
      replace (Z.of_nat (n - 1)) with (nbands - 1)%Z by (unfold n; lia).
      assert (~ inject_Z (nbands - 1) == 0).
      { pose proof (inject_Z_pos (nbands - 1) ltac:(lia)) as Hp.
        intros E. rewrite E in Hp. by apply Qlt_irrefl in Hp. }
      field. assumption. }
    intros i Hi.
    assert (H2 : (2 <= nbands)%Z) by (unfold n in Hi; lia).
    pose proof (interpolated_step WINLEN_1 WINLEN_X nbands i H2) as Hs.
    pose proof (inject_Z_pos (nbands - 1) ltac:(lia)) as Hp.
    split; intros Hw.
    + assert (Hd : (WINLEN_X - WINLEN_1) / inject_Z (nbands - 1) <= 0).
      { apply Qle_shift_div_r; [done|]. rewrite Qmult_0_l. lra. }
      lra.
    + assert (Hd : 0 <= (WINLEN_X - WINLEN_1) / inject_Z (nbands - 1)).
      { apply Qle_shift_div_l; [done|]. rewrite Qmult_0_l. lra. }
      lra.
Qed.

(** C4 at the example of the spec: WINLEN_1 = 60, WINLEN_X = 30,
    nbands = 10. *)
Lemma C4_window_lengths_example :
  exists l,
    Helpers.get_winlenlist "adaptive" 10 50 60 30 = Returns l /\
    length l = 10%nat /\
    (forall i, (i < 10)%nat -> l !! i = Some (interpolated 60 30 10 i)) /\
    interpolated 60 30 10 0 == 60 /\
    interpolated 60 30 10 9 == 30 /\
    forall i, (i + 1 < 10)%nat ->
      interpolated 60 30 10 (i + 1) <= interpolated 60 30 10 i.
Proof.
  destruct (C4_window_lengths 50 60 30 10 ltac:(lia)) as [_ (l & E & L & I & F0 & F9 & M)].
  exists l. split; [exact E|]. split; [exact L|]. split; [exact I|].
  split; [exact F0|]. split; [apply F9; lia|].
  intros i Hi. apply (M i Hi). unfold Qle. cbn. lia.
Defined.

End Window_lengths.

Section Response_grid.
Context {Obj : Type} (cfg : config) (ext : externals Obj) (mem : memory).
Implicit Types s : state Obj.

(** [Fs] is a sampling rate that broadband filtering returned. *)
Definition broadband_rate (Fs : Q) : Prop :=
  exists traces stf_broad sos,
    filter_data ext traces (filter_type cfg) (FMIN cfg) (FMAX cfg)
      (filter_order cfg) (filter_ripple cfg) = Returns (stf_broad, Fs, sos).

Lemma response_grids_app (l1 l2 : list (event Obj)) :
  response_grids (l1 ++ l2) = response_grids l1 ++ response_grids l2.
Proof. apply omap_app. Qed.

Lemma Forall_eq_replicate {A} (x : A) (l : list A) :
  Forall (fun y => Some x = Some y) l -> l = replicate (length l) x.
Proof.
  induction 1 as [|y l Hy _ IH]; [done|]. cbn. injection Hy as <-. by rewrite <- IH.
Qed.

End Response_grid.

Section Alike.
Context {A : Type}.

(** Two rows of the same length whose cells are equal wherever they are not
    both what the allocator left there. *)
Definition row_alike (h1 h2 : nat -> A) (r1 r2 : list A) : Prop :=
  length r1 = length r2 /\
  forall j x1 x2, r1 !! j = Some x1 -> r2 !! j = Some x2 ->
    x1 = x2 \/ (x1 = h1 j /\ x2 = h2 j).

(** The same for two-dimensional arrays. *)
Definition alike (g1 g2 : nat -> nat -> A) (a1 a2 : list (list A)) : Prop :=
  length a1 = length a2 /\
  forall i r1 r2, a1 !! i = Some r1 -> a2 !! i = Some r2 -> row_alike (g1 i) (g2 i) r1 r2.

(** The same for names that may be unbound. *)
Definition alike_opt (g1 g2 : nat -> nat -> A) (o1 o2 : option (list (list A))) : Prop :=
  match o1, o2 with
  | Some a1, Some a2 => alike g1 g2 a1 a2
  | None, None => True
  | _, _ => False
  end.

(** Two results of the same kind: both return, or both raise the same
    exception. *)
Definition both {B} (P : B -> B -> Prop) (o1 o2 : outcome B) : Prop :=
  match o1, o2 with
  | Returns b1, Returns b2 => P b1 b2
  | Raises e1, Raises e2 => e1 = e2
  | _, _ => False
  end.

Lemma row_alike_refl h1 h2 r : row_alike h1 h2 r r.
Proof. split; [done|]. intros j x1 x2 H1 H2. left. congruence. Qed.

Lemma alike_refl g1 g2 a : alike g1 g2 a a.
Proof.
  split; [done|]. intros i r1 r2 H1 H2.
  assert (r1 = r2) as -> by congruence. apply row_alike_refl.
Qed.

Lemma alike_opt_refl g1 g2 o : alike_opt g1 g2 o o.
Proof. destruct o; cbn; [apply alike_refl|done]. Qed.

Lemma empty_alike g1 g2 rows cols :
  both (alike g1 g2) (Numpy.empty g1 rows cols) (Numpy.empty g2 rows cols).
Proof.
  unfold Numpy.empty. destruct (_ || _); cbn; [done|].
  split; [by rewrite !length_map|].
  intros i r1 r2. rewrite !list_lookup_fmap.
  destruct (seq 0 (Z.to_nat rows) !! i) as [k|] eqn:E; cbn; [|done].
  apply lookup_seq in E as [-> _]. cbn. intros [= <-] [= <-].
  split; [by rewrite !length_map|].
  intros j x1 x2. rewrite !list_lookup_fmap.
  destruct (seq 0 (Z.to_nat cols) !! j) as [k|] eqn:E; cbn; [|done].
  apply lookup_seq in E as [-> _]. cbn. intros [= <-] [= <-]. by right.
Qed.

(** [row[:k] = v]: the rows stay alike, and agree on the cells written. *)
Lemma assign_prefix_alike h1 h2 r1 r2 v :
  row_alike h1 h2 r1 r2 ->
  both (fun r1' r2' =>
          row_alike h1 h2 r1' r2' /\
          forall j, (j < length v)%nat -> r1' !! j = r2' !! j)
       (Numpy.assign_prefix r1 v) (Numpy.assign_prefix r2 v).
Proof.
  intros [L H]. unfold Numpy.assign_prefix. rewrite <- L.
  remember (Nat.min (length v) (length r1)) as n eqn:En.
  assert (Hdrop : forall k j x1 x2,
            drop k r1 !! j = Some x1 -> drop k r2 !! j = Some x2 ->
            x1 = x2 \/ (x1 = h1 (k + j)%nat /\ x2 = h2 (k + j)%nat)).
  { intros k j x1 x2. rewrite !lookup_drop. apply H. }
  case_decide as Hk.
  - cbn. split.
    + split; [by rewrite !length_app, !length_drop, L|].
      intros j x1 x2. destruct (decide (j < length v)%nat) as [Hj|Hj].
      * rewrite !lookup_app_l by done. left. congruence.
      * rewrite !lookup_app_r by lia.
        intros H1 H2. destruct (Hdrop _ _ _ _ H1 H2) as [?|[? ?]]; [by left|right].
        replace (length v + (j - length v))%nat with j in * by lia. done.
    + intros j Hj. by rewrite !lookup_app_l.
  - destruct v as [|x [|]]; cbn; try done. split.
    + split; [by rewrite !length_app, !length_replicate, !length_drop, L|].
      intros j x1 x2. destruct (decide (j < n)%nat) as [Hj|Hj].
      * rewrite !lookup_app_l by (by rewrite length_replicate). left. congruence.
      * rewrite !lookup_app_r by (rewrite length_replicate; lia).
        rewrite !length_replicate.
        intros H1 H2. destruct (Hdrop _ _ _ _ H1 H2) as [?|[? ?]]; [by left|right].
        replace (n + (j - n))%nat with j in * by lia. done.
    + intros j Hj. cbn in Hj. assert (j = 0)%nat as -> by lia.
      destruct (decide (0 < n)%nat).
      * rewrite !lookup_app_l by (rewrite length_replicate; lia). done.
      * assert (length r1 = 0%nat) as L1 by (cbn [length] in En; lia).
        assert (n = 0%nat) as -> by lia. rewrite L1 in L.
        destruct r1, r2; try discriminate. done.
Qed.

(** [row[:] = v]: the rows become the same. *)
Lemma assign_row_alike h1 h2 r1 r2 v :
  row_alike h1 h2 r1 r2 ->
  both (row_alike h1 h2) (Numpy.assign_row r1 v) (Numpy.assign_row r2 v).
Proof.
  intros [L _]. unfold Numpy.assign_row. rewrite <- L.
  case_decide; cbn; [apply row_alike_refl|].
  destruct v as [|x [|]]; cbn; try done. apply row_alike_refl.
Qed.

Lemma update_row_alike g1 g2 a1 a2 ii (f : list A -> outcome (list A))
    (P : list A -> list A -> Prop) :
  alike g1 g2 a1 a2 ->
  (forall r1 r2, row_alike (g1 ii) (g2 ii) r1 r2 ->
     both (fun r1' r2' => row_alike (g1 ii) (g2 ii) r1' r2' /\ P r1' r2') (f r1) (f r2)) ->
  both (fun a1' a2' =>
          alike g1 g2 a1' a2' /\
          exists r1' r2', a1' !! ii = Some r1' /\ a2' !! ii = Some r2' /\ P r1' r2')
       (Numpy.update_row a1 ii f) (Numpy.update_row a2 ii f).
Proof.
  intros [L H] Hf. unfold Numpy.update_row.
  destruct (a1 !! ii) as [r1|] eqn:E1, (a2 !! ii) as [r2|] eqn:E2; cbn.
  - specialize (Hf r1 r2 (H _ _ _ E1 E2)).
    destruct (f r1) as [r1'|e1], (f r2) as [r2'|e2]; cbn in *; try done.
    destruct Hf as [Hr HP]. split.
    + split; [by rewrite !length_insert|].
      intros i x1 x2. destruct (decide (i = ii)) as [->|Hne].
      * rewrite !list_lookup_insert_eq by (eauto using lookup_lt_Some).
        by intros [= <-] [= <-].
      * rewrite !list_lookup_insert_ne by done. apply H.
    + exists r1', r2'.
      rewrite !list_lookup_insert_eq by (eauto using lookup_lt_Some). done.
  - apply lookup_lt_Some in E1. apply lookup_ge_None in E2. lia.
  - apply lookup_lt_Some in E2. apply lookup_ge_None in E1. lia.
  - done.
Qed.

End Alike.

Section Two_runs.
Context {Obj : Type}.
Implicit Types s : state Obj.

(** [wp2 m1 m2 s1 s2 Q]: the results and final states of [m1] from [s1] and
    of [m2] from [s2] are related by [Q]. *)
Definition wp2 {A} (m1 m2 : M Obj A) s1 s2
    (Q : outcome A -> state Obj -> outcome A -> state Obj -> Prop) : Prop :=
  Q (fst (m1 s1)) (snd (m1 s1)) (fst (m2 s2)) (snd (m2 s2)).

Lemma wp2_run {A} (m1 m2 : M Obj A) s1 s2 Q :
  wp2 m1 m2 s1 s2 Q -> Q (fst (m1 s1)) (snd (m1 s1)) (fst (m2 s2)) (snd (m2 s2)).
Proof. auto. Qed.

Lemma wp2_mono {A} (m1 m2 : M Obj A) s1 s2 (Q Q' : outcome A -> _ -> outcome A -> _ -> Prop) :
  wp2 m1 m2 s1 s2 Q -> (forall r1 t1 r2 t2, Q r1 t1 r2 t2 -> Q' r1 t1 r2 t2) ->
  wp2 m1 m2 s1 s2 Q'.
Proof. unfold wp2. auto. Qed.

(** Two runs that are looked at one by one. *)
Lemma wp2_apart {A} (m1 m2 : M Obj A) s1 s2 P1 P2
    (Q : outcome A -> _ -> outcome A -> _ -> Prop) :
  wp m1 s1 P1 -> wp m2 s2 P2 ->
  (forall r1 t1 r2 t2, P1 r1 t1 -> P2 r2 t2 -> Q r1 t1 r2 t2) ->
  wp2 m1 m2 s1 s2 Q.
Proof. unfold wp, wp2. auto. Qed.

(** Two runs in step: both go on, or both stop with the same exception. *)
Lemma wp2_bind {A B} (m1 m2 : M Obj A) (k1 k2 : A -> M Obj B) s1 s2 Q :
  wp2 m1 m2 s1 s2 (fun r1 t1 r2 t2 =>
    match r1, r2 with
    | Returns a1, Returns a2 => wp2 (k1 a1) (k2 a2) t1 t2 Q
    | Raises e1, Raises e2 => Q (Raises e1) t1 (Raises e2) t2
    | _, _ => False
    end) ->
  wp2 (bind m1 k1) (bind m2 k2) s1 s2 Q.
Proof.
  unfold wp2, bind. destruct (m1 s1) as [[a1|e1] t1], (m2 s2) as [[a2|e2] t2]; cbn; tauto.
Qed.

(** The same statement from the same state. *)
Lemma wp2_bind_same {A B} (m : M Obj A) (k1 k2 : A -> M Obj B) s Q :
  (forall a t, wp2 (k1 a) (k2 a) t t Q) ->
  (forall e t, Q (Raises e) t (Raises e) t) ->
  wp2 (bind m k1) (bind m k2) s s Q.
Proof.
  intros H1 H2. unfold wp2, bind. destruct (m s) as [[a|e] t]; cbn; [apply H1|apply H2].
Qed.

Lemma wp2_bind_after {A B} (m : M Obj A) (k1 k2 : A -> M Obj B) s P Q :
  wp m s P ->
  (forall a t, P (Returns a) t -> wp2 (k1 a) (k2 a) t t Q) ->
  (forall e t, P (Raises e) t -> Q (Raises e) t (Raises e) t) ->
  wp2 (bind m k1) (bind m k2) s s Q.
Proof.
  unfold wp, wp2, bind. intros H H1 H2. destruct (m s) as [[a|e] t]; cbn in *; auto.
Qed.

Lemma wp2_name {A B} id (field : state Obj -> option A) (k1 k2 : A -> M Obj B) s1 s2 Q :
  field s2 = field s1 ->
  match field s1 with
  | Some v => wp2 (k1 v) (k2 v) s1 s2 Q
  | None => Q (Raises (NameError id)) s1 (Raises (NameError id)) s2
  end ->
  wp2 (bind (name id field) k1) (bind (name id field) k2) s1 s2 Q.
Proof. unfold wp2, bind, name. intros ->. destruct (field s1); auto. Qed.

(** Reading a name that holds related values in the two runs. *)
Lemma wp2_name_both {A B} (P : A -> A -> Prop) id (field : state Obj -> option A)
    (k1 k2 : A -> M Obj B) s1 s2 Q :
  match field s1, field s2 with
  | Some a1, Some a2 => P a1 a2
  | None, None => True
  | _, _ => False
  end ->
  (forall a1 a2, P a1 a2 -> wp2 (k1 a1) (k2 a2) s1 s2 Q) ->
  Q (Raises (NameError id)) s1 (Raises (NameError id)) s2 ->
  wp2 (bind (name id field) k1) (bind (name id field) k2) s1 s2 Q.
Proof.
  unfold wp2, bind, name. destruct (field s1), (field s2); cbn; try tauto. auto.
Qed.

Lemma wp2_lift {A B} (o : outcome A) (k1 k2 : A -> M Obj B) s1 s2 Q :
  match o with
  | Returns a => wp2 (k1 a) (k2 a) s1 s2 Q
  | Raises e => Q (Raises e) s1 (Raises e) s2
  end ->
  wp2 (bind (lift o) k1) (bind (lift o) k2) s1 s2 Q.
Proof. unfold wp2, bind, lift. destruct o; auto. Qed.

Lemma wp2_lift_both {A B} (P : A -> A -> Prop) (o1 o2 : outcome A)
    (k1 k2 : A -> M Obj B) s1 s2 Q :
  both P o1 o2 ->
  (forall a1 a2, P a1 a2 -> wp2 (k1 a1) (k2 a2) s1 s2 Q) ->
  (forall e, Q (Raises e) s1 (Raises e) s2) ->
  wp2 (bind (lift o1) k1) (bind (lift o2) k2) s1 s2 Q.
Proof.
  unfold wp2, bind, lift, both. destruct o1, o2; cbn; try tauto; auto.
  intros <-. auto.
Qed.

Lemma wp2_call {A B} ev (o : outcome A) (k1 k2 : A -> M Obj B) s1 s2 Q :
  match o with
  | Returns a => wp2 (k1 a) (k2 a) (log_event ev s1) (log_event ev s2) Q
  | Raises e => Q (Raises e) (log_event ev s1) (Raises e) (log_event ev s2)
  end ->
  wp2 (bind (call ev o) k1) (bind (call ev o) k2) s1 s2 Q.
Proof. unfold wp2, bind, call. destruct o; auto. Qed.

Lemma wp2_index {A B} (l : list A) i (k1 k2 : A -> M Obj B) s1 s2 Q :
  match l !! i with
  | Some x => wp2 (k1 x) (k2 x) s1 s2 Q
  | None => Q (Raises IndexError) s1 (Raises IndexError) s2
  end ->
  wp2 (bind (index l i) k1) (bind (index l i) k2) s1 s2 Q.
Proof. unfold wp2, bind, index. destruct (l !! i); auto. Qed.

Lemma wp2_assign {B} f1 f2 (k1 k2 : unit -> M Obj B) s1 s2 Q :
  wp2 (k1 tt) (k2 tt) (f1 s1) (f2 s2) Q ->
  wp2 (bind (assign f1) k1) (bind (assign f2) k2) s1 s2 Q.
Proof. auto. Qed.

Lemma wp2_assign_last f1 f2 s1 s2 Q :
  Q (Returns tt) (f1 s1) (Returns tt) (f2 s2) -> wp2 (assign f1) (assign f2) s1 s2 Q.
Proof. auto. Qed.

Lemma wp2_ret_bind {A B} (a : A) (k1 k2 : A -> M Obj B) s1 s2 Q :
  wp2 (k1 a) (k2 a) s1 s2 Q -> wp2 (bind (ret a) k1) (bind (ret a) k2) s1 s2 Q.
Proof. auto. Qed.

Lemma wp2_ret {A} (a1 a2 : A) s1 s2 Q :
  Q (Returns a1) s1 (Returns a2) s2 -> wp2 (ret a1) (ret a2) s1 s2 Q.
Proof. auto. Qed.

(** The loop rule for two runs in step. *)
Lemma wp2_for_each {A} (I : list A -> state Obj -> state Obj -> Prop) (l : list A)
    (body1 body2 : A -> M Obj unit) s1 s2 Q :
  I [] s1 s2 ->
  (forall done x rest t1 t2, l = done ++ x :: rest -> I done t1 t2 ->
     wp2 (body1 x) (body2 x) t1 t2 (fun r1 u1 r2 u2 =>
       match r1, r2 with
       | Returns _, Returns _ => I (done ++ [x]) u1 u2
       | Raises e1, Raises e2 => Q (Raises e1) u1 (Raises e2) u2
       | _, _ => False
       end)) ->
  (forall t1 t2, I l t1 t2 -> Q (Returns tt) t1 (Returns tt) t2) ->
  wp2 (for_each l body1) (for_each l body2) s1 s2 Q.
Proof.
  intros H0 Hstep Hend.
  assert (G : forall rest done t1 t2, l = done ++ rest -> I done t1 t2 ->
                wp2 (for_each rest body1) (for_each rest body2) t1 t2 Q).
  { induction rest as [|x rest IH]; intros done t1 t2 El Hd.
    - rewrite app_nil_r in El. subst done. apply Hend, Hd.
    - cbn [for_each]. apply wp2_bind.
      eapply wp2_mono; [apply (Hstep done x rest t1 t2 El Hd)|].
      intros [[]|e1] u1 [[]|e2] u2 H2; try done.
      apply (IH (done ++ [x])); [|exact H2].
      rewrite <- app_assoc. exact El. }
  apply (G l []); auto.
Qed.

End Two_runs.

Section Array_updates.
Context {A : Type}.

Lemma both_mono {B} (P P' : B -> B -> Prop) (o1 o2 : outcome B) :
  both P o1 o2 -> (forall b1 b2, P b1 b2 -> P' b1 b2) -> both P' o1 o2.
Proof. unfold both. destruct o1, o2; auto. Qed.

(** [a[ii, :] = v] in two runs. *)
Lemma update_assign_row_alike (g1 g2 : nat -> nat -> A) a1 a2 ii v :
  alike g1 g2 a1 a2 ->
  both (alike g1 g2)
       (Numpy.update_row a1 ii (fun cells => Numpy.assign_row cells v))
       (Numpy.update_row a2 ii (fun cells => Numpy.assign_row cells v)).
Proof.
  intros H.
  eapply both_mono;
    [apply (update_row_alike g1 g2 a1 a2 ii _ (fun _ _ => True) H)|].
  - intros r1 r2 Hr. eapply both_mono; [apply (assign_row_alike _ _ _ _ v Hr)|]. auto.
  - intros b1 b2 [Hb _]. exact Hb.
Qed.

(** [a[ii, :len(v)] = v] in two runs: the cells written agree. *)
Lemma update_assign_prefix_alike (g1 g2 : nat -> nat -> A) a1 a2 ii v :
  alike g1 g2 a1 a2 ->
  both (fun a1' a2' =>
          alike g1 g2 a1' a2' /\
          forall j, (j < length v)%nat -> cell (Some a1') ii j = cell (Some a2') ii j)
       (Numpy.update_row a1 ii (fun cells => Numpy.assign_prefix cells v))
       (Numpy.update_row a2 ii (fun cells => Numpy.assign_prefix cells v)).
Proof.
  intros H.
  eapply both_mono;
    [apply (update_row_alike g1 g2 a1 a2 ii _
              (fun r1 r2 => forall j, (j < length v)%nat -> r1 !! j = r2 !! j) H)|].
  - intros r1 r2 Hr. apply assign_prefix_alike, Hr.
  - intros b1 b2 [Hb (r1 & r2 & E1 & E2 & Hj)]. split; [exact Hb|].
    intros j Hlt. unfold cell, row. cbn. rewrite E1, E2. cbn. by apply Hj.
Qed.

End Array_updates.

Section Twin.
Context {Obj : Type} (cfg : config) (ext : externals Obj) (mem1 mem2 : memory).
Implicit Types s : state Obj.

(** The six arrays of two runs, one with the allocator [mem1], the other
    with [mem2]. *)
Definition arrays_alike s1 s2 : Prop :=
  alike_opt (float_garbage mem1 0) (float_garbage mem2 0) (vel_array s1) (vel_array s2) /\
  alike_opt (float_garbage mem1 1) (float_garbage mem2 1) (baz_array s1) (baz_array s2) /\
  alike_opt (float_garbage mem1 2) (float_garbage mem2 2) (mdccm_array s1) (mdccm_array s2) /\
  alike_opt (float_garbage mem1 3) (float_garbage mem2 3) (t_array s1) (t_array s2) /\
  alike_opt (complex_garbage mem1 0) (complex_garbage mem2 0) (w_array s1) (w_array s2) /\
  alike_opt (complex_garbage mem1 1) (complex_garbage mem2 1) (h_array s1) (h_array s2).

(** Two states that differ in nothing the narrow-band loop reads, but for
    what the allocators left in the arrays. *)
Definition twin s1 s2 : Prop :=
  (st s2 = st s1 /\ rij s2 = rij s1 /\ freq_resp_list s2 = freq_resp_list s1 /\
   num_compute_list s2 = num_compute_list s1) /\
  arrays_alike s1 s2.

Lemma wp2_array {A B} (g1 g2 : nat -> nat -> A) id
    (field : state Obj -> option (list (list A))) (k1 k2 : _ -> M Obj B) s1 s2 Q :
  alike_opt g1 g2 (field s1) (field s2) ->
  (forall a1 a2, alike g1 g2 a1 a2 -> wp2 (k1 a1) (k2 a2) s1 s2 Q) ->
  Q (Raises (NameError id)) s1 (Raises (NameError id)) s2 ->
  wp2 (bind (name id field) k1) (bind (name id field) k2) s1 s2 Q.
Proof. intros H. by apply wp2_name_both. Qed.

(** What iteration [ii] does in two such runs. *)
Definition band_twin_post (ii : nat) (r1 : outcome unit) s1 (r2 : outcome unit) s2 : Prop :=
  r1 = r2 /\ twin s1 s2 /\
  (r1 = Returns tt ->
   exists counts c,
     num_compute_list s1 = Some (counts ++ [c]) /\
     forall j, (j < c)%nat -> cell (vel_array s1) ii j = cell (vel_array s2) ii j).

End Twin.

Ltac twin_step :=
  lazymatch goal with
  | |- wp2 (bind (index _ _) _) _ _ _ _ => apply wp2_index
  | |- wp2 (bind (lift (Numpy.update_row _ _ (fun _ => Numpy.assign_row _ _))) _) _ _ _ _ =>
      eapply wp2_lift_both;
      [apply update_assign_row_alike; eassumption | intros ? ? ? | intros ?]
  | |- wp2 (bind (lift (Numpy.update_row _ _ (fun _ => Numpy.assign_prefix _ _))) _) _ _ _ _ =>
      eapply wp2_lift_both;
      [apply update_assign_prefix_alike; eassumption | intros ? ? [? ?] | intros ?]
  | |- wp2 (bind (lift _) _) _ _ _ _ => apply wp2_lift
  | |- wp2 (bind (call _ _) _) _ _ _ _ => apply wp2_call; state_simpl
  | |- wp2 (bind (name _ _) _) _ _ _ _ =>
      first [ apply wp2_name; [state_simpl; first [assumption|reflexivity]|state_simpl]
            | eapply wp2_array; [state_simpl; eassumption | intros ? ? ? | ] ]
  | |- wp2 (bind (assign _) _) _ _ _ _ => apply wp2_assign; state_simpl
  | |- wp2 (assign _) (assign _) _ _ _ => apply wp2_assign_last; state_simpl; cbv beta iota
  | |- match ?o with Returns _ => _ | Raises _ => _ end => destruct o as [?|?] eqn:?
  | |- match ?o with Some _ => _ | None => _ end => destruct o eqn:?
  | |- wp2 (match ?p with pair _ _ => _ end) _ _ _ _ => destruct p
  | |- wp2 ((fun _ => _) _) _ _ _ _ => cbv beta
  end.

Section Twin_band.
Context {Obj : Type} (cfg : config) (ext : externals Obj) (mem1 mem2 : memory).
Implicit Types s : state Obj.

Lemma band_step_twin freqlist WINLEN_list ii s1 s2 :
  twin mem1 mem2 s1 s2 ->
  wp2 (band_step cfg ext freqlist WINLEN_list ii) (band_step cfg ext freqlist WINLEN_list ii)
      s1 s2 (band_twin_post mem1 mem2 ii).
Proof.
  intros ((Hst & Hrij & Hg & Hn) & (Hv & Hb & Hm & Ht & Hw & Hh)).
  unfold band_step.
  repeat twin_step.
  all: unfold band_twin_post, twin, arrays_alike; state_simpl.
  all: (split; [reflexivity|]).
  all: (split; [split; [repeat split; congruence|];
                refine (conj _ (conj _ (conj _ (conj _ (conj _ _)))));
                first [assumption | cbn [alike_opt]; assumption]|]).
  all: try discriminate.
  intros _. eexists _, _. split; [reflexivity|assumption].
Qed.

End Twin_band.

Ltac twin_enter :=
  lazymatch goal with
  | |- wp2 (bind (if ?b then _ else _) _) _ _ _ _ => destruct b eqn:?
  | |- wp2 (bind (bind _ _) _) (bind (bind _ _) _) _ _ _ => apply wp2_bind
  | |- wp2 (bind (ret _) _) _ _ _ _ => apply wp2_ret_bind
  | |- wp2 (bind (lift (Numpy.empty _ _ _)) _) _ _ _ _ =>
      eapply wp2_lift_both; [apply empty_alike | intros ? ? ? | intros ?]
  end.

Section Twin_loop.
Context {Obj : Type} (cfg : config) (ext : externals Obj) (mem1 mem2 : memory).
Implicit Types s : state Obj.

(** The cells of [vel_array] that [num_compute_list] declares valid are
    the same in the two runs. *)
Definition agree s1 s2 : Prop :=
  forall counts i c j,
    num_compute_list s1 = Some counts -> counts !! i = Some c -> (j < c)%nat ->
    cell (vel_array s1) i j = cell (vel_array s2) i j.

(** Two runs end alike. *)
Definition end_alike s1 s2 : Prop :=
  num_compute_list s2 = num_compute_list s1 /\
  arrays_alike mem1 mem2 s1 s2 /\ agree s1 s2.

Lemma initialize_arrays_twin Fs w_broad h_broad s :
  num_compute_list s = None ->
  wp2 (initialize_arrays cfg ext mem1 Fs w_broad h_broad)
      (initialize_arrays cfg ext mem2 Fs w_broad h_broad) s s
      (fun r1 t1 r2 t2 =>
         r1 = r2 /\ twin mem1 mem2 t1 t2 /\
         match r1 with
         | Returns _ => num_compute_list t1 = Some []
         | Raises _ => num_compute_list t1 = None
         end).
Proof.
  intros Hn. unfold initialize_arrays.
  repeat first [twin_enter | twin_step].
  all: cbv beta iota; unfold twin, arrays_alike; state_simpl.
  all: (split; [reflexivity|]).
  all: (split; [split; [repeat split; congruence|];
                refine (conj _ (conj _ (conj _ (conj _ (conj _ _)))));
                first [apply alike_opt_refl | cbn [alike_opt]; assumption]|]).
  all: done.
Qed.

Lemma cell_row {A} (a a' : option (list (list A))) i j :
  row a' i = row a i -> cell a' i j = cell a i j.
Proof. unfold cell. by intros ->. Qed.

Lemma narrow_band_processing_twin freqlist WINLEN_list s1 s2 :
  twin mem1 mem2 s1 s2 -> num_compute_list s1 = Some [] ->
  wp2 (narrow_band_processing cfg ext freqlist WINLEN_list)
      (narrow_band_processing cfg ext freqlist WINLEN_list) s1 s2
      (fun r1 t1 r2 t2 => r1 = r2 /\ twin mem1 mem2 t1 t2 /\ agree t1 t2).
Proof.
  intros Htw Hn0. unfold narrow_band_processing.
  apply (wp2_for_each
           (fun done t1 t2 =>
              twin mem1 mem2 t1 t2 /\ agree t1 t2 /\
              exists counts, num_compute_list t1 = Some counts /\
                             length counts = length done)).
  - split; [done|]. split; [|by exists []].
    intros counts i c j Hc. rewrite Hn0 in Hc. injection Hc as <-. done.
  - intros done x rest t1 t2 E (Ht & Ha & counts & Hc & Hl).
    apply seq_split_index in E as [-> _].
    pose proof (wp_run _ _ _ (band_step_spec cfg ext freqlist WINLEN_list (length done) t1))
      as (_ & _ & (_ & _ & (_ & V1) & _) & C1).
    pose proof (wp_run _ _ _ (band_step_spec cfg ext freqlist WINLEN_list (length done) t2))
      as (_ & _ & (_ & _ & (_ & V2) & _) & _).
    pose proof (wp2_run _ _ _ _ _ (band_step_twin cfg ext mem1 mem2 freqlist WINLEN_list
                                     (length done) t1 t2 Ht)) as (Er & Hu & Hnew).
    unfold wp2.
    set (r1 := fst (band_step cfg ext freqlist WINLEN_list (length done) t1)) in *.
    set (u1 := snd (band_step cfg ext freqlist WINLEN_list (length done) t1)) in *.
    set (r2 := fst (band_step cfg ext freqlist WINLEN_list (length done) t2)) in *.
    set (u2 := snd (band_step cfg ext freqlist WINLEN_list (length done) t2)) in *.
    clearbody r1 u1 r2 u2. subst r2.
    assert (Hold : forall i j, i <> length done ->
              cell (vel_array t1) i j = cell (vel_array t2) i j ->
              cell (vel_array u1) i j = cell (vel_array u2) i j).
    { intros i j Hi Hij.
      rewrite (cell_row _ _ i j (V1 i Hi)), (cell_row _ _ i j (V2 i Hi)). exact Hij. }
    destruct r1 as [[]|e].
    + destruct C1 as (counts0 & c0 & _ & Hc0 & Hc1 & _).
      rewrite Hc in Hc0. injection Hc0 as <-.
      destruct (Hnew eq_refl) as (counts' & c & Hc' & Hcell).
      rewrite Hc1 in Hc'. injection Hc' as Hc'. apply app_inj_tail in Hc' as [<- <-].
      split; [exact Hu|]. split.
      * intros cs i c j Hcs Hi Hj. rewrite Hc1 in Hcs. injection Hcs as <-.
        destruct (decide (i = length done)) as [->|Hne].
        -- rewrite <- Hl, list_lookup_middle in Hi by done. injection Hi as <-.
           by apply Hcell.
        -- apply Hold; [done|]. apply (Ha counts i c j Hc); [|done].
           apply lookup_lt_Some in Hi as Hlt. rewrite length_app in Hlt. cbn in Hlt.
           rewrite lookup_app_l in Hi by lia. done.
      * exists (counts ++ [c0]). split; [done|]. rewrite !length_app. cbn. lia.
    + split; [done|]. split; [exact Hu|].
      intros cs i c j Hcs Hi Hj. rewrite C1, Hc in Hcs. injection Hcs as <-.
      apply Hold; [|by apply (Ha counts i c j Hc)].
      apply lookup_lt_Some in Hi. lia.
  - intros t1 t2 (Ht & Ha & _). done.
Qed.

(** The arrays and the counts are as before. *)
Definition same_arrays s s' : Prop :=
  (w_array s' = w_array s /\ h_array s' = h_array s /\ vel_array s' = vel_array s /\
   baz_array s' = baz_array s /\ mdccm_array s' = mdccm_array s /\ t_array s' = t_array s) /\
  num_compute_list s' = num_compute_list s.

Lemma same_arrays_trans s s' s'' : same_arrays s s' -> same_arrays s' s'' -> same_arrays s s''.
Proof. unfold same_arrays. intros (A & N) (A' & N'). repeat split; intuition congruence. Qed.

Lemma plots_keep_arrays freqlist WINLEN_list stf_broad s :
  wp (bind (plot_processing_parameters cfg ext freqlist WINLEN_list)
           (fun _ => plot_pmcc_like cfg ext freqlist stf_broad))
     s (fun _ s' => same_arrays s s').
Proof.
  apply wp_bind. eapply wp_mono; [apply plot_processing_parameters_spec|]. cbv beta.
  intros r v ((_ & Hs) & _). destruct r as [[]|e]; [|exact Hs].
  eapply wp_mono; [apply plot_pmcc_like_spec|]. cbv beta.
  intros r' v' ((_ & Hs') & _). by apply (same_arrays_trans s v v').
Qed.

Lemma end_alike_kept u1 u2 v1 v2 :
  end_alike u1 u2 -> same_arrays u1 v1 -> same_arrays u2 v2 -> end_alike v1 v2.
Proof.
  unfold end_alike, arrays_alike, agree, same_arrays.
  intros (N & A & G) ((W1 & H1 & V1 & B1 & M1 & T1) & N1) ((W2 & H2 & V2 & B2 & M2 & T2) & N2).
  rewrite W1, H1, V1, B1, M1, T1, N1, W2, H2, V2, B2, M2, T2, N2. done.
Qed.

(** The rest of the script after the broadband figures, run twice from the
    same state with two allocators. *)
Lemma narrow_band_part_twin freqlist WINLEN_list stf_broad Fs w_broad h_broad s :
  num_compute_list s = None ->
  wp2 (narrow_band_part cfg ext mem1 freqlist WINLEN_list stf_broad Fs w_broad h_broad)
      (narrow_band_part cfg ext mem2 freqlist WINLEN_list stf_broad Fs w_broad h_broad)
      s s (fun _ t1 _ t2 => end_alike t1 t2).
Proof.
  intros Hn. unfold narrow_band_part.
  apply wp2_bind. eapply wp2_mono; [by apply initialize_arrays_twin|]. cbv beta.
  intros r1 t1 r2 t2 (<- & Ht & Hc).
  destruct r1 as [[]|e].
  2: { destruct Ht as ((_ & _ & _ & Hn2) & Hal). split; [done|]. split; [done|].
       intros counts i c j Hcs. congruence. }
  apply wp2_bind. eapply wp2_mono; [by apply narrow_band_processing_twin|]. cbv beta.
  intros r1 u1 r2 u2 (<- & Hu & Ha).
  assert (He : end_alike u1 u2).
  { destruct Hu as ((_ & _ & _ & Hn2) & Hal). done. }
  destruct r1 as [[]|e]; [|exact He].
  eapply (wp2_apart _ _ _ _ (fun _ v => same_arrays u1 v) (fun _ v => same_arrays u2 v)).
  - apply plots_keep_arrays.
  - apply plots_keep_arrays.
  - intros _ v1 _ v2. by apply end_alike_kept.
Qed.

End Twin_loop.

Section Counts_unbound.
Context {Obj : Type} (cfg : config) (ext : externals Obj).
Implicit Types s : state Obj.

(** The statements before the arrays are allocated leave the arrays and
    [num_compute_list] as they found them. *)
Lemma gather_data_keeps s : wp (gather_data cfg ext) s (fun _ s' => same_arrays s s').
Proof.
  eapply wp_mono; [apply gather_data_spec|]. cbv beta.
  intros r s' ((_ & _ & _ & _ & _ & _ & N) & A & _). by split.
Qed.

Lemma setup_keeps s : wp (setup cfg ext) s (fun _ s' => same_arrays s s').
Proof. unfold setup. wp_steps. all: unfold same_arrays; state_simpl; repeat split; reflexivity. Qed.

Lemma broadband_processing_keeps s :
  wp (broadband_processing cfg ext) s (fun _ s' => same_arrays s s').
Proof.
  eapply wp_mono; [apply broadband_processing_spec|]. cbv beta.
  intros r s' ((_ & A) & _). exact A.
Qed.

Lemma broadband_response_keeps Fs sos s :
  wp (broadband_response cfg ext Fs sos) s (fun _ s' => same_arrays s s').
Proof. unfold broadband_response. wp_steps. all: unfold same_arrays; state_simpl; repeat split; reflexivity. Qed.

End Counts_unbound.

Section Twin_script.
Context {Obj : Type} (cfg : config) (ext : externals Obj) (mem1 mem2 : memory).
Implicit Types s : state Obj.

Lemma end_alike_refl s : end_alike mem1 mem2 s s.
Proof.
  split; [done|]. split; [|done].
  unfold arrays_alike. repeat split; apply alike_opt_refl.
Qed.

Lemma script_twin pre :
  wp2 (script cfg ext mem1) (script cfg ext mem2) (initial pre) (initial pre)
      (fun _ t1 _ t2 => end_alike mem1 mem2 t1 t2).
Proof.
  unfold script.
  eapply wp2_bind_after; [apply gather_data_keeps| |intros; apply end_alike_refl].
  intros [] s1 (_ & N1). state_simpl_in N1. cbv beta iota.
  eapply wp2_bind_after; [apply setup_keeps| |intros; apply end_alike_refl].
  intros [fl wl] s2 (_ & N2). cbv beta iota.
  eapply wp2_bind_after; [apply broadband_processing_keeps| |intros; apply end_alike_refl].
  intros [[stf Fs] sos] s3 (_ & N3). cbv beta iota.
  eapply wp2_bind_after; [apply broadband_response_keeps| |intros; apply end_alike_refl].
  intros [w h] s4 (_ & N4). cbv beta iota.
  apply narrow_band_part_twin. congruence.
Qed.

End Twin_script.

Section Capacity.
Context {Obj : Type} (cfg : config) (ext : externals Obj) (mem : memory).
Implicit Types s : state Obj.

Lemma wp_conj {A} (m : M Obj A) s (P Q : outcome A -> state Obj -> Prop) :
  wp m s P -> wp m s Q -> wp m s (fun r s' => P r s' /\ Q r s').
Proof. unfold wp. auto. Qed.


(** A raise while the arrays are being allocated leaves [num_compute_list]
    as it was. *)
Lemma initialize_arrays_counts Fs w_broad h_broad s :
  wp (initialize_arrays cfg ext mem Fs w_broad h_broad) s
     (fun r s' => match r with
                  | Returns _ => True
                  | Raises _ => num_compute_list s' = num_compute_list s
                  end).
Proof. unfold initialize_arrays. wp_steps. all: state_simpl; reflexivity || exact I. Qed.




End Capacity.

Section Calls.
Context {Obj : Type} (cfg : config) (ext : externals Obj) (mem : memory).
Implicit Types s : state Obj.

(** The calls of the narrow-band loop against the counts it records: every
    band that records a count has made its filter-response call and its
    beamformer call; a band that raises may have made them too. *)
Definition loop_calls (WINLEN_list : list Q) (n : nat) s (r : outcome unit) s' : Prop :=
  exists evs cs kb,
    trace s' = trace s ++ evs /\
    num_compute_list s' = (fun l => l ++ cs) <$> num_compute_list s /\
    (beam_windows evs = take kb WINLEN_list /\ length (take kb WINLEN_list) = kb) /\
    (length cs <= kb <= S (length cs) /\
     length cs <= length (response_grids evs) <= S (length cs))%nat /\
    (length cs <= n /\ kb <= n /\ length (response_grids evs) <= n)%nat /\
    (r = Returns tt ->
     length cs = n /\ kb = n /\ length (response_grids evs) = n).

Lemma narrow_band_processing_calls freqlist WINLEN_list s :
  wp (narrow_band_processing cfg ext freqlist WINLEN_list) s
     (loop_calls WINLEN_list (Z.to_nat (nbands cfg)) s).
Proof.
  unfold narrow_band_processing.
  set (n := Z.to_nat (nbands cfg)).
  apply (wp_for_each
           (fun done s1 =>
              (length done <= n)%nat /\
              exists evs cs,
                trace s1 = trace s ++ evs /\
                num_compute_list s1 = (fun l => l ++ cs) <$> num_compute_list s /\
                length cs = length done /\
                beam_windows evs = take (length done) WINLEN_list /\
                length (take (length done) WINLEN_list) = length done /\
                length (response_grids evs) = length done)).
  - split; [cbn; lia|]. exists [], []. rewrite app_nil_r. cbn.
    destruct (num_compute_list s); cbn; rewrite ?app_nil_r; done.
  - intros done x rest s1 E (Hn & evs1 & cs & T1 & C1 & L1 & B1 & LB1 & G1).
    apply seq_split_index in E as [-> Hlt].
    eapply wp_mono; [apply band_step_spec|]. cbv beta.
    intros r s2 (_ & (evs2 & T2 & _ & _ & _ & _ & B2 & G2 & R2) & _ & Cnt).
    set (k := length done) in *.
    assert (HB : exists kb,
               beam_windows (evs1 ++ evs2) = take kb WINLEN_list /\
               length (take kb WINLEN_list) = kb /\ (k <= kb <= S k)%nat /\
               (length (beam_windows evs2) = 1%nat -> kb = S k)).
    { rewrite beam_windows_app, B1. destruct B2 as [->|(w & Hw & ->)].
      - exists k. rewrite app_nil_r. cbn. repeat split; try done; try lia.
      - exists (S k). rewrite (take_S_r _ _ _ Hw), length_app, LB1. cbn.
        repeat split; lia. }
    destruct HB as (kb & HB1 & HB2 & HB3 & HB4).
    assert (HG : length (response_grids (evs1 ++ evs2))
                 = (k + length (response_grids evs2))%nat).
    { by rewrite response_grids_app, length_app, G1. }
    assert (HT : trace s2 = trace s ++ (evs1 ++ evs2)) by (by rewrite T2, T1, app_assoc).
    destruct r as [[]|e].
    + destruct (R2 eq_refl) as (G2' & B2').
      destruct Cnt as (counts & c & m & Cn1 & Cn2 & _).
      assert (Hlen : length (done ++ [k]) = S k) by (rewrite length_app; cbn; lia).
      rewrite Hlen.
      split; [lia|]. exists (evs1 ++ evs2), (cs ++ [c]).
      split; [exact HT|].
      split.
      { rewrite Cn2. rewrite Cn1 in C1. destruct (num_compute_list s); [|discriminate].
        cbn in *. injection C1 as ->. by rewrite app_assoc. }
      split; [rewrite length_app; cbn; lia|].
      rewrite (HB4 B2') in HB1, HB2. split; [exact HB1|]. split; [exact HB2|].
      rewrite HG, G2'. lia.
    + exists (evs1 ++ evs2), cs, kb.
      split; [exact HT|]. split; [by rewrite Cnt|].
      split; [done|]. split; [lia|]. split; [lia|]. discriminate.
  - intros s1 (Hn & evs & cs & T & C & L & B & LB & G).
    rewrite length_seq in *. exists evs, cs, n.
    repeat split; try done; lia.
Qed.

(** The broadband pass: the beamformer is called with [WINLEN] before any
    figure event; a pass that makes no call raises and leaves no figure
    event. *)
Definition broadband_calls s (r : outcome (Stream * Q * Obj)) s' : Prop :=
  exists evs,
    trace s' = trace s ++ evs /\ response_grids evs = [] /\
    (length (writes evs) <= 1)%nat /\
    (beam_windows evs = [WINLEN cfg] \/
     beam_windows evs = [] /\ figure_log evs = [] /\ returned r = false).

Lemma broadband_processing_calls s :
  wp (broadband_processing cfg ext) s (broadband_calls s).
Proof.
  unfold broadband_processing. wp_steps.
  all: unfold broadband_calls; state_simpl.
  all: eexists; split; [solve_trace_eq|]; events_simpl; cbn [returned length].
  all: split; [reflexivity|]; split; [lia|].
  all: first [left; reflexivity | right; repeat split; reflexivity].
Qed.

(** The broadband response: the grid is bound and the response evaluated
    before the figure is saved; a section that evaluates no response raises,
    binds no grid and leaves no figure event. *)
Definition response_calls s (r : outcome (list R * list complex)) s' : Prop :=
  exists evs,
    trace s' = trace s ++ evs /\ beam_windows evs = [] /\
    (length (writes evs) <= 1)%nat /\
    (response_grids evs = [] ->
     figure_log evs = [] /\ returned r = false /\ freq_resp_list s' = freq_resp_list s).

Lemma broadband_response_calls Fs sos s :
  wp (broadband_response cfg ext Fs sos) s (response_calls s).
Proof.
  unfold broadband_response. wp_steps.
  all: unfold response_calls; state_simpl.
  all: eexists; split; [solve_trace_eq|]; events_simpl; cbn [returned length].
  all: split; [reflexivity|]; split; [lia|].
  all: first [discriminate | intros _; repeat split; reflexivity].
Qed.

End Calls.

Section Beam_calls.
Context {Obj : Type} (cfg : config) (ext : externals Obj) (mem : memory).
Implicit Types s : state Obj.





End Beam_calls.

Section Grid_calls.
Context {Obj : Type} (cfg : config) (ext : externals Obj) (mem : memory).
Implicit Types s : state Obj.

(** A run that has not reached the broadband filter-response call. *)
Definition before_response (r : outcome unit) s : Prop :=
  response_grids (trace s) = [] /\ (length (writes (trace s)) <= 1)%nat /\
  vel_array s = None /\ num_compute_list s = None /\ exists e, r = Raises e.

(** A run whose filter responses, the broadband one and those of bands
    [0 .. k-1], were all evaluated on the grid for [Fs]. *)
Definition grid_calls (r : outcome unit) s : Prop :=
  exists Fs k,
    ((0 < Fs)%Q /\ broadband_rate cfg ext Fs) /\
    (freq_resp_list s = Some (response_grid Fs) /\
     response_grids (trace s) = replicate (S k) (response_grid Fs)) /\
    ((k <= Z.to_nat (nbands cfg))%nat /\
     (r = Returns tt -> k = Z.to_nat (nbands cfg))) /\
    forall counts, num_compute_list s = Some counts ->
                   (length counts <= k <= S (length counts))%nat.

Lemma writes_app (l1 l2 : list (event Obj)) : writes (l1 ++ l2) = writes l1 ++ writes l2.
Proof. apply omap_app. Qed.

#[local] Opaque response_grid.

Lemma script_grid_calls pre :
  wp (script cfg ext mem) (initial pre) (fun r s => before_response r s \/ grid_calls r s).
Proof.
  unfold script.
  phase (wp_conj _ _ _ _ (gather_data_spec cfg ext _) (gather_data_keeps cfg ext _)).
  intros r s1 ((_ & _ & evs0 & T0 & F0 & _ & G0 & _) & ((_ & _ & V0 & _) & N0)).
  state_simpl_in T0. state_simpl_in N0. state_simpl_in V0. cbn [app] in T0.
  assert (P1 : response_grids (trace s1) = [] /\ writes (trace s1) = [] /\
               vel_array s1 = None /\ num_compute_list s1 = None).
  { rewrite T0, writes_figure_log, F0. done. }
  assert (Stop : forall (r' : outcome unit) e s,
            r' = Raises e ->
            response_grids (trace s) = [] -> (length (writes (trace s)) <= 1)%nat ->
            vel_array s = None -> num_compute_list s = None ->
            before_response r' s \/ grid_calls r' s).
  { intros r' e s -> H1 H2 H3 H4. left. unfold before_response. eauto 10. }
  destruct P1 as (G1 & W1 & V1 & N1).
  destruct r as [[]|e]; [|eapply Stop; eauto; rewrite W1; cbn; lia].
  phase (wp_conj _ _ _ _ (setup_spec cfg ext _) (setup_keeps cfg ext _)).
  intros r s2 ((T2 & _) & ((_ & _ & V2 & _) & N2)).
  rewrite <- T2 in G1, W1. rewrite <- V2 in V1. rewrite <- N2 in N1.
  destruct r as [[fl wl]|e]; [|eapply Stop; eauto; rewrite W1; cbn; lia].
  phase (wp_conj _ _ _ _
           (wp_conj _ _ _ _ (broadband_processing_spec cfg ext _)
              (broadband_processing_calls cfg ext _))
           (broadband_processing_keeps cfg ext _)).
  intros r s3 (((_ & evsB & TB & _ & _ & _ & _ & BR) & (evsB' & TB' & GB & WB & _))
               & ((_ & _ & V3 & _) & N3)).
  assert (evsB' = evsB) as -> by (rewrite TB in TB'; by apply app_inv_head in TB').
  assert (G3 : response_grids (trace s3) = []).
  { by rewrite TB, response_grids_app, G1, GB. }
  assert (W3 : (length (writes (trace s3)) <= 1)%nat).
  { by rewrite TB, writes_app, W1. }
  rewrite <- V3 in V1. rewrite <- N3 in N1.
  destruct r as [[[stf Fs] sos]|e]; [|eapply Stop; eauto].
  destruct BR as (_ & traces & _ & HFs).
  assert (Hrate : broadband_rate cfg ext Fs) by (by exists traces, stf, sos).
  phase (wp_conj _ _ _ _
           (wp_conj _ _ _ _ (broadband_response_spec cfg ext Fs sos _)
              (broadband_response_calls cfg ext Fs sos _))
           (broadband_response_keeps cfg ext Fs sos _)).
  intros r s4 (((_ & evsR & TR & _ & _ & _ & GR) & (evsR' & TR' & _ & _ & Before))
               & ((_ & _ & V4 & _) & N4)).
  assert (evsR' = evsR) as -> by (rewrite TR in TR'; by apply app_inv_head in TR').
  rewrite <- V4 in V1. rewrite <- N4 in N1.
  destruct GR as [[GR Hr]|(Hpos & Hg4 & GR)].
  { destruct (Before GR) as (FR & _ & _).
    destruct r as [?|e]; [discriminate|]. eapply Stop; eauto.
    - by rewrite TR, response_grids_app, G3, GR.
    - by rewrite TR, writes_app, (writes_figure_log evsR), FR, app_nil_r. }
  assert (G4 : response_grids (trace s4) = [response_grid Fs]).
  { by rewrite TR, response_grids_app, G3, GR. }
  (* from here on the grid is bound and the broadband response evaluated *)
  assert (Early : forall (r' : outcome unit) s,
            freq_resp_list s = Some (response_grid Fs) ->
            response_grids (trace s) = [response_grid Fs] ->
            (num_compute_list s = None \/ num_compute_list s = Some []) ->
            r' <> Returns tt ->
            before_response r' s \/ grid_calls r' s).
  { intros r' s Hg Ht Hn Hr. right. exists Fs, 0%nat.
    split; [done|]. split; [done|]. split; [split; [lia|done]|].
    intros counts Hc. destruct Hn as [Hn|Hn]; rewrite Hn in Hc; [discriminate|].
    injection Hc as <-. cbn. lia. }
  destruct r as [[w h]|e]; [|apply Early; [done|done|by left|discriminate]].
  unfold narrow_band_part.
  phase (wp_conj _ _ _ _ (initialize_arrays_spec cfg ext mem Fs w h _)
           (initialize_arrays_counts cfg ext mem Fs w h _)).
  intros r s5 (((_ & _ & Hg5 & _) & (evsI & TI & _ & _ & _ & GI) & Init) & N5).
  rewrite Hg4 in Hg5.
  assert (G5 : response_grids (trace s5) = [response_grid Fs]).
  { by rewrite TI, response_grids_app, G4, GI. }
  destruct r as [[]|e]; [|apply Early; [done|done|left; congruence|discriminate]].
  destruct (Init eq_refl) as (? & ? & ? & ? & ? & ? & ? & ? & ? & _ & _ & _ & _ & _ & _ & Hn5).
  phase (wp_conj _ _ _ _ (narrow_band_processing_spec cfg ext fl wl _)
           (narrow_band_processing_calls cfg ext fl wl s5)).
  intros r s6 ((N6 & (evsL & TL & _ & _ & GL & _) & _)
               & (evsL' & cs & kb & TL' & CL & _ & (_ & Kg) & (_ & _ & Lg) & RL)).
  assert (evsL' = evsL) as -> by (rewrite TL in TL'; by apply app_inv_head in TL').
  rewrite Hn5 in CL. cbn in CL.
  rewrite Hg5 in GL. apply Forall_eq_replicate in GL.
  set (k := length (response_grids evsL)) in *.
  assert (Hg6 : freq_resp_list s6 = Some (response_grid Fs)).
  { destruct N6 as (_ & _ & _ & _ & _ & _ & _ & _ & ->). done. }
  assert (G6 : response_grids (trace s6) = replicate (S k) (response_grid Fs)).
  { rewrite TL, response_grids_app, G5, GL. reflexivity. }
  assert (Late : forall (r' : outcome unit) s,
            freq_resp_list s = Some (response_grid Fs) ->
            response_grids (trace s) = replicate (S k) (response_grid Fs) ->
            num_compute_list s = Some cs ->
            (r' = Returns tt -> k = Z.to_nat (nbands cfg)) ->
            before_response r' s \/ grid_calls r' s).
  { intros r' s Hg Ht Hn Hr. right. exists Fs, k.
    split; [done|]. split; [done|]. split; [split; [lia|done]|].
    intros counts Hc. rewrite Hn in Hc. injection Hc as <-. lia. }
  destruct r as [[]|e]; [|apply Late; [done|done|done|discriminate]].
  destruct (RL eq_refl) as (_ & _ & Hk).
  phase plot_processing_parameters_spec.
  intros r s7 ((N7 & _ & C7) & evsP & TP & _ & _ & GP & _).
  assert (Hg7 : freq_resp_list s7 = Some (response_grid Fs)).
  { destruct N7 as (_ & _ & _ & _ & _ & _ & _ & _ & ->). done. }
  assert (G7 : response_grids (trace s7) = replicate (S k) (response_grid Fs)).
  { by rewrite TP, response_grids_app, G6, GP, app_nil_r. }
  destruct r as [[]|e]; [|apply Late; [done|done|congruence|discriminate]].
  eapply wp_mono; [apply plot_pmcc_like_spec|]. cbv beta.
  intros r s8 ((N8 & _ & C8) & evsQ & TQ & _ & _ & GQ & _).
  apply Late; [|by rewrite TQ, response_grids_app, G7, GQ, app_nil_r|congruence|done].
  destruct N8 as (_ & _ & _ & _ & _ & _ & _ & _ & ->). done.
Qed.

End Grid_calls.

Section Vector_len.

Lemma ceil_div_pos (a b : Z) : 0 < a -> 0 < b -> Numpy.ceil_div a b = (a - 1) / b + 1.
Proof.
  intros Ha Hb. unfold Numpy.ceil_div.
  pose proof (Z.div_mod (a - 1) b ltac:(lia)) as E.
  pose proof (Z.mod_pos_bound (a - 1) b Hb) as Hr.
  assert (H : - a / b = - ((a - 1) / b) - 1).
  { symmetry. apply (Z.div_unique_pos _ _ _ (b - 1 - (a - 1) mod b)); lia. }
  lia.
Qed.

End Vector_len.

Section Window_count.

(** The number of analysis windows of [W] seconds, each starting
    [(1 - WINOVER) * W] seconds after the one before, that fit in a record
    of [npts] samples at [Fs] samples per second: the reading of "the
    window count obtainable from the shortest configured window length over
    the full record". *)
Definition window_count (W WINOVER Fs : Q) (npts : Z) : Z :=
  let T := (inject_Z npts / Fs)%Q in
  if Qle_bool W T then Qfloor ((T - W) / ((1 - WINOVER) * W)) + 1 else 0.

End Window_count.

(** * The claims *)

(** C1: at a configuration the script accepts, the column capacity is not
    the number of analysis windows the shortest window length yields over
    the record.  With [WINLEN_X = 25], [WINOVER = 0.5] and 24000 samples at
    20 Hz, [sampinc] is [int(12.5) = 12] seconds, [np.arange(0, 24000, 12)]
    has 2000 entries and [vector_len = int(1999 / 20) = 99], while 95
    windows of 25 s, one every 12.5 s, fit in the 1200 s of the record. *)
Theorem C1_capacity_is_not_the_window_count :
  let cfg := Example.with_WINLEN_X 25 Example.shipped in
  let s := snd (run cfg (Example.world (Z.to_nat 24000) 20 (fun _ => 3%nat)) Example.zeros
                  Example.with_plt) in
  window_increment (WINOVER cfg) (WINLEN_X cfg) = Returns 12 /\
  vector_len 12 24000 20 = Returns 99 /\
  shape (vel_array s) = Some (replicate 10 99%nat) /\
  window_count (WINLEN_X cfg) (WINOVER cfg) 20 24000 = 95.
Proof.
  cbv zeta. repeat split; vm_compute; reflexivity.
Qed.

Section Claims.
Context {Obj : Type} (cfg : config) (ext : externals Obj) (mem : memory).
Implicit Types s : state Obj.

(** C2: [plt] is referenced after every save and never bound.  A run of the
    script in a fresh namespace always ends in an exception; if it gets as
    far as saving the first figure, that save is the last thing it does and
    the exception is the NameError for [plt]; it never computes the response
    grid, allocates the arrays, starts the narrow-band loop or saves another
    figure. *)
Theorem C2_plt_is_never_bound :
  let r := fst (run cfg ext mem fresh) in
  let s := snd (run cfg ext mem fresh) in
  (exists e, r = Raises e) /\
  (writes (trace s) = [] \/
   exists evs fig,
     trace s = evs ++ [Wrote fig (save_dir cfg +:+ "LeastSquares") (dpi_num cfg)] /\
     writes evs = [] /\ r = Raises (NameError "plt")) /\
  response_grids (trace s) = [] /\
  (length (beam_windows (trace s)) <= 1)%nat /\
  freq_resp_list s = None /\ vel_array s = None /\ num_compute_list s = None.
Proof.
  cbv zeta. unfold run.
  apply (wp_run (script cfg ext mem) (initial fresh)
           (fun r s =>
              (exists e, r = Raises e) /\
              (writes (trace s) = [] \/
               exists evs fig,
                 trace s = evs ++ [Wrote fig (save_dir cfg +:+ "LeastSquares") (dpi_num cfg)] /\
                 writes evs = [] /\ r = Raises (NameError "plt")) /\
              response_grids (trace s) = [] /\
              (length (beam_windows (trace s)) <= 1)%nat /\
              freq_resp_list s = None /\ vel_array s = None /\ num_compute_list s = None)).
  wp_steps.
  all: state_simpl.
  all: split; [eexists; reflexivity|].
  all: split;
    [first [left; reflexivity
           | right; eexists _, _; split; [reflexivity|split; reflexivity]]|].
  all: repeat split; try reflexivity; cbn; lia.
Qed.

(** C8: iteration [ii] of the narrow-band loop writes only row [ii] of the
    six preallocated arrays and, when it completes, appends one element to
    [num_compute_list]; it leaves every other row, the waveform collection
    [st], the geometry matrix [rij], the frequency grid and the other names
    as they were.  Rows written by different iterations are therefore
    disjoint. *)
Theorem C8_band_iteration_frame (freqlist : list R) (WINLEN_list : list Q) (ii : nat) s :
  let r := fst (band_step cfg ext freqlist WINLEN_list ii s) in
  let s' := snd (band_step cfg ext freqlist WINLEN_list ii s) in
  (forall j, j <> ii ->
     row (vel_array s') j = row (vel_array s) j /\
     row (baz_array s') j = row (baz_array s) j /\
     row (mdccm_array s') j = row (mdccm_array s) j /\
     row (t_array s') j = row (t_array s) j /\
     row (w_array s') j = row (w_array s) j /\
     row (h_array s') j = row (h_array s) j) /\
  (st s' = st s /\ rij s' = rij s /\ freq_resp_list s' = freq_resp_list s) /\
  same_names s s' /\
  match r with
  | Returns _ =>
      exists counts c,
        num_compute_list s = Some counts /\ num_compute_list s' = Some (counts ++ [c])
  | Raises _ => num_compute_list s' = num_compute_list s
  end.
Proof.
  cbv zeta.
  pose proof (wp_run _ _ _ (band_step_spec cfg ext freqlist WINLEN_list ii s)) as H.
  destruct H as (N & _ & ((_ & W) & (_ & Hh) & (_ & V) & (_ & B) & (_ & M) & (_ & T)) & C).
  split; [intros j Hj; repeat split; auto|].
  split; [destruct N as (? & _ & _ & _ & _ & _ & _ & ? & ?); auto|].
  split; [exact N|].
  destruct (fst (band_step cfg ext freqlist WINLEN_list ii s)); [|exact C].
  destruct C as (counts & c & _ & C1 & C2 & _). eauto.
Qed.


(** C6 (amended): the script has four save calls, not three.  What a run
    writes is, in order, a prefix of the four files [save_dir + name] at
    [dpi_num], for the names LeastSquares,
    Filter_Frequency_Response_Broadband, Processing_Parameters and
    LeastSquaresButPMCC; each save is the last figure event of the run or is
    directly followed by the release of the figure saved; a run that
    completes writes all four and releases each. *)
Theorem C6_four_figures (pre : namespace Obj) :
  let r := fst (run cfg ext mem pre) in
  let s := snd (run cfg ext mem pre) in
  writes (trace s) `prefix_of` planned_writes cfg /\
  released_after_saving (figure_log (trace s)) /\
  (r = Returns tt ->
   writes (trace s) = planned_writes cfg /\ length (figure_log (trace s)) = 8%nat).
Proof. exact (wp_run _ _ _ (script_figures cfg ext mem pre)). Qed.

Lemma Q2R_half_pos (Fs : Q) : (0 < Fs)%Q -> (0 < Q2R (Fs / 2))%R.
Proof.
  intros H. replace 0%R with (Q2R 0) by (unfold Q2R; cbn; lra).
  apply Qlt_Rlt. apply Qlt_shift_div_l; [reflexivity|]. by rewrite Qmult_0_l.
Qed.

(** C7: the response grid is computed once, from the broadband sampling
    rate [Fs]: 1000 points from 0.01 Hz to [Fs/2], neighbours in a constant
    ratio.  It is bound and the broadband response evaluated on it before
    the second figure is saved and before any array is allocated: a run
    without filter-response call has raised, has written at most the first
    figure and has bound neither the arrays nor the counts.  In every other
    run each filter response, the broadband one and that of every band
    called, is evaluated on this same list, which [freq_resp_list] still
    holds when the run ends; every band that recorded a count is among the
    [k] bands called, and [k = nbands] when the run completes. *)
Theorem C7_one_response_grid (pre : namespace Obj) :
  let r := fst (run cfg ext mem pre) in
  let s := snd (run cfg ext mem pre) in
  (response_grids (trace s) = [] /\ (length (writes (trace s)) <= 1)%nat /\
   vel_array s = None /\ num_compute_list s = None /\ exists e, r = Raises e) \/
  exists Fs k,
    ((0 < Fs)%Q /\ broadband_rate cfg ext Fs) /\
    (freq_resp_list s = Some (response_grid Fs) /\
     response_grids (trace s) = replicate (S k) (response_grid Fs)) /\
    ((k <= Z.to_nat (nbands cfg))%nat /\
     (r = Returns tt -> k = Z.to_nat (nbands cfg))) /\
    (forall counts, num_compute_list s = Some counts ->
                    (length counts <= k <= S (length counts))%nat) /\
    length (response_grid Fs) = 1000%nat /\
    response_grid Fs !! 0%nat = Some (1 / 100)%R /\
    response_grid Fs !! 999%nat = Some (Q2R (Fs / 2)) /\
    exists ratio : R,
      forall i, (i < 999)%nat ->
        exists x y,
          response_grid Fs !! i = Some x /\ response_grid Fs !! (i + 1)%nat = Some y /\
          (0 < x)%R /\ y = (x * ratio)%R.
Proof.
  cbv zeta.
  destruct (wp_run _ _ _ (script_grid_calls cfg ext mem pre))
    as [H|(Fs & k & Hrate & Hg & Hk & Hc)]; [by left|right].
  exists Fs, k. split; [done|]. split; [done|]. split; [done|]. split; [done|].
  destruct Hrate as [Hpos _]. unfold response_grid.
  split; [apply logspace_length|].
  split; [apply logspace_first; [lia|lra]|].
  split; [apply (logspace_last _ _ 1000); [lia|by apply Q2R_half_pos]|].
  eexists. intros i Hi. apply logspace_ratio. lia.
Qed.

End Claims.

(** With the libraries of [Example.world] and [plt] bound, a run completes
    and writes four files; run as a script, it writes one. *)
Lemma C6_four_files_not_three :
  let ext := Example.world 100 1 (fun _ => 3%nat) in
  let files pre := map fst (writes (trace (snd (run Example.shipped ext Example.zeros pre)))) in
  let dir := save_dir Example.shipped in
  files Example.with_plt =
    [dir +:+ "LeastSquares"; dir +:+ "Filter_Frequency_Response_Broadband";
     dir +:+ "Processing_Parameters"; dir +:+ "LeastSquaresButPMCC"] /\
  files fresh = [dir +:+ "LeastSquares"].
Proof.
  cbv zeta. split.
  - vm_compute. reflexivity.
  - vm_compute. reflexivity.
Qed.

Section Claims_determinism.
Context {Obj : Type} (cfg : config) (ext : externals Obj).
Implicit Types s : state Obj.

(** C9 (amended): two executions with the same configuration, the same
    library behaviour and the same names bound beforehand, but with
    allocators that hand out different memory, end with identical
    [num_compute_list] and with arrays of identical shape in which every
    cell is either the same in both runs or still holds, in each run, what
    its allocator left there.  In particular row [i] of [vel_array] is the
    same in both runs on its first [num_compute_list[i]] columns.  The
    arrays as wholes need not be identical. *)
Theorem C9_runs_agree_on_written_cells (mem1 mem2 : memory) (pre : namespace Obj) :
  let s1 := snd (run cfg ext mem1 pre) in
  let s2 := snd (run cfg ext mem2 pre) in
  num_compute_list s2 = num_compute_list s1 /\
  (alike_opt (float_garbage mem1 0) (float_garbage mem2 0) (vel_array s1) (vel_array s2) /\
   alike_opt (float_garbage mem1 1) (float_garbage mem2 1) (baz_array s1) (baz_array s2) /\
   alike_opt (float_garbage mem1 2) (float_garbage mem2 2) (mdccm_array s1) (mdccm_array s2) /\
   alike_opt (float_garbage mem1 3) (float_garbage mem2 3) (t_array s1) (t_array s2)) /\
  forall counts i c j,
    num_compute_list s1 = Some counts -> counts !! i = Some c -> (j < c)%nat ->
    cell (vel_array s1) i j = cell (vel_array s2) i j.
Proof.
  cbv zeta. unfold run.
  destruct (wp2_run _ _ _ _ _ (script_twin cfg ext mem1 mem2 pre))
    as (N & (V & B & M & T & _) & G).
  exact (conj N (conj (conj V (conj B (conj M T))) G)).
Qed.

End Claims_determinism.

(** With the libraries of [Example.world], a record of 100 samples at 1 Hz
    and [plt] bound, both runs complete; the beamformer returns 3 windows
    per band and the arrays have 6 columns: column 5 of row 0 of [vel_array]
    is what the allocator left. *)
Lemma C9_unwritten_cells_differ :
  let ext := Example.world 100 1 (fun _ => 3%nat) in
  let s1 := snd (run Example.shipped ext Example.zeros Example.with_plt) in
  let s2 := snd (run Example.shipped ext Example.ones Example.with_plt) in
  (fst (run Example.shipped ext Example.zeros Example.with_plt) = Returns tt /\
   fst (run Example.shipped ext Example.ones Example.with_plt) = Returns tt) /\
  (cell (vel_array s1) 0 5 = Some 0%Q /\ cell (vel_array s2) 0 5 = Some 1%Q) /\
  vel_array s1 <> vel_array s2.
Proof.
  cbv zeta.
  split; [split; vm_compute; reflexivity|].
  split; [split; vm_compute; reflexivity|].
  intros E. apply (f_equal (fun a => cell a 0 5)) in E. vm_compute in E. discriminate.
Qed.

Section Claims_source.
Context {Obj : Type} (cfg : config) (ext : externals Obj) (mem : memory).
Implicit Types s : state Obj.

(** C10 (amended): if [SOURCE] is neither 'IRIS' nor 'local', neither
    acquisition branch runs: nothing is fetched or read and [st] is never
    bound.  The run then stops before the broadband filtering step, with no
    event at all: when the band planner's two calls return, it stops at
    [getrij(latlist, lonlist)] with [NameError] for [latlist], a name only
    the 'IRIS' branch binds; otherwise with the planner's own exception.  In neither case
    is [st] looked up. *)
Theorem C10_unrecognised_source :
  SOURCE cfg <> "IRIS" -> SOURCE cfg <> "local" ->
  let r := fst (run cfg ext mem fresh) in
  let s := snd (run cfg ext mem fresh) in
  (trace s = [] /\ st s = None /\ latlist s = None /\ lonlist s = None) /\
  match get_freqlist ext (FMIN cfg) (FMAX cfg) (freq_band_type cfg) (nbands cfg),
        get_winlenlist ext (window_length cfg) (nbands cfg) (WINLEN cfg) (WINLEN_1 cfg)
          (WINLEN_X cfg) with
  | Returns _, Returns _ => r = Raises (NameError "latlist")
  | Returns _, Raises e => r = Raises e
  | Raises e, _ => r = Raises e
  end.
Proof.
  intros H1 H2. cbv zeta. unfold run.
  apply String.eqb_neq in H1, H2.
  refine (wp_run (script cfg ext mem) (initial fresh) (fun r s =>
    (trace s = [] /\ st s = None /\ latlist s = None /\ lonlist s = None) /\
      match get_freqlist ext (FMIN cfg) (FMAX cfg) (freq_band_type cfg) (nbands cfg),
          get_winlenlist ext (window_length cfg) (nbands cfg) (WINLEN cfg) (WINLEN_1 cfg)
            (WINLEN_X cfg) with
    | Returns _, Returns _ => r = Raises (NameError "latlist")
    | Returns _, Raises e => r = Raises e
    | Raises e, _ => r = Raises e
    end) _).
  unfold script, gather_data. rewrite H1, H2.
  apply wp_bind, wp_ret. cbv beta iota.
  unfold setup.
  apply wp_bind, wp_bind, wp_lift.
  destruct (get_freqlist ext _ _ _ _) as [fl|e] eqn:E1.
  - apply wp_bind, wp_lift.
    destruct (get_winlenlist ext _ _ _ _ _) as [wl|e] eqn:E2.
    + apply wp_bind, wp_name. state_simpl. cbv beta iota.
      repeat split; reflexivity.
    + repeat split; reflexivity.
  - repeat split; reflexivity.
Qed.

End Claims_source.

(** An unrecognised source with the libraries of [Example.world]. *)
Lemma C10_unrecognised_source_example :
  let cfg := Example.with_SOURCE "archive" Example.shipped in
  let ext := Example.world 100 1 (fun _ => 3%nat) in
  fst (run cfg ext Example.zeros fresh) = Raises (NameError "latlist").
Proof.
  intros cfg ext.
  pose proof (C10_unrecognised_source cfg ext Example.zeros) as H.
  cbv zeta in H.
  assert (H1 : SOURCE cfg <> "IRIS") by (cbn; discriminate).
  assert (H2 : SOURCE cfg <> "local") by (cbn; discriminate).
  exact (proj2 (H H1 H2)).
Defined.

(** The first undefined name such a run meets is [latlist], on line 149,
    not [st] on line 157. *)
Lemma C10_first_undefined_name_is_latlist :
  fst (run (Example.with_SOURCE "archive" Example.shipped)
         (Example.world 100 1 (fun _ => 3%nat)) Example.zeros fresh)
  = Raises (NameError "latlist") /\
  Raises (A := unit) (NameError "latlist") <> Raises (NameError "st").
Proof.
  split; [|discriminate].
  unfold run, script, gather_data, setup, bind, lift, name. cbn [SOURCE Example.with_SOURCE].
  reflexivity.
Qed.

(** * Further properties of the script *)

Section Local_source.
Context {Obj : Type} (cfg : config) (ext : externals Obj) (mem : memory).
Implicit Types s : state Obj.

(** X1: with [SOURCE = 'local'], run as a script, the run binds [st] to an
    empty [Stream()] and stops at [read(data_dir + '*.mseed')] with
    [NameError] for [data_dir]: the assignments of [data_dir], [calib] and
    the coordinate lists sit inside a string literal.  No file is read and
    no library is called. *)
Theorem local_source_needs_data_dir :
  SOURCE cfg = "local" ->
  let r := fst (run cfg ext mem fresh) in
  let s := snd (run cfg ext mem fresh) in
  r = Raises (NameError "data_dir") /\ st s = Some [] /\ trace s = [] /\
  calib s = None /\ latlist s = None /\ lonlist s = None.
Proof.
  intros H. cbv zeta. unfold run.
  refine (wp_run (script cfg ext mem) (initial fresh) (fun r s =>
    r = Raises (NameError "data_dir") /\ st s = Some [] /\ trace s = [] /\
    calib s = None /\ latlist s = None /\ lonlist s = None) _).
  unfold script, gather_data. rewrite H. cbn [String.eqb Ascii.eqb Bool.eqb].
  wp_steps. state_simpl. repeat split; reflexivity.
Qed.

End Local_source.

Lemma local_source_needs_data_dir_example :
  fst (run (Example.with_SOURCE "local" Example.shipped)
         (Example.world 100 1 (fun _ => 3%nat)) Example.zeros fresh)
  = Raises (NameError "data_dir").
Proof.
  exact (proj1 (local_source_needs_data_dir (Example.with_SOURCE "local" Example.shipped)
                  (Example.world 100 1 (fun _ => 3%nat)) Example.zeros eq_refl)).
Defined.

Section Calibration.
Context {Obj : Type} (cfg : config) (ext : externals Obj).
Implicit Types s : state Obj.

(** [tr.data = tr.data * calib] on one trace. *)
Definition calibrated (c : Q) (tr : Trace) : Trace :=
  mkTrace (map (Qmult c) (data tr)) (latitude tr) (longitude tr).

Lemma calibrate_all (c : Q) (traces : Stream) s :
  st s = Some traces -> calib s = Some c ->
  wp (for_each (seq 0 (length traces)) calibrate) s
     (fun r s' => r = Returns tt /\ st s' = Some (map (calibrated c) traces) /\
                  latlist s' = latlist s /\ lonlist s' = lonlist s /\ trace s' = trace s).
Proof.
  intros Hst Hc.
  apply (wp_for_each
           (fun done s1 =>
              st s1 = Some (map (calibrated c) (take (length done) traces)
                            ++ drop (length done) traces) /\
              calib s1 = Some c /\ latlist s1 = latlist s /\ lonlist s1 = lonlist s /\
              trace s1 = trace s)).
  - cbn. rewrite drop_0. done.
  - intros done x rest s1 E (H1 & H2 & H3 & H4 & H5).
    apply seq_split_index in E as [-> Hlt].
    set (k := length done) in *.
    destruct (lookup_lt_is_Some_2 traces k Hlt) as [tr Htr].
    assert (Hk : (map (calibrated c) (take k traces) ++ drop k traces) !! k = Some tr).
    { rewrite lookup_app_r by (rewrite length_map, length_take; lia).
      rewrite length_map, length_take.
      replace (k - k `min` length traces)%nat with 0%nat by lia.
      by rewrite lookup_drop, Nat.add_0_r. }
    unfold calibrate. apply wp_bind, wp_name. rewrite H1.
    apply wp_bind, wp_index. rewrite Hk.
    apply wp_bind, wp_name. rewrite H2.
    apply wp_assign. state_simpl.
    rewrite length_app. cbn [length]. replace (length done + 1)%nat with (S k) by (subst k; lia).
    repeat split; try done. f_equal.
    rewrite (take_S_r _ _ _ Htr), map_app, <- app_assoc. cbn [map app].
    unfold Stream. rewrite insert_app_r_alt by (rewrite length_map, length_take; lia).
    rewrite length_map, length_take.
    replace (k - k `min` length traces)%nat with 0%nat by lia.
    rewrite (drop_S _ _ _ Htr). reflexivity.
  - intros s1 (H1 & _ & H3 & H4 & H5). rewrite length_seq in H1.
    rewrite firstn_all, drop_all, app_nil_r in H1. done.
Qed.

(** X2: the 'local' branch, with [data_dir] and [calib] bound: the files
    under [data_dir] are read in one call, the collection is trimmed to
    [START, END], and every sample of every trace is multiplied by [calib]
    exactly once; the number and order of the traces and their coordinates
    are kept, and the coordinate lists are not bound. *)
Theorem local_acquisition_calibrates_once s (dir : string) (c : Q) (more trimmed : Stream) :
  SOURCE cfg = "local" ->
  data_dir s = Some dir -> calib s = Some c ->
  read ext (dir +:+ "*.mseed") = Returns more ->
  trim ext more (START cfg) (END cfg) = Returns trimmed ->
  let r := fst (gather_data cfg ext s) in
  let s' := snd (gather_data cfg ext s) in
  r = Returns tt /\
  st s' = Some (map (fun tr => mkTrace (map (Qmult c) (data tr)) (latitude tr) (longitude tr))
                    trimmed) /\
  trace s' = trace s ++ [Called_read (dir +:+ "*.mseed")] /\
  latlist s' = latlist s /\ lonlist s' = lonlist s.
Proof.
  intros Hsrc Hd Hc Hread Htrim. cbv zeta.
  apply (wp_run (gather_data cfg ext) s (fun r s' =>
    r = Returns tt /\ st s' = Some (map (calibrated c) trimmed) /\
    trace s' = trace s ++ [Called_read (dir +:+ "*.mseed")] /\
    latlist s' = latlist s /\ lonlist s' = lonlist s)).
  unfold gather_data. rewrite Hsrc. cbn [String.eqb Ascii.eqb Bool.eqb].
  apply wp_bind, wp_assign. state_simpl.
  apply wp_bind, wp_name. state_simpl.
  apply wp_bind, wp_name. state_simpl. rewrite Hd.
  apply wp_bind, wp_call. state_simpl. rewrite Hread.
  apply wp_bind, wp_assign. state_simpl.
  apply wp_bind, wp_name. state_simpl.
  apply wp_bind, wp_lift. cbn [app]. rewrite Htrim.
  apply wp_bind, wp_assign. state_simpl.
  apply wp_bind, wp_name. state_simpl.
  eapply wp_mono; [apply (calibrate_all c trimmed); state_simpl; done|].
  cbv beta. intros r s' (-> & H1 & H2 & H3 & H4). state_simpl_in H2.
  state_simpl_in H3. state_simpl_in H4. done.
Qed.

End Calibration.

Section Iris_source.
Context {Obj : Type} (cfg : config) (ext : externals Obj).
Implicit Types s : state Obj.

(** X3: with [SOURCE = 'IRIS'], lines 114-149 make one acquisition call;
    when they complete, [st] is the collection that call returned,
    [latlist] and [lonlist] hold the coordinates of its traces in trace
    order, one per trace, and [rij] is what [getrij] returned for exactly
    these two lists.  If the acquisition call raises, nothing is bound. *)
Theorem iris_geometry_follows_trace_order s :
  SOURCE cfg = "IRIS" ->
  let m := bind (gather_data cfg ext) (fun _ => setup cfg ext) in
  let r := fst (m s) in
  let s' := snd (m s) in
  trace s' = trace s ++ [Called_gather_waveforms] /\
  match gather_waveforms ext (SOURCE cfg) (NETWORK cfg) (STATION cfg) (LOCATION cfg)
          (CHANNEL cfg) (START cfg) (END cfg) true with
  | Raises e =>
      r = Raises e /\ st s' = st s /\ latlist s' = latlist s /\ lonlist s' = lonlist s /\
      rij s' = rij s
  | Returns traces =>
      st s' = Some traces /\
      latlist s' = Some (map latitude traces) /\
      lonlist s' = Some (map longitude traces) /\
      match r with
      | Returns _ =>
          exists g, getrij ext (map latitude traces) (map longitude traces) = Returns g /\
                    rij s' = Some g
      | Raises _ => rij s' = rij s
      end
  end.
Proof.
  intros Hsrc. cbv zeta.
  apply (wp_run (bind (gather_data cfg ext) (fun _ => setup cfg ext)) s (fun r s' =>
    trace s' = trace s ++ [Called_gather_waveforms] /\
    match gather_waveforms ext (SOURCE cfg) (NETWORK cfg) (STATION cfg) (LOCATION cfg)
            (CHANNEL cfg) (START cfg) (END cfg) true with
    | Raises e =>
        r = Raises e /\ st s' = st s /\ latlist s' = latlist s /\ lonlist s' = lonlist s /\
        rij s' = rij s
    | Returns traces =>
        st s' = Some traces /\
        latlist s' = Some (map latitude traces) /\
        lonlist s' = Some (map longitude traces) /\
        match r with
        | Returns _ =>
            exists g, getrij ext (map latitude traces) (map longitude traces) = Returns g /\
                      rij s' = Some g
        | Raises _ => rij s' = rij s
        end
    end)).
  apply wp_bind. unfold gather_data. rewrite Hsrc at 1. cbn [String.eqb Ascii.eqb Bool.eqb].
  apply wp_bind, wp_call. state_simpl.
  destruct (gather_waveforms ext _ _ _ _ _ _ _ _) as [traces|e].
  2: { cbv beta iota. state_simpl. repeat split; reflexivity. }
  cbv beta iota.
  unfold setup. wp_steps.
  all: cbv beta iota; state_simpl; split; [reflexivity|]; repeat split; try reflexivity.
  repeat match goal with H : Some _ = Some _ |- _ => injection H as <- end.
  eexists. split; reflexivity.
Qed.

End Iris_source.

Lemma iris_geometry_follows_trace_order_example :
  latlist (snd (bind (gather_data Example.shipped (Example.world 100 1 (fun _ => 3%nat)))
                  (fun _ => setup Example.shipped (Example.world 100 1 (fun _ => 3%nat)))
                  (initial fresh)))
  = Some [0%Q; 1%Q; 2%Q; 3%Q].
Proof.
  pose proof (iris_geometry_follows_trace_order Example.shipped
                (Example.world 100 1 (fun _ => 3%nat)) (initial fresh) eq_refl) as H.
  cbv zeta in H. destruct H as (_ & H).
  cbn [gather_waveforms Example.world] in H. destruct H as (_ & H & _).
  rewrite H. vm_compute. reflexivity.
Defined.

Section Filter_inputs.
Context {Obj : Type} (cfg : config) (ext : externals Obj) (mem : memory).
Implicit Types s : state Obj.

(** A section of the script that leaves [st] alone and hands [st] itself
    to every [filter_data] call it makes. *)
Definition streams_post s {A} (r : outcome A) s' : Prop :=
  st s' = st s /\
  exists evs, trace s' = trace s ++ evs /\
              Forall (fun x => st s = Some x) (filtered_streams evs).

Ltac solve_streams :=
  unfold streams_post; state_simpl; split; [congruence|];
  eexists; split; [solve_trace_eq|]; events_simpl;
  repeat first [apply Forall_nil_2 | apply Forall_cons_2; [congruence|]].

Lemma setup_streams s : wp (setup cfg ext) s (streams_post s).
Proof. unfold setup. wp_steps. all: solve_streams. Qed.

Lemma broadband_processing_streams s :
  wp (broadband_processing cfg ext) s (streams_post s).
Proof. unfold broadband_processing. wp_steps. all: solve_streams. Qed.

Lemma broadband_response_streams Fs sos s :
  wp (broadband_response cfg ext Fs sos) s (streams_post s).
Proof. unfold broadband_response. wp_steps. all: solve_streams. Qed.

Lemma initialize_arrays_streams Fs w h s :
  wp (initialize_arrays cfg ext mem Fs w h) s (streams_post s).
Proof. unfold initialize_arrays. wp_steps. all: solve_streams. Qed.

Lemma narrow_band_processing_streams fl wl s :
  wp (narrow_band_processing cfg ext fl wl) s (streams_post s).
Proof.
  eapply wp_mono; [apply narrow_band_processing_spec|]. cbv beta.
  intros r s' ((E & _) & (evs & T & _ & _ & _ & F & _) & _).
  split; [exact E|]. by exists evs.
Qed.

Lemma plot_processing_parameters_streams fl wl s :
  wp (plot_processing_parameters cfg ext fl wl) s (streams_post s).
Proof. unfold plot_processing_parameters. wp_steps. all: solve_streams. Qed.

Lemma plot_pmcc_like_streams fl stf s :
  wp (plot_pmcc_like cfg ext fl stf) s (streams_post s).
Proof. unfold plot_pmcc_like. wp_steps. all: solve_streams. Qed.

(** Every [filter_data] call so far received what [st] holds now. *)
Definition filters_saw_st s : Prop :=
  Forall (fun x => st s = Some x) (filtered_streams (trace s)).

Lemma filters_saw_st_step {A} s (r : outcome A) s' :
  filters_saw_st s -> streams_post s r s' -> filters_saw_st s'.
Proof.
  unfold filters_saw_st. intros H (E & evs & T & F).
  rewrite T, E. unfold filtered_streams in *. rewrite omap_app.
  apply Forall_app. done.
Qed.

Lemma script_filters pre :
  wp (script cfg ext mem) (initial pre) (fun _ s => filters_saw_st s).
Proof.
  unfold script.
  phase gather_data_spec.
  intros r s1 (_ & _ & evs0 & T0 & _ & _ & _ & F0).
  assert (J1 : filters_saw_st s1).
  { unfold filters_saw_st. rewrite T0. state_simpl. cbn [app]. rewrite F0. constructor. }
  destruct r as [[]|e]; [|exact J1].
  phase setup_streams.
  intros r s2 P2. pose proof (filters_saw_st_step _ _ _ J1 P2) as J2.
  destruct r as [[fl wl]|e]; [|exact J2].
  phase broadband_processing_streams.
  intros r s3 P3. pose proof (filters_saw_st_step _ _ _ J2 P3) as J3.
  destruct r as [[[stf Fs] sos]|e]; [|exact J3].
  phase broadband_response_streams.
  intros r s4 P4. pose proof (filters_saw_st_step _ _ _ J3 P4) as J4.
  destruct r as [[w h]|e]; [|exact J4].
  unfold narrow_band_part.
  phase initialize_arrays_streams.
  intros r s5 P5. pose proof (filters_saw_st_step _ _ _ J4 P5) as J5.
  destruct r as [[]|e]; [|exact J5].
  phase narrow_band_processing_streams.
  intros r s6 P6. pose proof (filters_saw_st_step _ _ _ J5 P6) as J6.
  destruct r as [[]|e]; [|exact J6].
  phase plot_processing_parameters_streams.
  intros r s7 P7. pose proof (filters_saw_st_step _ _ _ J6 P7) as J7.
  destruct r as [[]|e]; [|exact J7].
  eapply wp_mono; [apply plot_pmcc_like_streams|]. cbv beta.
  intros r s8 P8. exact (filters_saw_st_step _ _ _ J7 P8).
Qed.

(** X4: the waveform collection is filtered, never replaced: every
    [filter_data] call of a run, the broadband one and that of each band,
    receives the same collection, the one [st] holds when the run ends. *)
Theorem every_filter_call_receives_st (pre : namespace Obj) :
  let s := snd (run cfg ext mem pre) in
  Forall (fun x => st s = Some x) (filtered_streams (trace s)).
Proof. exact (wp_run _ _ _ (script_filters pre)). Qed.

End Filter_inputs.

Section Stored_rows.
Context {A : Type}.

(** Row [ii] of [a'] is row [ii] of [a] with [v] written from column 0 on;
    a one-element [v] that finds no column writes nothing. *)
Definition left_aligned (v : list A) (a a' : option (list (list A))) (ii : nat) : Prop :=
  exists row0 row1,
    row a ii = Some row0 /\ row a' ii = Some row1 /\
    ((length v <= length row0)%nat -> row1 = v ++ drop (length v) row0) /\
    ((length row0 < length v)%nat -> length v = 1%nat /\ row0 = [] /\ row1 = []).

(** Row [ii] of [a'] is [v], or [v]'s only element repeated over the row. *)
Definition whole_row (v : list A) (a a' : option (list (list A))) (ii : nat) : Prop :=
  exists row0 row1,
    row a ii = Some row0 /\ row a' ii = Some row1 /\ length row1 = length row0 /\
    (length v = length row0 -> row1 = v) /\
    (length v <> length row0 -> exists x, v = [x] /\ row1 = replicate (length row0) x).

Lemma update_row_lookup (a a' : list (list A)) ii f :
  Numpy.update_row a ii f = Returns a' ->
  exists row0 row1, a !! ii = Some row0 /\ f row0 = Returns row1 /\ a' !! ii = Some row1.
Proof.
  unfold Numpy.update_row. destruct (a !! ii) as [row0|] eqn:E; [|discriminate].
  destruct (f row0) as [row1|] eqn:Ef; [|discriminate]. intros [= <-].
  exists row0, row1. split; [done|]. split; [done|].
  apply list_lookup_insert_eq. by eapply lookup_lt_Some.
Qed.

Lemma update_prefix_left_aligned (a a' : list (list A)) ii v :
  Numpy.update_row a ii (fun cells => Numpy.assign_prefix cells v) = Returns a' ->
  left_aligned v (Some a) (Some a') ii.
Proof.
  intros H. apply update_row_lookup in H as (row0 & row1 & E0 & Ef & E1).
  exists row0, row1. split; [exact E0|]. split; [exact E1|].
  unfold Numpy.assign_prefix in Ef. case_decide as Hk.
  - injection Ef as <-. split; [done|]. lia.
  - destruct v as [|x [|]]; try discriminate. injection Ef as <-.
    cbn [length] in *. split; [lia|]. intros Hlt.
    assert (length row0 = 0%nat) as L by lia.
    destruct row0; [|discriminate]. done.
Qed.

Lemma update_whole_row (a a' : list (list A)) ii v :
  Numpy.update_row a ii (fun cells => Numpy.assign_row cells v) = Returns a' ->
  whole_row v (Some a) (Some a') ii.
Proof.
  intros H. apply update_row_lookup in H as (row0 & row1 & E0 & Ef & E1).
  exists row0, row1. split; [exact E0|]. split; [exact E1|].
  split; [by eapply assign_row_length|].
  unfold Numpy.assign_row in Ef. case_decide as Hk.
  - injection Ef as <-. done.
  - destruct v as [|x [|]]; try discriminate. injection Ef as <-.
    split; [done|]. intros _. by exists x.
Qed.

End Stored_rows.

Section Band_results.
Context {Obj : Type} (cfg : config) (ext : externals Obj).
Implicit Types s : state Obj.

(** X5: an iteration of the narrow-band loop that completes has filtered
    [st] to the band between [freqlist[ii]] and [freqlist[ii+1]], evaluated
    that filter's response on [freq_resp_list], run the beamformer on the
    filtered collection with [WINLEN_list[ii]], and stored the results in
    row [ii]: the response over the whole row of [w_array] and [h_array],
    each of the four beamformer outputs left-aligned from column 0 in its
    array, the columns behind it as they were; the count appended to
    [num_compute_list] is the length of the velocity output. *)
Theorem band_step_stores_results (freqlist : list R) (WINLEN_list : list Q) (ii : nat) s :
  let r := fst (band_step cfg ext freqlist WINLEN_list ii s) in
  let s' := snd (band_step cfg ext freqlist WINLEN_list ii s) in
  match r with
  | Raises _ => True
  | Returns _ =>
      exists fmin fmax traces stf Fs sos grid w h,
        (freqlist !! ii = Some fmin /\ freqlist !! (ii + 1)%nat = Some fmax /\
         st s = Some traces /\ freq_resp_list s = Some grid /\
         filter_data ext traces (filter_type cfg) fmin fmax (filter_order cfg)
           (filter_ripple cfg) = Returns (stf, Fs, sos) /\
         sosfreqz ext sos grid Fs = Returns (w, h)) /\
        (whole_row (map complex_of_float w) (w_array s) (w_array s') ii /\
         whole_row h (h_array s) (h_array s') ii) /\
        exists g winlen vel baz t mdccm stdict sig_tau vf bf mf tf,
          (rij s = Some g /\ WINLEN_list !! ii = Some winlen /\
           ltsva ext stf g winlen (WINOVER cfg) (ALPHA cfg)
             = Returns (vel, baz, t, mdccm, stdict, sig_tau)) /\
          (make_float ext vel = Returns vf /\ make_float ext baz = Returns bf /\
           make_float ext mdccm = Returns mf /\ make_float ext t = Returns tf) /\
          (left_aligned vf (vel_array s) (vel_array s') ii /\
           left_aligned bf (baz_array s) (baz_array s') ii /\
           left_aligned mf (mdccm_array s) (mdccm_array s') ii /\
           left_aligned tf (t_array s) (t_array s') ii) /\
          num_compute_list s' = (fun l => l ++ [length vf]) <$> num_compute_list s
  end.
Proof.
  cbv zeta.
  apply (wp_run (band_step cfg ext freqlist WINLEN_list ii) s (fun r s' =>
    match r with
    | Raises _ => True
    | Returns _ =>
        exists fmin fmax traces stf Fs sos grid w h,
          (freqlist !! ii = Some fmin /\ freqlist !! (ii + 1)%nat = Some fmax /\
           st s = Some traces /\ freq_resp_list s = Some grid /\
           filter_data ext traces (filter_type cfg) fmin fmax (filter_order cfg)
             (filter_ripple cfg) = Returns (stf, Fs, sos) /\
           sosfreqz ext sos grid Fs = Returns (w, h)) /\
          (whole_row (map complex_of_float w) (w_array s) (w_array s') ii /\
           whole_row h (h_array s) (h_array s') ii) /\
          exists g winlen vel baz t mdccm stdict sig_tau vf bf mf tf,
            (rij s = Some g /\ WINLEN_list !! ii = Some winlen /\
             ltsva ext stf g winlen (WINOVER cfg) (ALPHA cfg)
               = Returns (vel, baz, t, mdccm, stdict, sig_tau)) /\
            (make_float ext vel = Returns vf /\ make_float ext baz = Returns bf /\
             make_float ext mdccm = Returns mf /\ make_float ext t = Returns tf) /\
            (left_aligned vf (vel_array s) (vel_array s') ii /\
             left_aligned bf (baz_array s) (baz_array s') ii /\
             left_aligned mf (mdccm_array s) (mdccm_array s') ii /\
             left_aligned tf (t_array s) (t_array s') ii) /\
            num_compute_list s' = (fun l => l ++ [length vf]) <$> num_compute_list s
    end)).
  unfold band_step. wp_steps.
  all: try exact I.
  state_simpl.
  repeat match goal with
         | H : Numpy.update_row _ _ (fun _ => Numpy.assign_prefix _ _) = Returns _ |- _ =>
             apply update_prefix_left_aligned in H
         | H : Numpy.update_row _ _ (fun _ => Numpy.assign_row _ _) = Returns _ |- _ =>
             apply update_whole_row in H
         end.
  state_rewrite.
  eexists _, _, _, _, _, _, _, _, _.
  split; [repeat split; try reflexivity; eassumption|].
  split; [split; assumption|].
  eexists _, _, _, _, _, _, _, _, _, _, _, _.
  split; [repeat split; try reflexivity; eassumption|].
  split; [repeat split; eassumption|].
  split; [refine (conj _ (conj _ (conj _ _))); assumption|].
  reflexivity.
Qed.

End Band_results.

Section Array_capacity.
Context {Obj : Type} (cfg : config) (ext : externals Obj) (mem : memory).
Implicit Types s : state Obj.


End Array_capacity.


Section Window_mode.
Context {Obj : Type} (cfg : config) (ext : externals Obj) (mem : memory).
Implicit Types s : state Obj.

(** X6: lines 186-189 have no [else]: when [window_length] is neither
    'constant' nor 'adaptive' and [sampinc] is not bound already, the
    array-initialisation section changes nothing and raises: [NameError]
    for [st] if no collection is bound, [IndexError] at [st[0]] if the
    collection is empty, and otherwise [NameError] for [sampinc] at
    [np.arange(0, npts, sampinc)], before any array is allocated. *)
Theorem unknown_window_mode_allocates_nothing (Fs : Q) (w_broad : list R)
    (h_broad : list complex) s :
  window_length cfg <> "constant" -> window_length cfg <> "adaptive" ->
  sampinc s = None ->
  initialize_arrays cfg ext mem Fs w_broad h_broad s =
  (match st s with
   | None => Raises (NameError "st")
   | Some [] => Raises IndexError
   | Some (_ :: _) => Raises (NameError "sampinc")
   end, s).
Proof.
  intros H1 H2 Hs. apply String.eqb_neq in H1, H2.
  unfold initialize_arrays. rewrite H1, H2.
  unfold bind at 1. unfold ret at 1.
  unfold bind at 1. unfold name at 1.
  destruct (st s) as [[|tr0 traces]|]; [| |reflexivity].
  - unfold bind at 1. reflexivity.
  - unfold bind at 1. unfold index at 1. cbn [lookup list_lookup ret].
    unfold bind at 1. unfold name at 1. rewrite Hs. reflexivity.
Qed.

End Window_mode.

(** ** The float quotient of whole numbers

    [int(k / F)] computed in binary64 is the integer quotient [k // F] when
    [k] and [F] are whole numbers below [2^53]: both are floats, and the
    correctly rounded quotient cannot reach the next whole number. *)

Section Float_facts.
Import Float.

Lemma nearest_even_bounds (n d : Z) :
  0 < d ->
  n / d <= nearest_even n d <= n / d + 1 /\
  (nearest_even n d = n / d + 1 -> d <= 2 * (n mod d)).
Proof.
  intros Hd. unfold nearest_even.
  destruct (2 * (n mod d) ?= d) eqn:E.
  - apply Z.compare_eq in E. destruct (Z.even (n / d)); split; lia.
  - split; lia.
  - apply Z.compare_gt_iff in E. split; lia.
Qed.

Lemma nearest_even_whole (n : Z) : nearest_even n 1 = n.
Proof.
  unfold nearest_even. rewrite Z.mod_1_r, Z.div_1_r. reflexivity.
Qed.

Lemma scaled_pos (n d u : Z) :
  0 < n -> 0 < d -> 0 < fst (scaled n d u) /\ 0 < snd (scaled n d u).
Proof.
  intros Hn Hd. unfold scaled. destruct (0 <=? u) eqn:E; cbn.
  - apply Z.leb_le in E. split; [lia|]. apply Z.mul_pos_pos; [lia|]. apply Z.pow_pos_nonneg; lia.
  - apply Z.leb_gt in E. split; [|lia]. apply Z.mul_pos_pos; [lia|]. apply Z.pow_pos_nonneg; lia.
Qed.

(** [2^(e-1) <= n / d] for [e = mag n d]. *)
Lemma mag_lower (n d : Z) :
  0 < n -> 0 < d ->
  let e := mag n d in
  (1 <= e -> d * 2 ^ (e - 1) <= n) /\ (e < 1 -> d <= n * 2 ^ (1 - e)).
Proof.
  intros Hn Hd.
  pose proof (Z.log2_spec n Hn) as [Ln1 Ln2].
  pose proof (Z.log2_spec d Hd) as [Ld1 Ld2].
  pose proof (Z.log2_nonneg n) as Hln. pose proof (Z.log2_nonneg d) as Hld.
  set (a := Z.log2 n) in *. set (b := Z.log2 d) in *.
  assert (Hsucc : forall z, 0 <= z -> 2 ^ Z.succ z = 2 * 2 ^ z) by (intros; apply Z.pow_succ_r; lia).
  rewrite Hsucc in Ln2, Ld2 by lia.
  (* the weak bound [2^(a-b-1) < n/d] *)
  assert (Weak : (0 <= a - b - 1 -> d * 2 ^ (a - b - 1) <= n) /\
                 (a - b - 1 < 0 -> d <= n * 2 ^ (b + 1 - a))).
  { split; intros H.
    - assert (E : 2 ^ a = 2 ^ (a - b - 1) * (2 * 2 ^ b)).
      { rewrite <- Hsucc, <- Z.pow_add_r by lia. f_equal. lia. }
      assert (0 < 2 ^ (a - b - 1)) by (apply Z.pow_pos_nonneg; lia).
      nia.
    - assert (E : 2 * 2 ^ b = 2 ^ (b + 1 - a) * 2 ^ a).
      { rewrite <- Hsucc, <- Z.pow_add_r by lia. f_equal. lia. }
      assert (0 < 2 ^ (b + 1 - a)) by (apply Z.pow_pos_nonneg; lia).
      nia. }
  destruct Weak as [W1 W2].
  unfold mag. fold a b. unfold scaled.
  destruct (0 <=? a - b) eqn:E0.
  - apply Z.leb_le in E0.
    destruct (d * 2 ^ (a - b) <=? n) eqn:E1; cbv zeta.
    + apply Z.leb_le in E1. split; intros H; [|lia].
      replace (a - b + 1 - 1) with (a - b) by lia. exact E1.
    + split; intros H.
      * apply W1. lia.
      * replace (1 - (a - b)) with (b + 1 - a) by lia. apply W2. lia.
  - apply Z.leb_gt in E0.
    destruct (d <=? n * 2 ^ (- (a - b))) eqn:E1; cbv zeta.
    + apply Z.leb_le in E1. split; intros H.
      * assert (a - b + 1 = 1) as -> by lia. cbn. 
        assert (- (a - b) = 1) as Eq by lia. rewrite Eq in E1. lia.
      * replace (1 - (a - b + 1)) with (- (a - b)) by lia. exact E1.
    + split; intros H; [lia|].
      replace (1 - (a - b)) with (b + 1 - a) by lia. apply W2. lia.
Qed.

(** [mag n d <= 53] when [n / d < 2^53]. *)
Lemma mag_le_prec (n d : Z) :
  0 < n -> 0 < d -> n < d * 2 ^ 53 -> mag n d <= 53.
Proof.
  intros Hn Hd Hlt. destruct (mag_lower n d Hn Hd) as [H1 _].
  destruct (Z_le_gt_dec (mag n d) 53) as [|Hgt]; [done|exfalso].
  specialize (H1 ltac:(lia)).
  assert (2 ^ 53 <= 2 ^ (mag n d - 1)) by (apply Z.pow_le_mono_r; lia).
  nia.
Qed.

(** An integer below [2^53] is a float. *)
Lemma round_integer (n : Z) :
  0 < n < 2 ^ 53 ->
  exists u, u <= 0 /\ round n 1 = Finite (n * 2 ^ (- u)) u.
Proof.
  intros [Hn Hlt].
  assert (He : mag n 1 <= 53) by (apply mag_le_prec; lia).
  unfold round. destruct (n =? 0) eqn:E0; [lia|]. clear E0.
  rewrite Z.abs_eq by lia.
  set (e := mag n 1) in *. set (u := Z.max (e - prec) emin).
  assert (Hu : u <= 0) by (unfold u, prec, emin; lia).
  exists u. split; [exact Hu|].
  assert (Hs : scaled n 1 u = (n * 2 ^ (- u), 1)).
  { unfold scaled. destruct (0 <=? u) eqn:E; [|reflexivity].
    apply Z.leb_le in E. assert (u = 0) as -> by lia. cbn. f_equal. lia. }
  rewrite Hs, nearest_even_whole.
  replace (emax <? e) with false by (symmetry; apply Z.ltb_ge; unfold emax; lia).
  replace (e =? emax) with false by (symmetry; apply Z.eqb_neq; unfold emax; lia).
  cbn [orb andb]. rewrite Z.sgn_pos by lia. f_equal. lia.
Qed.

End Float_facts.

Section Quotients.

Lemma ratio_bounds (n d k F A : Z) :
  0 < n -> 0 < d -> 0 < k < A -> 0 < F -> n * F = k * d ->
  let N := k / F in
  n < d * A /\ (N * d <= n < (N + 1) * d) /\ d <= ((N + 1) * d - n) * F /\ 0 <= N.
Proof.
  intros Hn Hd [Hk HkA] HF E N.
  assert (HN : N * F <= k < (N + 1) * F).
  { pose proof (Z.mul_div_le k F HF). pose proof (Z.mul_succ_div_gt k F HF).
    subst N. lia. }
  assert (H0 : 0 <= N) by (apply Z.div_pos; lia).
  destruct HN as [HN1 HN2].
  assert (E1 : N * d <= n).
  { apply (Z.mul_le_mono_pos_r _ _ F HF).
    replace (N * d * F) with (N * F * d) by ring. rewrite E.
    apply Z.mul_le_mono_nonneg_r; lia. }
  assert (E2 : n < (N + 1) * d).
  { apply (Z.mul_lt_mono_pos_r F _ _ HF).
    replace ((N + 1) * d * F) with ((N + 1) * F * d) by ring. rewrite E.
    apply Z.mul_lt_mono_pos_r; lia. }
  assert (E3 : d <= ((N + 1) * d - n) * F).
  { replace (((N + 1) * d - n) * F) with (d * ((N + 1) * F - k)).
    - rewrite <- (Z.mul_1_r d) at 1. apply Z.mul_le_mono_nonneg_l; lia.
    - rewrite Z.mul_sub_distr_r, E. ring. }
  assert (E4 : n < d * A).
  { apply (Z.mul_lt_mono_pos_r F _ _ HF). rewrite E.
    apply Z.le_lt_trans with (k * d * 1); [lia|].
    replace (d * A * F) with (d * (A * F)) by ring.
    replace (k * d * 1) with (d * k) by ring.
    apply Z.mul_lt_mono_pos_l; [lia|]. 
    apply Z.lt_le_trans with (A * 1); [lia|]. apply Z.mul_le_mono_nonneg_l; lia. }
  auto.
Qed.

(** From [N * P <= m < (N + 1) * P]. *)
Lemma quotient_between (m N P : Z) :
  0 < P -> N * P <= m < (N + 1) * P -> m / P = N.
Proof.
  intros HP [H1 H2]. symmetry. apply (Z.div_unique m P N (m - N * P)); lia.
Qed.

(** The nearest integer to [y = n * P / d] stays below [(N + 1) * P] when
    [n / d] is at least [1 / F] below [N + 1] and [F < 2 * P]. *)
Lemma nearest_below (n d N P F m : Z) :
  0 < d -> 0 < P -> 0 < F -> F < 2 * P ->
  N * d <= n < (N + 1) * d -> d <= ((N + 1) * d - n) * F ->
  (n * P / d <= m <= n * P / d + 1) ->
  (m = n * P / d + 1 -> d <= 2 * ((n * P) mod d)) ->
  N * P <= m < (N + 1) * P.
Proof.
  intros Hd HP HF HFP [Hn1 Hn2] Hgap [Hm1 Hm2] Hup.
  set (y := n * P / d) in *.
  pose proof (Z.div_mod (n * P) d ltac:(lia)) as Ey. fold y in Ey.
  pose proof (Z.mod_pos_bound (n * P) d Hd) as Hr.
  set (r := (n * P) mod d) in *.
  assert (Hy1 : N * P <= y).
  { subst y. apply Z.div_le_lower_bound; [lia|].
    replace (d * (N * P)) with (N * d * P) by ring.
    apply Z.mul_le_mono_nonneg_r; lia. }
  assert (Hy2 : y < (N + 1) * P).
  { subst y. apply Z.div_lt_upper_bound; [lia|].
    replace (d * ((N + 1) * P)) with ((N + 1) * d * P) by ring.
    apply Z.mul_lt_mono_pos_r; lia. }
  split; [lia|].
  destruct (Z.eq_dec m (y + 1)) as [Em|Em]; [|lia].
  specialize (Hup Em).
  destruct (Z.eq_dec (y + 1) ((N + 1) * P)) as [Etop|]; [exfalso|lia].
  (* then [r = d - ((N+1) d - n) P], and [2 r < d] *)
  assert (Er : r = d - ((N + 1) * d - n) * P).
  { assert (y = (N + 1) * P - 1) as Ey' by lia. rewrite Ey' in Ey.
    replace (((N + 1) * d - n) * P) with ((N + 1) * P * d - n * P) by ring. lia. }
  set (g := (N + 1) * d - n) in *.
  assert (Hg : 0 < g) by (subst g; lia).
  (* d <= g F < 2 g P, so d < 2 g P, so 2 r = 2d - 2 g P < d *)
  assert (g * F < g * (2 * P)) by (apply Z.mul_lt_mono_pos_l; lia).
  lia.
Qed.

End Quotients.

Section Float_floor.
Import Float.

Lemma rate_below_two_ulps (n d k F : Z) :
  0 < n -> 0 < d -> 0 < k < 2 ^ 53 -> 0 < F < 2 ^ 53 -> n * F = k * d ->
  F < 2 * 2 ^ (- Z.max (mag n d - prec) emin).
Proof.
  intros Hn Hd [Hk Hk53] [HF HF53] E.
  destruct (mag_lower n d Hn Hd) as [Hlow1 Hlow2].
  assert (He53 : mag n d <= 53).
  { apply mag_le_prec; try done.
    by destruct (ratio_bounds n d k F (2 ^ 53) Hn Hd (conj Hk Hk53) HF E) as (? & _). }
  set (e := mag n d) in *.
  destruct (Z_le_gt_dec (e - prec) emin) as [Hsub|Hnorm].
  - rewrite Z.max_r by lia. unfold emin. cbn [Z.opp].
    assert (2 ^ 53 <= 2 ^ 1074) by (apply Z.pow_le_mono_r; lia). lia.
  - rewrite Z.max_l by lia. unfold prec, emin in *.
    rewrite <- (Z.pow_succ_r 2) by lia.
    replace (Z.succ (- (e - 53))) with (54 - e) by lia.
    destruct (Z_le_gt_dec 1 e) as [H1|H1].
    + specialize (Hlow1 H1).
      assert (ET : 2 ^ 53 = 2 ^ (e - 1) * 2 ^ (54 - e)).
      { rewrite <- Z.pow_add_r by lia. f_equal. lia. }
      set (A := 2 ^ (e - 1)) in *. set (B := 2 ^ (54 - e)) in *.
      assert (HA : 0 < A) by (apply Z.pow_pos_nonneg; lia).
      assert (HFA : F * A <= k).
      { apply (Z.mul_le_mono_pos_r _ _ d Hd).
        rewrite <- E. replace (F * A * d) with (d * A * F) by ring.
        apply Z.mul_le_mono_nonneg_r; lia. }
      apply (Z.mul_lt_mono_pos_l A); [exact HA|].
      rewrite <- ET. lia.
    + specialize (Hlow2 ltac:(lia)).
      assert (ET : 2 ^ (54 - e) = 2 ^ 53 * 2 ^ (1 - e)).
      { rewrite <- Z.pow_add_r by lia. f_equal. lia. }
      rewrite ET. set (C := 2 ^ (1 - e)) in *.
      assert (HC : 0 < C) by (apply Z.pow_pos_nonneg; lia).
      assert (HFC : F <= k * C).
      { apply (Z.mul_le_mono_pos_r _ _ d Hd).
        replace (k * C * d) with (k * d * C) by ring. rewrite <- E.
        replace (n * F * C) with (n * C * F) by ring.
        rewrite (Z.mul_comm F d). apply Z.mul_le_mono_nonneg_r; lia. }
      apply Z.le_lt_trans with (k * C); [exact HFC|].
      apply Z.mul_lt_mono_pos_r; lia.
Qed.

(** Rounding a quotient of integers below [2^53] does not reach the next
    integer: truncating the float gives the integer quotient. *)
Lemma round_floor (n d k F : Z) :
  0 < n -> 0 < d -> 0 < k < 2 ^ 53 -> 0 < F < 2 ^ 53 -> n * F = k * d ->
  to_int (round n d) = Returns (k / F).
Proof.
  intros Hn Hd Hk HF Hratio.
  pose proof (rate_below_two_ulps n d k F Hn Hd Hk HF Hratio) as HFP.
  destruct (ratio_bounds n d k F (2 ^ 53) Hn Hd Hk ltac:(lia) Hratio)
    as (Hlt & HNd & Hgap & HN0).
  assert (He : mag n d <= 53) by (by apply mag_le_prec).
  unfold round. destruct (n =? 0) eqn:E0; [lia|]. clear E0.
  rewrite Z.abs_eq by lia.
  set (e := mag n d) in *. set (u := Z.max (e - prec) emin) in *.
  assert (Hu : u <= 0) by (unfold u, prec, emin; lia).
  set (P := 2 ^ (- u)) in *.
  assert (HP : 0 < P) by (apply Z.pow_pos_nonneg; lia).
  assert (Hm : exists m, nearest_even (fst (scaled n d u)) (snd (scaled n d u)) = m /\
                         (k / F) * P <= m < (k / F + 1) * P).
  { assert (Hs : exists d', scaled n d u = (n * P, d') /\ d' = d).
    { unfold scaled. destruct (0 <=? u) eqn:E.
      - apply Z.leb_le in E. assert (u = 0) as Eu by lia. subst P. rewrite Eu. cbn.
        exists (d * 1). split; [f_equal; lia|lia].
      - exists d. done. }
    destruct Hs as (d' & -> & ->). cbn [fst snd].
    eexists. split; [reflexivity|].
    destruct (nearest_even_bounds (n * P) d Hd) as [Hb Hup].
    apply (nearest_below n d (k / F) P F); try done; lia. }
  destruct Hm as (m & Em & Hm).
  destruct (scaled n d u) as [n' d'] eqn:Es. cbn [fst snd] in Em. rewrite Em.
  replace (emax <? e) with false by (symmetry; apply Z.ltb_ge; unfold emax; lia).
  replace (e =? emax) with false by (symmetry; apply Z.eqb_neq; unfold emax; lia).
  cbn [orb andb]. rewrite Z.sgn_pos, Z.mul_1_l by lia.
  unfold to_int. f_equal.
  assert (H0m : 0 <= m) by nia.
  destruct (0 <=? u) eqn:E.
  - apply Z.leb_le in E. assert (u = 0) as Eu by lia.
    subst P. rewrite Eu in *. cbn in Hm |- *. lia.
  - fold P. rewrite Z.quot_div_nonneg by lia. by apply quotient_between.
Qed.

End Float_floor.

Section Float_quotients.
Import Float.

Lemma of_Z_pos (k : Z) :
  0 < k < 2 ^ 53 -> exists u, u <= 0 /\ of_Z k = Finite (k * 2 ^ (- u)) u.
Proof. apply round_integer. Qed.

(** [int(k / F)] for whole numbers below [2^53] is the integer quotient. *)
Lemma div_whole (k F : Z) :
  0 <= k < 2 ^ 53 -> 0 < F < 2 ^ 53 ->
  is_zero (of_Z F) = false /\
  to_int (div (of_Z k) (of_Z F)) = Returns (k / F).
Proof.
  intros [Hk Hk53] HF.
  destruct (of_Z_pos F HF) as (u2 & Hu2 & E2). rewrite E2.
  assert (HP2 : 0 < 2 ^ (- u2)) by (apply Z.pow_pos_nonneg; lia).
  assert (Hm2 : 0 < F * 2 ^ (- u2)) by (apply Z.mul_pos_pos; lia).
  split.
  { cbn [is_zero]. apply Z.eqb_neq. lia. }
  destruct (Z.eq_dec k 0) as [->|Hk0].
  { change (of_Z 0) with (Finite 0 0). cbn [div].
    rewrite Z.mul_0_r. rewrite Z.mul_0_l.
    destruct (u2 <=? 0); reflexivity. }
  destruct (of_Z_pos k ltac:(lia)) as (u1 & Hu1 & E1). rewrite E1.
  assert (HP1 : 0 < 2 ^ (- u1)) by (apply Z.pow_pos_nonneg; lia).
  assert (Hm1 : 0 < k * 2 ^ (- u1)) by (apply Z.mul_pos_pos; lia).
  cbn [div]. rewrite Z.sgn_pos, Z.mul_1_l, Z.abs_eq by lia.
  destruct (u2 <=? u1) eqn:E.
  - apply Z.leb_le in E.
    assert (0 < 2 ^ (u1 - u2)) by (apply Z.pow_pos_nonneg; lia).
    apply round_floor; try lia.
    all: try (apply Z.mul_pos_pos; lia).
    replace (- u2) with (- u1 + (u1 - u2)) by lia.
    rewrite Z.pow_add_r by lia. ring.
  - apply Z.leb_gt in E.
    assert (0 < 2 ^ (u2 - u1)) by (apply Z.pow_pos_nonneg; lia).
    apply round_floor; try lia.
    all: try (apply Z.mul_pos_pos; lia).
    replace (- u1) with (- u2 + (u2 - u1)) by lia.
    rewrite Z.pow_add_r by lia. ring.
Qed.

(** [int(-1 / F)]. *)
Lemma div_minus_one (F : Z) :
  0 < F < 2 ^ 53 ->
  to_int (div (of_Z (-1)) (of_Z F)) = Returns (- (1 / F)).
Proof.
  intros HF.
  destruct (div_whole 1 F ltac:(lia) HF) as [_ H].
  destruct (of_Z_pos F HF) as (u2 & Hu2 & E2). rewrite E2 in *.
  assert (HP2 : 0 < 2 ^ (- u2)) by (apply Z.pow_pos_nonneg; lia).
  assert (Hm2 : 0 < F * 2 ^ (- u2)) by (apply Z.mul_pos_pos; lia).
  change (of_Z 1) with (Finite 4503599627370496 (-52)) in H.
  change (of_Z (-1)) with (Finite (Z.opp 4503599627370496) (-52)).
  cbn [div] in *. rewrite Z.sgn_pos, Z.mul_1_l, Z.abs_eq in * by lia.
  assert (Hopp : forall n d, 0 < n -> 0 < d -> forall z,
            to_int (round n d) = Returns z -> to_int (round (- n) d) = Returns (- z)).
  { intros n d Hn Hd z. unfold round.
    destruct (n =? 0) eqn:E0; [lia|]. destruct (- n =? 0) eqn:E0'; [lia|].
    rewrite Z.abs_opp. destruct (scaled (Z.abs n) d _) as [n' d'] eqn:Es.
    destruct (_ || _); [discriminate|].
    rewrite Z.sgn_opp, Z.mul_opp_l. unfold to_int.
    intros [= <-]. f_equal.
    destruct (0 <=? _) eqn:Eu; [ring|].
    apply Z.leb_gt in Eu. rewrite Z.quot_opp_l; [reflexivity|].
    apply Z.pow_nonzero; lia. }
  destruct (u2 <=? -52) eqn:E.
  - apply Z.leb_le in E.
    assert (0 < 2 ^ (-52 - u2)) by (apply Z.pow_pos_nonneg; lia).
    rewrite Z.mul_opp_l. apply Hopp; [lia | lia | exact H].
  - apply Hopp; [lia | | exact H].
    apply Z.leb_gt in E.
    assert (0 < 2 ^ (u2 - -52)) by (apply Z.pow_pos_nonneg; lia).
    apply Z.mul_pos_pos; lia.
Qed.

End Float_quotients.

Section Capacity_edges.

Lemma arange_length (npts inc : Z) l :
  Numpy.arange 0 npts inc = Returns l ->
  Z.of_nat (length l) = Z.max 0 (Numpy.ceil_div npts inc).
Proof.
  unfold Numpy.arange. destruct (inc =? 0); [discriminate|]. intros [= <-].
  rewrite length_map, length_seq, Z.sub_0_r. lia.
Qed.

(** For a whole-number sampling rate the float quotient is exact enough:
    the capacity is the integer quotient. *)
Lemma vector_len_whole (inc npts F : Z) :
  0 < inc -> 0 < npts <= 2 ^ 53 -> 0 < F < 2 ^ 53 ->
  vector_len inc npts (inject_Z F) = Returns ((npts - 1) / inc / F).
Proof.
  intros Hi Hn HF. unfold vector_len, Numpy.arange.
  destruct (inc =? 0) eqn:E; [lia|]. clear E.
  rewrite length_map, length_seq, Z.sub_0_r, ceil_div_pos by lia.
  assert (H0 : 0 <= (npts - 1) / inc) by (apply Z.div_pos; lia).
  assert (H1 : (npts - 1) / inc <= npts - 1).
  { apply Z.div_le_upper_bound; [lia|]. nia. }
  rewrite Z2Nat.id by lia.
  replace ((npts - 1) / inc + 1 - 1) with ((npts - 1) / inc) by lia.
  change (Float.of_Q (inject_Z F)) with (Float.of_Z F).
  destruct (div_whole ((npts - 1) / inc) F ltac:(lia) HF) as [-> ->].
  reflexivity.
Qed.

Lemma vector_len_empty_record (inc F : Z) :
  0 < inc -> 0 < F < 2 ^ 53 ->
  vector_len inc 0 (inject_Z F) = Returns (- (1 / F)).
Proof.
  intros Hi HF. unfold vector_len, Numpy.arange.
  destruct (inc =? 0) eqn:E; [lia|]. clear E.
  rewrite length_map, length_seq. unfold Numpy.ceil_div. cbn [Z.sub Z.opp].
  rewrite Z.div_0_l by lia. cbn [Z.opp Z.to_nat Z.of_nat Z.sub Z.add Z.opp Z.pos_sub].
  change (Float.of_Q (inject_Z F)) with (Float.of_Z F).
  destruct (div_whole 0 F ltac:(lia) HF) as [-> _].
  apply div_minus_one, HF.
Qed.

(** X7: the column capacity [int((len(np.arange(0, npts, sampinc)) - 1) / Fs)]
    at its edges.  A zero increment (a window step shorter than one second)
    and a zero sampling rate raise [ZeroDivisionError].  For a record with
    samples, a positive increment and a whole-number sampling rate [F]
    (sizes below [2^53]) the float quotient truncates to the integer
    quotient [((npts - 1) // sampinc) // F], which is not negative.  For a
    record without samples the count of increments is -1: truncation
    toward zero turns it into capacity 0 when [F > 1], and into capacity -1,
    which [np.empty] refuses with [ValueError], when [F = 1].  For a rate
    that is not a whole number the rounding of the float quotient shows:
    with three increments and the binary64 value of 0.1 as rate the
    capacity is 30, although 30 increments at that rate exceed 3. *)
Theorem vector_len_edges (inc npts F : Z) (Fs : Q) :
  vector_len 0 npts Fs = Raises ZeroDivisionError /\
  (inc <> 0 -> (Fs == 0)%Q -> vector_len inc npts Fs = Raises ZeroDivisionError) /\
  (0 < inc -> 0 < npts <= 2 ^ 53 -> 0 < F < 2 ^ 53 ->
   vector_len inc npts (inject_Z F) = Returns ((npts - 1) / inc / F) /\
   0 <= (npts - 1) / inc / F) /\
  (0 < inc -> 1 < F < 2 ^ 53 -> vector_len inc 0 (inject_Z F) = Returns 0) /\
  (0 < inc ->
   vector_len inc 0 1 = Returns (-1) /\
   forall (g : nat -> nat -> Q) rows, Numpy.empty g rows (-1) = Raises ValueError) /\
  (let tenth := (3602879701896397 # 36028797018963968)%Q in
   Float.of_Q (1 # 10) = Float.of_Q tenth /\
   vector_len 1 4 tenth = Returns 30 /\
   (inject_Z 3 < inject_Z 30 * tenth)%Q).
Proof.
  split; [reflexivity|].
  split.
  { intros Hi HF. unfold vector_len, Numpy.arange.
    destruct (inc =? 0) eqn:E; [lia|].
    assert (E0 : Qnum Fs = 0).
    { destruct Fs as [a b]. unfold Qeq in HF. cbn in *. lia. }
    unfold Float.of_Q. rewrite E0. reflexivity. }
  split.
  { intros Hi Hn HF. split; [by apply vector_len_whole|].
    apply Z.div_pos; [|lia]. apply Z.div_pos; lia. }
  split.
  { intros Hi HF. rewrite vector_len_empty_record by lia.
    rewrite Z.div_small by lia. reflexivity. }
  split.
  { intros Hi. split.
    - apply (vector_len_empty_record inc 1 Hi). lia.
    - intros g rows. unfold Numpy.empty. by rewrite orb_true_r. }
  cbv zeta. repeat split; vm_compute; reflexivity.
Qed.

End Capacity_edges.


(** A session that bound [data_dir] and [calib] before a 'local' run: the
    two traces read are scaled by 2. *)
Lemma local_acquisition_calibrates_once_example :
  let cfg := Example.with_SOURCE "local" Example.shipped in
  let ext := Example.world 2 1 (fun _ => 3%nat) in
  let s := initial (mkNamespace None None None (Some "data/") (Some 2%Q) None None) in
  fst (gather_data cfg ext s) = Returns tt /\
  st (snd (gather_data cfg ext s))
  = Some (map (fun tr => mkTrace (map (Qmult 2) (data tr)) (latitude tr) (longitude tr))
              (Example.array_of 2)).
Proof.
  intros cfg ext s.
  pose proof (local_acquisition_calibrates_once cfg ext s "data/" 2%Q
                (Example.array_of 2) (Example.array_of 2)
                eq_refl eq_refl eq_refl eq_refl eq_refl) as H.
  cbv zeta in H. exact (conj (proj1 H) (proj1 (proj2 H))).
Defined.

(** A mode the script does not know, with a collection bound: the section
    stops at [sampinc]. *)
Lemma unknown_window_mode_allocates_nothing_example :
  let cfg := Example.with_window_length "fixed" Example.shipped in
  let s := set_st (Example.array_of 10) (initial fresh) in
  initialize_arrays cfg (Example.world 10 1 (fun _ => 3%nat)) Example.zeros 1 [] [] s
  = (Raises (NameError "sampinc"), s).
Proof.
  intros cfg s.
  assert (H1 : window_length cfg <> "constant") by (cbn; discriminate).
  assert (H2 : window_length cfg <> "adaptive") by (cbn; discriminate).
  exact (unknown_window_mode_allocates_nothing cfg (Example.world 10 1 (fun _ => 3%nat))
           Example.zeros 1 [] [] s H1 H2 eq_refl).
Defined.

